(** * smooai_file: the metadata resolution cascade and the File entity

    A shallow embedding of the Python package [smooai_file]
    ([_source.py], [_metadata.py], [_content_disposition.py],
    [_detection.py], [_file.py]) and the properties of its metadata
    resolver, its Content-Disposition parser and its File entity.

    Conventions of the embedding.
    - A Python [str] is a [string]: a sequence of characters with code
      points 0..255 (ISO-8859-1), the range in which [str.lower],
      [str.isspace] and the classes of [re] are modelled.  A text with a
      code point above 255 is outside the embedding, and a property of a
      [string] says nothing about it.  [bytes] is [list byte].
    - [None] is [None]; a value that is "falsy" in Python ([None] or the
      empty string / empty bytes) is tested with [truthy] / [truthy_bytes].
    - A raised exception is the left injection of a sum, and a method that
      mutates [self] or the outside world returns the new entity and world
      next to its result, also when it raises.
    - Functions of external libraries (puremagic, mimetypes, urllib, email,
      the [int] constructor, [os.path.abspath]) are the fields of a record
      [Env] that the definitions take as their first argument; the
      patterns the package hands to [re] are translated to a small
      backtracking matcher.
    - The operating system is a record [World]: the files a path can be
      read from, each with its content, the size and the times [os.stat]
      reports for it, and, for every path and every mode the package
      writes in, whether [open] lets the path be written as a regular
      file, raises, or opens something that is no regular file.  The
      times of a file are values of [datetime]: a file dated outside the
      range of [datetime], for which [datetime.fromtimestamp] raises, is
      not a file of these worlds. *)

From Stdlib Require Import ZArith Lia Bool Ascii.
From stdpp Require Import base option list gmap strings.

Local Open Scope stdpp_scope.

(** ** Characters and strings as Python has them *)

Module Py.

Definition bytes := list Byte.byte.

(** [bool(x)] for an optional string: [None] and the empty string are false. *)
Definition truthy (o : option string) : bool :=
  match o with
  | Some (String _ _) => true
  | _ => false
  end.

(** [bool(data)] for optional bytes. *)
Definition truthy_bytes (o : option bytes) : bool :=
  match o with
  | Some (_ :: _) => true
  | _ => false
  end.

(** [str.isspace] on one character (code points below 256). *)
Definition isspace (c : ascii) : bool :=
  let n := nat_of_ascii c in
  ((9 <=? n) && (n <=? 13)) || ((28 <=? n) && (n <=? 32))
  || (n =? 133) || (n =? 160).

(** Lower case of an ASCII letter, as [re.IGNORECASE] folds it. *)
Definition lower (c : ascii) : ascii :=
  let n := nat_of_ascii c in
  if (65 <=? n) && (n <=? 90) then ascii_of_nat (n + 32) else c.

Fixpoint startswith (p s : string) : bool :=
  match p, s with
  | EmptyString, _ => true
  | String a p', String b s' => Ascii.eqb a b && startswith p' s'
  | String _ _, EmptyString => false
  end.

(** [p] occurs in [s] as a substring ([p in s]). *)
Fixpoint occurs (p s : string) : bool :=
  startswith p s ||
  match s with
  | EmptyString => false
  | String _ s' => occurs p s'
  end.

(** [c in s] for one character. *)
Fixpoint has_char (c : ascii) (s : string) : bool :=
  match s with
  | EmptyString => false
  | String a s' => Ascii.eqb a c || has_char c s'
  end.

Fixpoint all_chars (p : ascii -> bool) (s : string) : bool :=
  match s with
  | EmptyString => true
  | String a s' => p a && all_chars p s'
  end.

(** First character test, false on the empty string. *)
Definition head_is (p : ascii -> bool) (s : string) : bool :=
  match s with
  | EmptyString => false
  | String a _ => p a
  end.

Fixpoint drop (n : nat) (s : string) : string :=
  match n, s with
  | O, _ => s
  | S n', String _ s' => drop n' s'
  | S _, EmptyString => EmptyString
  end.

Fixpoint take (n : nat) (s : string) : string :=
  match n, s with
  | O, _ => EmptyString
  | S n', String a s' => String a (take n' s')
  | S _, EmptyString => EmptyString
  end.

(** [s.lstrip(chars)], the characters given as a predicate. *)
Fixpoint lstrip (p : ascii -> bool) (s : string) : string :=
  match s with
  | String a s' => if p a then lstrip p s' else s
  | EmptyString => EmptyString
  end.

Fixpoint rstrip (p : ascii -> bool) (s : string) : string :=
  match s with
  | EmptyString => EmptyString
  | String a s' =>
      match rstrip p s' with
      | EmptyString => if p a then EmptyString else String a EmptyString
      | r => String a r
      end
  end.

(** [s.strip()] and [s.strip(chars)]. *)
Definition strip_by (p : ascii -> bool) (s : string) : string :=
  rstrip p (lstrip p s).

Definition strip (s : string) : string := strip_by isspace s.

(** The double quote character. *)
Definition dquote : ascii := "034"%char.

Definition is_quote (c : ascii) : bool := Ascii.eqb c dquote.

(** [s.rfind(c)]: the index of the last occurrence of a character. *)
Fixpoint rfind (c : ascii) (s : string) : option nat :=
  match s with
  | EmptyString => None
  | String a s' =>
      match rfind c s' with
      | Some i => Some (S i)
      | None => if Ascii.eqb a c then Some O else None
      end
  end.

(** [s.find(p)]: the index of the first occurrence of a substring. *)
Fixpoint find (p s : string) : option nat :=
  if startswith p s then Some O
  else match s with
       | EmptyString => None
       | String _ s' => S <$> find p s'
       end.

(** [s.replace(old, new, 1)]: only the first occurrence is replaced. *)
Definition replace_first (old new s : string) : string :=
  match find old s with
  | Some i => take i s +:+ new +:+ drop (i + String.length old) s
  | None => s
  end.

(** [s.split(sep, 1)] for a separator of one character: one or two
    parts. *)
Fixpoint split_once (sep : ascii) (s : string) : list string :=
  match s with
  | EmptyString => [EmptyString]
  | String a s' =>
      if Ascii.eqb a sep then [EmptyString; s']
      else match split_once sep s' with
           | x :: rest => String a x :: rest
           | [] => []
           end
  end.

(** [posixpath.basename]: what follows the last ["/"]. *)
Definition basename (p : string) : string :=
  match rfind "/"%char p with
  | Some i => drop (S i) p
  | None => p
  end.

(** [posixpath.splitext]: the extension starts at the last dot of the
    last path component, leading dots of that component not counted. *)
Definition splitext (p : string) : string * string :=
  let filename_index :=
    match rfind "/"%char p with Some i => S i | None => O end in
  match rfind "."%char p with
  | Some dot_index =>
      if (filename_index <=? dot_index)%nat
         && negb (all_chars (Ascii.eqb "."%char)
                    (take (dot_index - filename_index) (drop filename_index p)))
      then (take dot_index p, drop dot_index p)
      else (p, EmptyString)
  | None => (p, EmptyString)
  end.

End Py.

(** ** The fragment of Python's [re] that the parser's patterns use

    A backtracking matcher in continuation-passing style: [exec r s g k]
    matches [r] at the head of [s] and hands the rest of the input and the
    text of group 1 to [k]; when [k] fails the matcher tries its next
    alternative, in the order in which [re] tries them (a greedy
    repetition gives characters back one at a time, a lazy one takes them
    one at a time).  Repetition is over one-character classes, which is
    all the two patterns need. *)

Module Re.
Import Py.

Inductive regex : Type :=
| Eps                             (* the empty pattern *)
| Lit (c : ascii)                 (* a literal character *)
| LitI (c : ascii)                (* a literal under re.IGNORECASE *)
| Seq (r1 r2 : regex)             (* r1 r2 *)
| Alt (r1 r2 : regex)             (* r1|r2 *)
| Opt (r : regex)                 (* (?:r)? *)
| Star (p : ascii -> bool)        (* [p]* *)
| Plus (p : ascii -> bool)        (* [p]+ *)
| PlusLazy (p : ascii -> bool)    (* [p]+? *)
| Eos                             (* $ *)
| Group (r : regex).              (* ( r ), group 1 *)

(** [.] without re.DOTALL. *)
Definition dot (c : ascii) : bool := negb (Ascii.eqb c "010"%char).

(** The class of every character but the double quote and the
    semicolon. *)
Definition not_quote_semi (c : ascii) : bool :=
  negb (Ascii.eqb c dquote) && negb (Ascii.eqb c ";"%char).

(** A word of literals. *)
Fixpoint lits (w : string) (tail : regex) : regex :=
  match w with
  | EmptyString => tail
  | String c w' => Seq (Lit c) (lits w' tail)
  end.

Fixpoint litsI (w : string) (tail : regex) : regex :=
  match w with
  | EmptyString => tail
  | String c w' => Seq (LitI c) (litsI w' tail)
  end.

Section Exec.
Context {R : Type}.

Definition cont := string -> option string -> option R.

(** Greedy [[p]*]: take all, then give back. *)
Fixpoint star (p : ascii -> bool) (s : string) (g : option string)
    (k : cont) : option R :=
  match s with
  | String c s' =>
      if p c then
        match star p s' g k with
        | Some r => Some r
        | None => k s g
        end
      else k s g
  | EmptyString => k s g
  end.

(** Lazy [[p]*?]: try the continuation first, then take one more. *)
Fixpoint star_lazy (p : ascii -> bool) (s : string) (g : option string)
    (k : cont) : option R :=
  match k s g with
  | Some r => Some r
  | None =>
      match s with
      | String c s' => if p c then star_lazy p s' g k else None
      | EmptyString => None
      end
  end.

Fixpoint exec (r : regex) (s : string) (g : option string) (k : cont)
    : option R :=
  match r with
  | Eps => k s g
  | Lit c =>
      match s with
      | String a s' => if Ascii.eqb a c then k s' g else None
      | EmptyString => None
      end
  | LitI c =>
      match s with
      | String a s' => if Ascii.eqb (lower a) (lower c) then k s' g else None
      | EmptyString => None
      end
  | Seq r1 r2 => exec r1 s g (fun s' g' => exec r2 s' g' k)
  | Alt r1 r2 =>
      match exec r1 s g k with
      | Some x => Some x
      | None => exec r2 s g k
      end
  | Opt r1 =>
      match exec r1 s g k with
      | Some x => Some x
      | None => k s g
      end
  | Star p => star p s g k
  | Plus p =>
      match s with
      | String c s' => if p c then star p s' g k else None
      | EmptyString => None
      end
  | PlusLazy p =>
      match s with
      | String c s' => if p c then star_lazy p s' g k else None
      | EmptyString => None
      end
  | Eos =>
      match s with
      | EmptyString => k s g
      | String c EmptyString => if Ascii.eqb c "010"%char then k s g else None
      | _ => None
      end
  | Group r1 =>
      exec r1 s g
        (fun s' _ => k s' (Some (take (String.length s - String.length s') s)))
  end.
End Exec.

(** [re.match(r, s)]: the text of group 1 of the match at the head. *)
Definition match_at (r : regex) (s : string) : option (option string) :=
  exec r s None (fun _ g => Some g).

(** [re.search(r, s)]: the leftmost position with a match. *)
Fixpoint search (r : regex) (s : string) : option (option string) :=
  match match_at r s with
  | Some g => Some g
  | None =>
      match s with
      | String _ s' => search r s'
      | EmptyString => None
      end
  end.

(** [m.group(1)] of a successful search. *)
Definition group1 (m : option (option string)) : option string :=
  match m with
  | Some (Some g) => Some g
  | _ => None
  end.

End Re.

(** ** _content_disposition.py *)

Module ContentDisposition.
Import Py Re.

(** The pattern of the extended form:
    filename\*\s*=\s*(?:UTF-8|utf-8)?''(.+?)(?:;|$) *)
Definition star_pattern : regex :=
  lits "filename*"
    (Seq (Star isspace)
    (Seq (Lit "="%char)
    (Seq (Star isspace)
    (Seq (Opt (Alt (lits "UTF-8" Eps) (lits "utf-8" Eps)))
    (lits "''"
    (Seq (Group (PlusLazy dot))
         (Alt (Lit ";"%char) Eos))))))).

(** The pattern of the plain form, compiled with re.IGNORECASE:
    filename, \s*, =, \s*, an optional double quote, group 1 of one or
    more characters that are neither a double quote nor a semicolon, an
    optional double quote. *)
Definition plain_pattern : regex :=
  litsI "filename"
    (Seq (Star isspace)
    (Seq (LitI "="%char)
    (Seq (Star isspace)
    (Seq (Opt (LitI dquote))
    (Seq (Group (Plus not_quote_semi))
         (Opt (LitI dquote))))))).

Section Parse.
(** [urllib.parse.unquote]. *)
Variable unquote : string -> string.

Definition parse_content_disposition (header_value : string)
    : option string * option string :=
  match header_value with
  | EmptyString => (None, None)
  | _ =>
      let filename : option string := None in
      (* Try filename*= (RFC 5987) first -- it takes priority *)
      let filename :=
        match search star_pattern header_value with
        | Some m => Some (unquote (strip (default EmptyString m)))
        | None => filename
        end in
      (* Fall back to plain filename= *)
      let filename :=
        match filename with
        | None =>
            match search plain_pattern header_value with
            | Some m =>
                Some (strip_by is_quote (strip (default EmptyString m)))
            | None => None
            end
        | Some _ => filename
        end in
      match filename with
      | None => (None, None)
      | Some fn =>
          let ext := snd (splitext fn) in
          (Some fn, if truthy (Some ext) then Some ext else None)
      end
  end.
End Parse.

End ContentDisposition.

(** ** _source.py *)

Inductive FileSource : Type := URL | BYTES | FILE | STREAM | S3.

(** The value of a member of the enumeration. *)
Definition FileSource_value (s : FileSource) : string :=
  match s with
  | URL => "Url"
  | BYTES => "Bytes"
  | FILE => "File"
  | STREAM => "Stream"
  | S3 => "S3"
  end.

(** The name of a member with the name of its class, as [str(member)]
    prints it. *)
Definition FileSource_name (s : FileSource) : string :=
  match s with
  | URL => "FileSource.URL"
  | BYTES => "FileSource.BYTES"
  | FILE => "FileSource.FILE"
  | STREAM => "FileSource.STREAM"
  | S3 => "FileSource.S3"
  end.

#[global] Instance FileSource_eq_dec : EqDecision FileSource.
Proof. solve_decision. Defined.

(** ** The external collaborators

    What the package calls and does not define: the libraries puremagic,
    mimetypes, urllib and email, the built-in [int] and [str.encode], and
    [os.path.abspath] (which reads the working directory).  A failure of
    one of them (a raised exception) is [None]. *)

Definition datetime := Z.

(** One entry of the list [puremagic.magic_string] returns. *)
Record PureMagic := mkPureMagic {
  pm_extension : option string;
  pm_mime_type : option string
}.

Record Env := mkEnv {
  (** [puremagic.magic_string]; [None] is [PureError]. *)
  magic_string : Py.bytes -> option (list PureMagic);
  (** the first component of [mimetypes.guess_type]. *)
  guess_type : string -> option string;
  (** [mimetypes.guess_extension]. *)
  guess_extension : string -> option string;
  (** [int(s)] on a string; [None] is [ValueError]. *)
  py_int : string -> option Z;
  (** [email.utils.parsedate_to_datetime]; [None] is any exception. *)
  parsedate_to_datetime : string -> option datetime;
  (** [urllib.parse.unquote]. *)
  unquote : string -> string;
  (** [urllib.parse.urlparse(url).path]; [None] is any exception. *)
  urlparse_path : string -> option string;
  (** [os.path.abspath]. *)
  abspath : string -> string;
  (** [s.encode] with the codec utf-8. *)
  encode_utf8 : string -> Py.bytes;
  (** [format(member)] of the enumeration [FileSource], as an f-string
      renders a member: its value before Python 3.11, the name of the
      class and of the member from Python 3.11 on. *)
  format_source : FileSource -> string
}.

(** ** _detection.py *)

Module Detection.
Import Py.

Section Detect.
Context (E : Env).

Definition detect_from_bytes (data : bytes) : option string * option string :=
  match data with
  | [] => (None, None)
  | _ =>
      match magic_string E data with
      | Some (best :: _) =>
          (* the first (highest confidence) match *)
          let mime_type :=
            if truthy (pm_mime_type best) then pm_mime_type best else None in
          let extension :=
            if truthy (pm_extension best) then pm_extension best else None in
          (mime_type, extension)
      | Some [] => (None, None)
      | None => (None, None)
      end
  end.

Definition detect_from_extension (filename : string)
    : option string * option string :=
  match filename with
  | EmptyString => (None, None)
  | _ =>
      let mime_type := guess_type E filename in
      let ext := snd (splitext filename) in
      (mime_type, if truthy (Some ext) then Some ext else None)
  end.

Definition extension_from_mime (mime_type : string) : option string :=
  match mime_type with
  | EmptyString => None
  | _ => guess_extension E mime_type
  end.
End Detect.

End Detection.

(** ** _metadata.py *)

Record Metadata := mkMetadata {
  name : option string;
  mime_type : option string;
  size : option Z;
  extension : option string;
  url : option string;
  path : option string;
  hash : option string;
  last_modified : option datetime;
  created_at : option datetime
}.

(** An [httpx.Response], as far as the package reads it.  The header names
    are the keys of [headers] in lower case. *)
Record Response := mkResponse {
  status_code : Z;
  headers : gmap string string;
  content : Py.bytes
}.

(** A [MetadataHint]: a key that is absent and a key bound to [None] read
    the same through [hint.get]. *)
Record MetadataHint := mkHint {
  hint_name : option string;
  hint_mime_type : option string;
  hint_size : option Z;
  hint_extension : option string;
  hint_url : option string;
  hint_path : option string;
  hint_hash : option string;
  hint_last_modified : option datetime;
  hint_created_at : option datetime;
  hint_response : option Response
}.

(** The empty hint, [{}]. *)
Definition no_hint : MetadataHint :=
  mkHint None None None None None None None None None None.

(** [{**hint, "size": v}] and its siblings. *)
Definition hint_with_size (h : MetadataHint) (v : Z) : MetadataHint :=
  mkHint (hint_name h) (hint_mime_type h) (Some v) (hint_extension h)
    (hint_url h) (hint_path h) (hint_hash h) (hint_last_modified h)
    (hint_created_at h) (hint_response h).

Definition hint_with_url (h : MetadataHint) (v : string) : MetadataHint :=
  mkHint (hint_name h) (hint_mime_type h) (hint_size h) (hint_extension h)
    (Some v) (hint_path h) (hint_hash h) (hint_last_modified h)
    (hint_created_at h) (hint_response h).

Definition hint_with_name (h : MetadataHint) (v : string) : MetadataHint :=
  mkHint (Some v) (hint_mime_type h) (hint_size h) (hint_extension h)
    (hint_url h) (hint_path h) (hint_hash h) (hint_last_modified h)
    (hint_created_at h) (hint_response h).

Definition hint_with_path (h : MetadataHint) (v : string) : MetadataHint :=
  mkHint (hint_name h) (hint_mime_type h) (hint_size h) (hint_extension h)
    (hint_url h) (Some v) (hint_hash h) (hint_last_modified h)
    (hint_created_at h) (hint_response h).

(** ** The outside world *)

(** The value under the key ContentLength of an object-storage response:
    an [int], a [str], or something [int] rejects with [TypeError]. *)
Inductive S3Length : Type :=
| LenInt (n : Z)
| LenStr (s : string)
| LenOther.

(** The value under the key LastModified: a [datetime], or a string. *)
Inductive S3Date : Type :=
| DateObj (d : datetime)
| DateStr (s : string).

(** The dict [s3.get_object] returns. *)
Record S3Response := mkS3Response {
  Body : option Py.bytes;
  ContentDisposition : option string;
  ContentType : option string;
  ContentLength : option S3Length;
  ETag : option string;
  LastModified : option S3Date
}.

Inductive Exn : Type :=
| RuntimeError (msg : string)
| ValueError (msg : string)
| TypeError (msg : string)
| OverflowError (msg : string)
| FileNotFoundError (p : string)
| PermissionError (p : string)
| OSError (p : string)
| HTTPError (u : string)
| ClientError (bucket key : string).

(** A file a path can be read from: what a read of the whole file
    returns, the size [os.stat] reports (the length of the content for a
    regular file, not for a file of procfs or a device) and its two
    times. *)
Record FsNode := mkFsNode {
  node_content : Py.bytes;
  node_size : Z;
  node_mtime : datetime;
  node_ctime : datetime
}.

Record StatResult := mkStat {
  st_size : Z;
  st_mtime : datetime;
  st_ctime : datetime
}.

(** The modes in which the package opens a path to write to it. *)
Inductive OpenMode : Type :=
| WriteMode       (* wb: the file is created, or emptied *)
| AppendMode      (* ab: the file is created when it is missing *)
| UpdateMode.     (* r+b: the file has to exist *)

(** What the operating system answers when a path is opened in one of
    these modes.  [Regular]: the path opens as a regular file, which the
    mode creates when it is missing (in the mode r+b, a missing file is
    [FileNotFoundError]).  [Refused e]: [open], or the write that
    follows it, raises [e], for a reason that is not the absence of the
    file itself: a directory of the path is missing, the process may not
    write there, the path is a directory, the device is full.
    [Device]: the path opens and is no regular file; what is written to
    it is not stored. *)
Inductive Opening : Type :=
| Regular
| Refused (e : Exn)
| Device.

(** The filesystem (absolute path to file), what the HTTP client answers
    for a URL, the buckets of the object storage, the clock, the answer
    of the operating system to an [open] for writing, and the largest
    size the filesystem lets a file have.  The filesystem is keyed by
    the path as it is spelled: a second spelling of the path of a file
    (a doubled separator, a link) is a second key, so that a statement
    about the other files of a world is a statement about the other
    keys, and nothing is stated here about a file reached under two
    spellings. *)
Record World := mkWorld {
  fs : gmap string FsNode;
  http : gmap string Response;
  s3_objects : gmap (string * string) S3Response;
  now : datetime;
  opening : OpenMode -> string -> Opening;
  file_size_limit : Z
}.

(** [os.stat]. *)
Definition os_stat (w : World) (p : string) : option StatResult :=
  match fs w !! p with
  | Some n => Some (mkStat (node_size n) (node_mtime n) (node_ctime n))
  | None => None
  end.

Definition set_fs (w : World) (f : gmap string FsNode) : World :=
  mkWorld f (http w) (s3_objects w) (now w) (opening w) (file_size_limit w).

(** A regular file with a new content: its size is the length of the
    content and its times become the clock's. *)
Definition store_file (w : World) (p : string) (data : Py.bytes) : World :=
  set_fs w
    (<[p := mkFsNode data (Z.of_nat (length data)) (now w) (now w)]> (fs w)).

(** The exception that opening [p] in a mode and writing to it raises,
    if it raises one for another reason than the absence of the file. *)
Definition open_error (w : World) (mode : OpenMode) (p : string)
    : option Exn :=
  match opening w mode p with
  | Refused e => Some e
  | _ => None
  end.

(** The world after [p] is opened in the mode wb and [data] is written:
    the file is stored when the path opens as a regular file, and
    nothing changes when [open] raises or when the path is a device. *)
Definition write_file (w : World) (p : string) (data : Py.bytes) : World :=
  match opening w WriteMode p with
  | Regular => store_file w p data
  | _ => w
  end.

(** The world after [p] is opened in the mode ab and [data] is written:
    the bytes follow what the file held, or are all of a file that was
    missing. *)
Definition append_file (w : World) (p : string) (data : Py.bytes) : World :=
  match opening w AppendMode p with
  | Regular =>
      store_file w p (default [] (node_content <$> (fs w !! p)) ++ data)
  | _ => w
  end.

(** ** _file.py: the metadata pipeline *)

Module Resolver.
Import Py Detection ContentDisposition.

(** The local variables of [_build_metadata] are the nine fields of the
    record it returns, so a stage of the cascade maps a [Metadata] to a
    [Metadata]. *)
Definition set_name (v : option string) (m : Metadata) : Metadata :=
  mkMetadata v (mime_type m) (size m) (extension m) (url m) (path m)
    (hash m) (last_modified m) (created_at m).
Definition set_mime_type (v : option string) (m : Metadata) : Metadata :=
  mkMetadata (name m) v (size m) (extension m) (url m) (path m)
    (hash m) (last_modified m) (created_at m).
Definition set_size (v : option Z) (m : Metadata) : Metadata :=
  mkMetadata (name m) (mime_type m) v (extension m) (url m) (path m)
    (hash m) (last_modified m) (created_at m).
Definition set_extension (v : option string) (m : Metadata) : Metadata :=
  mkMetadata (name m) (mime_type m) (size m) v (url m) (path m)
    (hash m) (last_modified m) (created_at m).
Definition set_hash (v : option string) (m : Metadata) : Metadata :=
  mkMetadata (name m) (mime_type m) (size m) (extension m) (url m) (path m)
    v (last_modified m) (created_at m).
Definition set_last_modified (v : option datetime) (m : Metadata) : Metadata :=
  mkMetadata (name m) (mime_type m) (size m) (extension m) (url m) (path m)
    (hash m) v (created_at m).
Definition set_created_at (v : option datetime) (m : Metadata) : Metadata :=
  mkMetadata (name m) (mime_type m) (size m) (extension m) (url m) (path m)
    (hash m) (last_modified m) v.

Section Build.
Context (E : Env).

(** [_filename_from_url]. *)
Definition _filename_from_url (u : option string) : option string :=
  if truthy u then
    match urlparse_path E (default EmptyString u) with
    | Some parsed_path =>
        let b := basename parsed_path in
        if truthy (Some b) && negb (String.eqb b "/") then Some b else None
    | None => None
    end
  else None.

(** [_parse_http_date]; [None] when it raises. *)
Definition _parse_http_date (date_str : string) : option datetime :=
  parsedate_to_datetime E date_str.

(** [int(s3_cl)]; [None] when it raises [ValueError] or [TypeError]. *)
Definition int_of_s3_length (v : S3Length) : option Z :=
  match v with
  | LenInt n => Some n
  | LenStr s => py_int E s
  | LenOther => None
  end.

(** The seed: every local read from the hint. *)
Definition seed (hint : MetadataHint) : Metadata :=
  mkMetadata (hint_name hint) (hint_mime_type hint) (hint_size hint)
    (hint_extension hint) (hint_url hint) (hint_path hint) (hint_hash hint)
    (hint_last_modified hint) (hint_created_at hint).

(** The name-from-extension branch shared by several stages:
    [ext_mime, _ = detect_from_extension(x); if ext_mime: mime_type = ext_mime]. *)
Definition mime_from_extension_of (x : string) (m : Metadata) : Metadata :=
  let ext_mime := fst (detect_from_extension E x) in
  if truthy ext_mime then set_mime_type ext_mime m else m.

(** The statements of the two transport stages, one definition per
    block of the source. *)

(** [if cd: cd_name, _ = parse_content_disposition(cd);
     if cd_name: name = cd_name] *)
Definition step_disposition (cd : option string) (m : Metadata) : Metadata :=
  if truthy cd then
    let cd_name :=
      fst (parse_content_disposition (unquote E) (default EmptyString cd)) in
    if truthy cd_name then set_name cd_name m else m
  else m.

(** [if name is None: name = _filename_from_url(url)] *)
Definition step_name_from_url (m : Metadata) : Metadata :=
  match name m with
  | None => set_name (_filename_from_url (url m)) m
  | Some _ => m
  end.

(** [if cl is not None: try: size = int(cl) / except ValueError: pass] *)
Definition step_http_length (cl : option string) (m : Metadata) : Metadata :=
  match cl with
  | Some cl =>
      match py_int E cl with
      | Some n => set_size (Some n) m
      | None => m
      end
  | None => m
  end.

(** [if s3_cl is not None: try: size = int(s3_cl) /
     except (ValueError, TypeError): pass] *)
Definition step_s3_length (cl : option S3Length) (m : Metadata) : Metadata :=
  match cl with
  | Some cl =>
      match int_of_s3_length cl with
      | Some n => set_size (Some n) m
      | None => m
      end
  | None => m
  end.

(** [if ct: mime_type = ct / elif name: ext_mime, _ =
     detect_from_extension(name); if ext_mime: mime_type = ext_mime] *)
Definition step_content_type (ct : option string) (m : Metadata) : Metadata :=
  if truthy ct then set_mime_type ct m
  else if truthy (name m)
       then mime_from_extension_of (default EmptyString (name m)) m
       else m.

(** [if etag: file_hash = etag.strip(QUOTE) / elif cmd5: file_hash = cmd5] *)
Definition step_http_hash (etag cmd5 : option string) (m : Metadata)
    : Metadata :=
  if truthy etag
  then set_hash (Some (strip_by is_quote (default EmptyString etag))) m
  else if truthy cmd5 then set_hash cmd5 m else m.

(** [if s3_etag: file_hash = s3_etag.strip(QUOTE)] *)
Definition step_s3_hash (etag : option string) (m : Metadata) : Metadata :=
  if truthy etag
  then set_hash (Some (strip_by is_quote (default EmptyString etag))) m
  else m.

(** [if lm: try: last_modified = _parse_http_date(lm) /
     except Exception: pass] *)
Definition step_http_date (lm : option string) (m : Metadata) : Metadata :=
  if truthy lm then
    match _parse_http_date (default EmptyString lm) with
    | Some d => set_last_modified (Some d) m
    | None => m
    end
  else m.

(** [if s3_lm: if isinstance(s3_lm, datetime): last_modified = s3_lm /
     else: try: last_modified = _parse_http_date(str(s3_lm)) /
     except Exception: pass] *)
Definition step_s3_date (lm : option S3Date) (m : Metadata) : Metadata :=
  match lm with
  | Some (DateObj d) => set_last_modified (Some d) m
  | Some (DateStr s) => step_http_date (Some s) m
  | None => m
  end.

(** ------ HTTP response headers ------ *)
Definition stage_http (http_response : option Response) (m : Metadata)
    : Metadata :=
  match http_response with
  | None => m
  | Some response =>
      let hs := headers response in
      let m := step_disposition (hs !! "content-disposition") m in
      let m := step_name_from_url m in
      let m := step_http_length (hs !! "content-length") m in
      let m := step_content_type (hs !! "content-type") m in
      let m := step_http_hash (hs !! "etag") (hs !! "content-md5") m in
      let m := step_http_date (hs !! "last-modified") m in
      m
  end.

(** ------ S3 response metadata ------ *)
Definition stage_s3 (s3_response : option S3Response) (m : Metadata)
    : Metadata :=
  match s3_response with
  | None => m
  | Some response =>
      let m := step_disposition (ContentDisposition response) m in
      let m := step_s3_length (ContentLength response) m in
      let m := step_content_type (ContentType response) m in
      let m := step_s3_hash (ETag response) m in
      let m := step_s3_date (LastModified response) m in
      m
  end.

(** ------ File system stat ------ *)
Definition stage_stat (w : World) (file_source : FileSource) (m : Metadata)
    : Metadata :=
  if bool_decide (file_source = FILE) && truthy (path m) then
    let file_path := default EmptyString (path m) in
    let m :=
      match os_stat w file_path with
      | Some st =>
          set_created_at (Some (st_ctime st))
            (set_last_modified (Some (st_mtime st))
               (set_size (Some (st_size st)) m))
      | None => m                     (* except OSError: pass *)
      end in
    (* Detect from file extension on disk *)
    mime_from_extension_of file_path m
  else m.

(** ------ Name-based MIME fallback ------ *)
Definition stage_name_mime (m : Metadata) : Metadata :=
  if negb (truthy (mime_type m)) && truthy (name m)
  then mime_from_extension_of (default EmptyString (name m)) m
  else m.

(** ------ Magic-byte detection ------ *)
Definition stage_magic (data : option bytes) (m : Metadata) : Metadata :=
  if truthy_bytes data then
    let '(magic_mime, magic_ext) := detect_from_bytes E (default [] data) in
    let m := if truthy magic_mime then set_mime_type magic_mime m else m in
    if truthy magic_ext then
      (* Normalise: ensure leading dot *)
      let e := default EmptyString magic_ext in
      set_extension (Some (if startswith "." e then e else "." +:+ e)) m
    else m
  else m.

(** ------ Extension fallback from MIME ------ *)
Definition stage_ext_from_mime (m : Metadata) : Metadata :=
  if negb (truthy (extension m)) && truthy (mime_type m) then
    let ext := extension_from_mime E (default EmptyString (mime_type m)) in
    if truthy ext then set_extension ext m else m
  else m.

(** Normalise extension: strip leading dot. *)
Definition stage_normalise (m : Metadata) : Metadata :=
  match extension m with
  | Some (String c rest as e) =>
      if startswith "." e then set_extension (Some rest) m else m
  | _ => m
  end.

(** [File._build_metadata]: hint, headers / S3, stat, magic, extension. *)
Definition _build_metadata (w : World) (file_source : FileSource)
    (metadata_hint : option MetadataHint)
    (http_response : option Response)
    (s3_response : option S3Response)
    (data : option bytes) : Metadata :=
  let hint := default no_hint metadata_hint in
  (* Also check if hint carries a response object *)
  let http_response :=
    match http_response with
    | None => hint_response hint
    | Some _ => http_response
    end in
  stage_normalise
    (stage_ext_from_mime
       (stage_magic data
          (stage_name_mime
             (stage_stat w file_source
                (stage_s3 s3_response
                   (stage_http http_response (seed hint))))))).
End Build.

End Resolver.

(** ** _file.py: the File entity *)

Module FileEntity.
Import Py Resolver.

(** A stream object, as [from_stream] and [read] tell them apart: an
    object with [__aiter__] (given by the chunks it has still to yield),
    an object without [__aiter__] and with [read] (given by what is left
    to read), or an object with neither. *)
Inductive StreamArg : Type :=
| AsyncIterator (chunks : list bytes)
| FileLike (remaining : bytes)
| NotAStream.

(** The private state of a [File]. *)
Record File := mkFile {
  _source : FileSource;
  _metadata : Metadata;
  _bytes : option bytes;
  _stream : option StreamArg
}.

(** [str | bytes]. *)
Inductive ContentLike : Type :=
| Text (s : string)
| Raw (b : bytes).

(** What a method that mutates leaves behind, also when it raises. *)
Record Outcome (A : Type) := mkOutcome {
  result : Exn + A;
  self_after : File;
  world_after : World
}.
Arguments mkOutcome {A} _ _ _.
Arguments result {A} _.
Arguments self_after {A} _.
Arguments world_after {A} _.

Definition len (b : bytes) : Z := Z.of_nat (length b).

(** The chunks joined into one byte string. *)
Definition join (chunks : list bytes) : bytes := concat chunks.

(** The size of one synchronous read in [from_stream]. *)
Definition read_size : nat := Z.to_nat 65536.

(** The loop over [stream.read(65536)] of [from_stream]: it stops at the
    first empty chunk.  [fuel] bounds the number of reads; one more than
    the number of bytes left is enough (lemma [read_loop_total]), so the
    loop run with that fuel always ends. *)
Fixpoint read_loop (fuel : nat) (remaining : bytes) : option (list bytes) :=
  match fuel with
  | O => None
  | S fuel' =>
      let chunk := firstn read_size remaining in
      match chunk with
      | [] => Some []
      | _ =>
          match read_loop fuel' (skipn read_size remaining) with
          | Some chunks => Some (chunk :: chunks)
          | None => None
          end
      end
  end.

Section Entity.
Context (E : Env).

(** The chunks the loop [async for chunk in self._stream] of [read]
    collects: it runs only [if hasattr(self._stream, "__aiter__")]. *)
Definition drained_chunks (st : StreamArg) : list bytes :=
  match st with
  | AsyncIterator chunks => chunks
  | FileLike _ => []
  | NotAStream => []
  end.

(** The stream object after that loop: an iterator is exhausted, any
    other object is not touched. *)
Definition drained (st : StreamArg) : StreamArg :=
  match st with
  | AsyncIterator _ => AsyncIterator []
  | FileLike remaining => FileLike remaining
  | NotAStream => NotAStream
  end.

(** [File.read]: the bytes and the entity with its cache filled. *)
Definition read (self : File) : bytes * File :=
  match _bytes self with
  | Some b => (b, self)
  | None =>
      match _stream self with
      | Some st =>
          let b := join (drained_chunks st) in
          (b, mkFile (_source self) (_metadata self) (Some b)
                (Some (drained st)))
      | None => ([], self)
      end
  end.

(** [File.from_url]. *)
Definition from_url (w : World) (u : string)
    (metadata_hint : option MetadataHint) : Exn + File :=
  let hint := hint_with_url (default no_hint metadata_hint) u in
  match http w !! u with
  | None => inl (HTTPError u)
  | Some response =>
      (* response.raise_for_status() *)
      if (200 <=? status_code response)%Z && (status_code response <? 300)%Z
      then
        let data := content response in
        let metadata :=
          _build_metadata E w URL (Some hint) (Some response) None (Some data) in
        inr (mkFile URL metadata (Some data) None)
      else inl (HTTPError u)
  end.

(** [File.from_bytes]. *)
Definition from_bytes (w : World) (data : bytes)
    (metadata_hint : option MetadataHint) : Exn + File :=
  let raw := data in
  let hint := hint_with_size (default no_hint metadata_hint) (len raw) in
  let metadata := _build_metadata E w BYTES (Some hint) None None (Some raw) in
  inr (mkFile BYTES metadata (Some raw) None).

(** [File.from_file]. *)
Definition from_file (w : World) (file_path : string)
    (metadata_hint : option MetadataHint) : Exn + File :=
  let abs_path := abspath E file_path in
  let hint :=
    hint_with_name
      (hint_with_path (default no_hint metadata_hint) abs_path)
      (basename abs_path) in
  match fs w !! abs_path with
  | None => inl (FileNotFoundError abs_path)
  | Some node =>
      let data := node_content node in
      let metadata := _build_metadata E w FILE (Some hint) None None (Some data) in
      inr (mkFile FILE metadata (Some data) None)
  end.

(** [File.from_stream]. *)
Definition from_stream (w : World) (stream : StreamArg)
    (metadata_hint : option MetadataHint) : Exn + File :=
  let chunks : Exn + list bytes :=
    match stream with
    | AsyncIterator cs => inr cs
    | FileLike remaining =>
        match read_loop (S (length remaining)) remaining with
        | Some cs => inr cs
        | None => inl (RuntimeError "read loop out of fuel") (* never taken *)
        end
    | NotAStream =>
        inl (TypeError
               "stream must be an async iterator or a file-like object with read()")
    end in
  match chunks with
  | inl e => inl e
  | inr chunks =>
      let data := join chunks in
      let hint := hint_with_size (default no_hint metadata_hint) (len data) in
      let metadata :=
        _build_metadata E w STREAM (Some hint) None None (Some data) in
      inr (mkFile STREAM metadata (Some data) None)
  end.

(** [File.from_s3]. *)
Definition from_s3 (w : World) (bucket key : string)
    (metadata_hint : option MetadataHint) : Exn + File :=
  match s3_objects w !! (bucket, key) with
  | None => inl (ClientError bucket key)
  | Some response =>
      match Body response with
      | None => inl (RuntimeError "Response body is missing")
      | Some data =>
          let hint :=
            hint_with_name
              (hint_with_url (default no_hint metadata_hint)
                 ("s3://" +:+ bucket +:+ "/" +:+ key))
              (basename key) in
          let metadata :=
            _build_metadata E w S3 (Some hint) None (Some response) (Some data) in
          inr (mkFile S3 metadata (Some data) None)
      end
  end.

(** [_parse_s3_url]. *)
Definition _parse_s3_url (u : string) : Exn + (string * string) :=
  let stripped := replace_first "s3://" EmptyString u in
  match split_once "/" stripped with
  | [bucket; key] => inr (bucket, key)
  | _ => inl (ValueError ("Invalid S3 URL: " +:+ u))
  end.

(** [File._refresh]: the entity rebuilt by the factory of its source. *)
Definition _refresh (self : File) (w : World) : Exn + File :=
  let cannot :=
    inl (RuntimeError
           ("Cannot refresh file from source: "
            +:+ format_source E (_source self))) in
  match _source self with
  | FILE =>
      if truthy (path (_metadata self))
      then from_file w (default EmptyString (path (_metadata self))) None
      else cannot
  | S3 =>
      if truthy (url (_metadata self)) then
        match _parse_s3_url (default EmptyString (url (_metadata self))) with
        | inr (bucket, key) => from_s3 w bucket key None
        | inl e => inl e
        end
      else cannot
  | URL =>
      if truthy (url (_metadata self))
      then from_url w (default EmptyString (url (_metadata self))) None
      else cannot
  | BYTES =>
      match _bytes self with
      | Some b => from_bytes w b None
      | None => cannot
      end
  | STREAM =>
      match _stream self with
      | Some st => from_stream w st None
      | None => cannot
      end
  end.

(** [await self._refresh()] as the last statement of a mutator:
    [self._clone(new)] on success, the exception passed on otherwise. *)
Definition refresh_into (self : File) (w : World) : Outcome unit :=
  match _refresh self w with
  | inr new => mkOutcome (inr tt) new w
  | inl e => mkOutcome (inl e) self w
  end.

(** [content.encode("utf-8") if isinstance(content, str) else content]. *)
Definition raw_of (c : ContentLike) : bytes :=
  match c with
  | Text s => encode_utf8 E s
  | Raw b => b
  end.

(** The guard of the three mutators:
    [self._source != FileSource.FILE or not self._metadata.path]. *)
Definition not_a_local_file (self : File) : bool :=
  negb (bool_decide (_source self = FILE))
  || negb (truthy (path (_metadata self))).

(** [File.append]: the file is opened in the mode ab. *)
Definition append (self : File) (w : World) (c : ContentLike) : Outcome unit :=
  if not_a_local_file self then
    mkOutcome (inl (RuntimeError "Cannot append to non-file source")) self w
  else
    let p := default EmptyString (path (_metadata self)) in
    let raw := raw_of c in
    match open_error w AppendMode p with
    | Some e => mkOutcome (inl e) self w
    | None => refresh_into self (append_file w p raw)
    end.

(** [File.prepend]: the entity is read, then the file is opened in the
    mode wb. *)
Definition prepend (self : File) (w : World) (c : ContentLike) : Outcome unit :=
  if not_a_local_file self then
    mkOutcome (inl (RuntimeError "Cannot prepend to non-file source")) self w
  else
    let p := default EmptyString (path (_metadata self)) in
    let '(existing, self1) := read self in
    let raw := raw_of c in
    match open_error w WriteMode p with
    | Some e => mkOutcome (inl e) self1 w
    | None => refresh_into self1 (write_file w p (raw ++ existing))
    end.

(** The sizes that fit the offset type of the operating system, a
    signed integer of 64 bits. *)
Definition fits_offset (sz : Z) : bool :=
  ((- 2 ^ 63 <=? sz) && (sz <? 2 ^ 63))%Z.

(** [f.truncate(size)] on a file opened in the mode r+b: the size is
    converted to an offset ([OverflowError] when it does not fit), the
    operating system rejects a negative size, a size above the limit of
    the filesystem and a file that is not regular ([OSError]), and
    otherwise cuts the file, or fills it with zero bytes, to [size]
    bytes.  A call that raises leaves the file as it was. *)
Definition truncate_file (w : World) (p : string) (node : FsNode) (sz : Z)
    : Exn + World :=
  if negb (fits_offset sz) then
    inl (OverflowError "Python int too large to convert to C long")
  else if (sz <? 0)%Z then inl (OSError p)
  else
    match opening w UpdateMode p with
    | Regular =>
        if (file_size_limit w <? sz)%Z then inl (OSError p)
        else
          let n := Z.to_nat sz in
          let old := node_content node in
          inr (store_file w p
                 (firstn n old ++ replicate (n - length old) Byte.x00))
    | _ => inl (OSError p)
    end.

(** [File.truncate]. *)
Definition truncate (self : File) (w : World) (sz : Z) : Outcome unit :=
  if not_a_local_file self then
    mkOutcome (inl (RuntimeError "Cannot truncate non-file source")) self w
  else
    let p := default EmptyString (path (_metadata self)) in
    match open_error w UpdateMode p with
    | Some e => mkOutcome (inl e) self w
    | None =>
        match fs w !! p with
        | None => mkOutcome (inl (FileNotFoundError p)) self w
        | Some node =>
            match truncate_file w p node sz with
            | inl e => mkOutcome (inl e) self w
            | inr w' => refresh_into self w'
            end
        end
    end.

(** The error class the specification calls InvalidSourceOperation: the
    [RuntimeError] of a mutator called on an entity that is not a local
    file. *)
Definition InvalidSourceOperation (e : Exn) : Prop :=
  e = RuntimeError "Cannot append to non-file source"
  \/ e = RuntimeError "Cannot prepend to non-file source"
  \/ e = RuntimeError "Cannot truncate non-file source".
End Entity.

End FileEntity.

(** ** A concrete environment

    Small stand-ins for the external libraries, used to run the model on
    concrete inputs. *)

Module Sample.
Import Py.

Definition png_signature : bytes :=
  [Byte.x89; Byte.x50; Byte.x4e; Byte.x47; Byte.x0d; Byte.x0a; Byte.x1a; Byte.x0a].

Definition pdf_signature : bytes :=
  [Byte.x25; Byte.x50; Byte.x44; Byte.x46].

Fixpoint bytes_startswith (p b : bytes) : bool :=
  match p, b with
  | [], _ => true
  | x :: p', y :: b' => Byte.eqb x y && bytes_startswith p' b'
  | _ :: _, [] => false
  end.

Definition sample_magic (data : bytes) : option (list PureMagic) :=
  if bytes_startswith png_signature data
  then Some [mkPureMagic (Some ".png") (Some "image/png")]
  else if bytes_startswith pdf_signature data
  then Some [mkPureMagic (Some ".pdf") (Some "application/pdf")]
  else None.

Definition sample_guess_type (filename : string) : option string :=
  let ext := snd (splitext filename) in
  if String.eqb ext ".txt" then Some "text/plain"
  else if String.eqb ext ".pdf" then Some "application/pdf"
  else if String.eqb ext ".png" then Some "image/png"
  else None.

Definition sample_guess_extension (mime : string) : option string :=
  if String.eqb mime "text/plain" then Some ".txt"
  else if String.eqb mime "application/pdf" then Some ".pdf"
  else if String.eqb mime "image/png" then Some ".png"
  else None.

(** Decimal digits only. *)
Fixpoint digits (acc : Z) (s : string) : option Z :=
  match s with
  | EmptyString => Some acc
  | String c s' =>
      match Ascii.is_nat c with
      | Some d => digits (10 * acc + Z.of_nat d) s'
      | None => None
      end
  end.

Definition sample_int (s : string) : option Z :=
  match s with
  | EmptyString => None
  | _ => digits 0 s
  end.

Definition sample_parsedate (s : string) : option datetime :=
  if String.eqb s "Wed, 01 Jan 2025 00:00:00 GMT" then Some 1735689600%Z
  else None.

Definition hex_digit (c : ascii) : option nat :=
  let n := nat_of_ascii c in
  if (48 <=? n) && (n <=? 57) then Some (n - 48)
  else if (65 <=? n) && (n <=? 70) then Some (n - 55)
  else if (97 <=? n) && (n <=? 102) then Some (n - 87)
  else None.

(** Percent-decoding, one character per escape. *)
Fixpoint sample_unquote (s : string) : string :=
  match s with
  | EmptyString => EmptyString
  | String c s' =>
      let keep := String c (sample_unquote s') in
      if Ascii.eqb c "%"%char then
        match s' with
        | String h (String l s'') =>
            match hex_digit h, hex_digit l with
            | Some a, Some b =>
                String (ascii_of_nat (16 * a + b))
                  (match sample_unquote s' with
                   | String _ (String _ r) => r
                   | r => r
                   end)
            | _, _ => keep
            end
        | _ => keep
        end
      else keep
  end.

(** The path of a URL of the shape scheme://host/path. *)
Definition sample_urlparse_path (u : string) : option string :=
  match find "://" u with
  | Some i =>
      let rest := drop (i + 3) u in
      match find "/" rest with
      | Some j => Some (drop j rest)
      | None => Some EmptyString
      end
  | None => Some u
  end.

Definition sample_abspath (p : string) : string :=
  if startswith "/" p then p else "/" +:+ p.

Definition sample_encode (s : string) : bytes := String.list_byte_of_string s.

(** The stand-ins of an interpreter from Python 3.11 on. *)
Definition env : Env :=
  mkEnv sample_magic sample_guess_type sample_guess_extension sample_int
    sample_parsedate sample_unquote sample_urlparse_path sample_abspath
    sample_encode FileSource_name.

(** An operating system on which every path opens as a regular file,
    but for the paths under /missing/, a directory that does not exist,
    and for /dev/null. *)
Definition sample_opening (mode : OpenMode) (p : string) : Opening :=
  if startswith "/missing/" p then Refused (FileNotFoundError p)
  else if String.eqb p "/dev/null" then Device
  else Regular.

(** The largest file of the sample filesystem: 16 TiB. *)
Definition sample_limit : Z := (2 ^ 44)%Z.

(** A world with nothing in it. *)
Definition empty_world : World :=
  mkWorld ∅ ∅ ∅ 0%Z sample_opening sample_limit.

Definition hello : bytes := String.list_byte_of_string "Hello, world!".

Local Open Scope Z_scope.

(** Bytes that carry the PNG signature. *)
Definition png_data : bytes := png_signature ++ hello.

(** A response whose header claims application/octet-stream. *)
Definition octet_response : Response :=
  mkResponse 200 (<["content-type" := "application/octet-stream"]> ∅) png_data.

(** A response whose length and date do not parse. *)
Definition garbled_response : Response :=
  mkResponse 200
    (<["content-length" := "12abc"]> (<["last-modified" := "yesterday"]> ∅))
    hello.

(** A response that declares 999 bytes. *)
Definition long_response : Response :=
  mkResponse 200 (<["content-length" := "999"]> ∅) hello.

(** A stored object that declares 999 bytes and holds 13. *)
Definition s3_999 : S3Response :=
  mkS3Response (Some hello) None None (Some (LenStr "999")) None None.

(** A stored object whose length and date do not parse. *)
Definition s3_garbled : S3Response :=
  mkS3Response (Some hello) None None (Some (LenStr "12abc")) None
    (Some (DateStr "yesterday")).

Definition example_node : FsNode := mkFsNode hello 13 5 6.

(** A file of procfs: a read returns bytes, the reported size is 0. *)
Definition proc_node : FsNode := mkFsNode hello 0 5 6.

(** The null device: a read returns nothing. *)
Definition null_node : FsNode := mkFsNode [] 0 5 6.

Definition world : World :=
  mkWorld
    (<["/tmp/example.txt" := example_node]>
       (<["/proc/version" := proc_node]>
          (<["/dev/null" := null_node]> ∅)))
    (<["https://example.com/img" := octet_response]>
       (<["https://example.com/garbled" := garbled_response]> ∅))
    (<[("bucket", "docs/key.txt") := s3_999]> ∅)
    100 sample_opening sample_limit.

(** The first header of the parser's docstring: attachment, then a plain
    form with the quoted value report.pdf. *)
Definition header_docstring : string :=
  "attachment; filename=" +:+ String dquote "report.pdf" +:+ String dquote EmptyString.




Definition hint_hello : MetadataHint := hint_with_name no_hint "hello.txt".


(** A hint that carries a size, a date and a transport response. *)
Definition hint_42 : MetadataHint :=
  mkHint None None (Some 42) None None None None (Some 7) None None.

Definition hint_with_response : MetadataHint :=
  mkHint None None (Some 42) None None None None None None (Some long_response).

(** An entity made from bytes. *)
Definition bytes_entity : FileEntity.File :=
  FileEntity.mkFile BYTES
    (mkMetadata (Some "hello.txt") (Some "text/plain") (Some 13) (Some "txt")
       None None None None None)
    (Some hello) None.

End Sample.

(** ** Predicates of the properties *)

Module Props.
Import Py FileEntity.



(** The bytes a stream supplies: all the chunks of an asynchronous
    iterator, all that is left to read of a file-like object. *)
Definition stream_data (s : StreamArg) : option bytes :=
  match s with
  | AsyncIterator chunks => Some (concat chunks)
  | FileLike remaining => Some remaining
  | NotAStream => None
  end.

(** A factory call that succeeds with an entity whose [read] returns [d]
    and changes nothing, so that every later [read] returns [d] too. *)
Definition reads_back (r : Exn + File) (d : bytes) : Prop :=
  exists f, r = inr f /\ read f = (d, f) /\ fst (read (snd (read f))) = d.

(** Two records that agree on every field but the MIME type and the
    extension, the two fields the stages after the stat stage write. *)
Definition same_admin (m m' : Metadata) : Prop :=
  name m' = name m /\ size m' = size m /\ url m' = url m /\
  path m' = path m /\ hash m' = hash m /\
  last_modified m' = last_modified m /\ created_at m' = created_at m.

(** A string in lower case. *)
Fixpoint lower_str (s : string) : string :=
  match s with
  | EmptyString => EmptyString
  | String c s' => String (lower c) (lower_str s')
  end.



(** What may follow the value of a plain form: nothing, a double quote
    or a semicolon. *)
Definition plain_ends (rest : string) : bool :=
  match rest with
  | EmptyString => true
  | String c _ => negb (Re.not_quote_semi c)
  end.

(** Two records with the same extension and the same locator, the fields
    no stage before the sniffer writes. *)
Definition same_locator (m m' : Metadata) : Prop :=
  extension m' = extension m /\ url m' = url m.

(** The transport response the HTTP stage reads: the argument of the
    resolver, or else the one the hint carries. *)
Definition effective_response (hint : option MetadataHint)
    (resp : option Response) : option Response :=
  match resp with
  | None => hint_response (default no_hint hint)
  | Some _ => resp
  end.

(** A hint that carries no transport response with a content-length that
    [int] accepts. *)
Definition no_length_in_hint (E : Env) (hint : option MetadataHint) : Prop :=
  forall h r cl,
    hint = Some h -> hint_response h = Some r ->
    headers r !! "content-length" = Some cl -> py_int E cl = None.

End Props.

(** ** _file.py: saving, moving, deleting, object storage

    The operations of the entity that write outside it.  What they ask of
    the operating system and of the object-storage client, beyond [Env],
    is a record [Services]. *)

Module Operations.
Import Py Resolver FileEntity.

(** The keyword arguments of [s3.put_object] next to the bucket and the
    key: the body, and the entries of the dict [extra] (an absent entry
    is [None]). *)
Record PutRequest := mkPutRequest {
  put_body : bytes;
  put_content_type : option string;
  put_content_length : option Z;
  put_content_disposition : option string
}.

Record Services := mkServices {
  (** [os.access(path, os.R_OK)]. *)
  access_read : World -> string -> bool;
  (** [os.access(path, os.W_OK)]. *)
  access_write : World -> string -> bool;
  (** [s3.put_object]: the world after the call, or the exception. *)
  put_object : World -> string -> string -> PutRequest -> Exn + World;
  (** [s3.generate_presigned_url] for get_object, with the bucket, the key
      and the expiry. *)
  generate_presigned_url : string -> string -> Z -> string
}.

(** [aiofiles.os.remove]. *)
Definition os_remove (w : World) (p : string) : Exn + World :=
  match fs w !! p with
  | Some _ => inr (set_fs w (delete p (fs w)))
  | None => inl (FileNotFoundError p)
  end.

(** [os.path.exists]. *)
Definition os_path_exists (w : World) (p : string) : bool :=
  bool_decide (is_Some (fs w !! p)).

(** The test [self._source == FileSource.FILE and self._metadata.path]. *)
Definition is_local_file (self : File) : bool :=
  bool_decide (_source self = FILE) && truthy (path (_metadata self)).

(** The header [upload_to_s3] builds from a name: attachment, then a plain
    form with the name between double quotes. *)
Definition attachment_header (n : string) : string :=
  "attachment; filename=" +:+ String dquote n +:+ String dquote EmptyString.

Section Ops.
Context (E : Env) (Sv : Services).

(** [File.save]: the result is the new entity; the first component of the
    tuple the method returns is [self] itself. *)
Definition save (self : File) (w : World) (destination_path : string)
    : Outcome File :=
  let '(data, self1) := read self in
  (* the destination is opened in the mode wb; the operating system
     resolves the path as abspath does *)
  let p := abspath E destination_path in
  match open_error w WriteMode p with
  | Some e => mkOutcome (inl e) self1 w
  | None =>
      let w1 := write_file w p data in
      mkOutcome (from_file E w1 destination_path None) self1 w1
  end.

(** The statement shared by [move], [move_to_s3] and [delete]:
    [if self._source == FileSource.FILE and self._metadata.path:
       await aiofiles.os.remove(self._metadata.path)]. *)
Definition remove_if_local (self : File) (w : World) : Exn + World :=
  if is_local_file self
  then os_remove w (default EmptyString (path (_metadata self)))
  else inr w.

(** [File.move]. *)
Definition move (self : File) (w : World) (destination_path : string)
    : Outcome File :=
  let saved := save self w destination_path in
  match result saved with
  | inl e => saved
  | inr new_file =>
      match remove_if_local (self_after saved) (world_after saved) with
      | inr w2 => mkOutcome (inr new_file) (self_after saved) w2
      | inl e => mkOutcome (inl e) (self_after saved) (world_after saved)
      end
  end.

(** [File.delete]. *)
Definition delete_file (self : File) (w : World) : Outcome unit :=
  match remove_if_local self w with
  | inr w1 => mkOutcome (inr tt) self w1
  | inl e => mkOutcome (inl e) self w
  end.

(** [File.exists]. *)
Definition exists_ (self : File) (w : World) : bool :=
  if is_local_file self
  then os_path_exists w (default EmptyString (path (_metadata self)))
  else true.

(** [File.is_readable]. *)
Definition is_readable (self : File) (w : World) : bool :=
  if is_local_file self
  then access_read Sv w (default EmptyString (path (_metadata self)))
  else true.

(** [File.is_writable]. *)
Definition is_writable (self : File) (w : World) : bool :=
  if is_local_file self
  then access_write Sv w (default EmptyString (path (_metadata self)))
  else false.

(** [File.get_stats]: [os.stat] raises when the file is missing. *)
Definition get_stats (self : File) (w : World) : Exn + option StatResult :=
  if is_local_file self then
    let p := default EmptyString (path (_metadata self)) in
    match os_stat w p with
    | Some st => inr (Some st)
    | None => inl (FileNotFoundError p)
    end
  else inr None.

(** The arguments [upload_to_s3] passes to [put_object]. *)
Definition upload_request (self : File) (data : bytes) : PutRequest :=
  let m := _metadata self in
  mkPutRequest data
    (if truthy (mime_type m) then mime_type m else None)
    (size m)
    (if truthy (name m)
     then Some (attachment_header (default EmptyString (name m)))
     else None).

(** [File.upload_to_s3]. *)
Definition upload_to_s3 (self : File) (w : World) (bucket key : string)
    : Outcome unit :=
  let '(data, self1) := read self in
  match put_object Sv w bucket key (upload_request self1 data) with
  | inr w1 => mkOutcome (inr tt) self1 w1
  | inl e => mkOutcome (inl e) self1 w
  end.

(** [File.save_to_s3]: the result is the new entity, the first component
    of the returned tuple being [self]. *)
Definition save_to_s3 (self : File) (w : World) (bucket key : string)
    : Outcome File :=
  let up := upload_to_s3 self w bucket key in
  match result up with
  | inl e => mkOutcome (inl e) (self_after up) (world_after up)
  | inr _ =>
      mkOutcome (from_s3 E (world_after up) bucket key None)
        (self_after up) (world_after up)
  end.



(** [File.get_signed_url]. *)
Definition get_signed_url (self : File) (expires_in : Z) : Exn + string :=
  if negb (bool_decide (_source self = S3))
     || negb (truthy (url (_metadata self)))
  then inl (RuntimeError "Cannot generate signed URL for non-S3 file")
  else
    match _parse_s3_url (default EmptyString (url (_metadata self))) with
    | inr (bucket, key) => inr (generate_presigned_url Sv bucket key expires_in)
    | inl e => inl e
    end.

End Ops.

End Operations.

(** ** Concrete services *)

Module SampleOps.
Import Py FileEntity Operations.

(** A store that keeps the body, the content type and the disposition it
    is given, and reports the length of the body. *)
Definition sample_put (w : World) (bucket key : string) (r : PutRequest)
    : Exn + World :=
  inr (mkWorld (fs w) (http w)
         (<[(bucket, key) :=
              mkS3Response (Some (put_body r)) (put_content_disposition r)
                (put_content_type r) (Some (LenInt (len (put_body r))))
                None None]> (s3_objects w))
         (now w) (opening w) (file_size_limit w)).

Definition sample_presign (bucket key : string) (expires_in : Z) : string :=
  "https://" +:+ bucket +:+ ".s3.example/" +:+ key.

Definition services : Services :=
  mkServices os_path_exists os_path_exists sample_put sample_presign.

(** An entity for the file of the sample world. *)
Definition file_entity : File :=
  mkFile FILE
    (mkMetadata (Some "example.txt") (Some "text/plain") (Some 13%Z) (Some "txt")
       None (Some "/tmp/example.txt") None (Some 5%Z) (Some 6%Z))
    (Some Sample.hello) None.

(** An entity for the stored object of the sample world. *)
Definition s3_entity : File :=
  mkFile S3
    (mkMetadata (Some "key.txt") (Some "text/plain") (Some 999%Z) (Some "txt")
       (Some "s3://bucket/docs/key.txt") None None None None)
    (Some Sample.hello) None.

(** A download with an entity tag, a checksum and a disposition. *)
Definition tagged_response : Response :=
  mkResponse 200
    (<["etag" := String dquote "abc123" +:+ String dquote EmptyString]>
       (<["content-md5" := "md5md5"]>
          (<["content-type" := "text/csv"]>
             (<["content-disposition" := attachment_header "report.pdf"]> ∅))))
    Sample.hello.

Definition tagged_world : World :=
  mkWorld (fs Sample.world)
    (<["https://example.com/docs/data.bin" := tagged_response]>
       (<["https://example.com/docs/plain.bin" := mkResponse 200 ∅ Sample.hello]> ∅))
    (s3_objects Sample.world) 100%Z Sample.sample_opening Sample.sample_limit.

(** A world whose only download declares 999 bytes. *)
Definition long_world : World :=
  mkWorld ∅ (<["https://example.com/long" := Sample.long_response]> ∅) ∅ 0%Z
    Sample.sample_opening Sample.sample_limit.

(** An entity with a pending stream of two chunks and no buffer. *)
Definition pending_entity : File :=
  mkFile STREAM
    (mkMetadata None None None None None None None None None)
    None (Some (AsyncIterator [Sample.png_signature; Sample.hello])).

(** An entity with a pending file-like object, which [read] does not
    drain, and no buffer. *)
Definition pending_file_like : File :=
  mkFile STREAM
    (mkMetadata None None None None None None None None None)
    None (Some (FileLike Sample.hello)).

(** A hint that names an extension the sniffer will contradict. *)
Definition hint_jpg : MetadataHint :=
  mkHint None None None (Some "jpg") None None None None None None.

(** A hint that names the path of the file of the sample world, with a
    size and a creation time the stat result will replace. *)
Definition hint_example_path : MetadataHint :=
  mkHint None None (Some 1%Z) None None (Some "/tmp/example.txt") None None
    (Some 0%Z) None.

(** A hint that names the path of the procfs file of the sample world,
    with the size a read of the file would suggest. *)
Definition hint_proc_path : MetadataHint :=
  mkHint None None (Some 13%Z) None None (Some "/proc/version") None None
    None None.


(** The sample world after the entity made from bytes is uploaded. *)
Definition uploaded_world : World :=
  match sample_put Sample.world "bucket" "up/x.bin"
          (upload_request Sample.bytes_entity Sample.hello) with
  | inr w => w
  | inl _ => Sample.world
  end.


End SampleOps.

(** ** Predicates of the properties of the operations *)

Module OpsProps.
Import Py FileEntity Operations.

(** An extension without its leading separator, if it has one. *)
Definition without_dot (e : string) : string :=
  match e with
  | String c rest => if startswith "." e then rest else e
  | EmptyString => EmptyString
  end.

(** A store that gives back what it was given: after a successful put, a get
    of the same bucket and key finds an object with the body and the
    disposition of the request. *)
Definition store_gives_back (Sv : Services) : Prop :=
  forall w bucket key req w',
    put_object Sv w bucket key req = inr w' ->
    exists r,
      s3_objects w' !! (bucket, key) = Some r
      /\ Body r = Some (put_body req)
      /\ ContentDisposition r = put_content_disposition req.


(** The record that reaches the stat stage. *)
Definition transported (E : Env) (hint : option MetadataHint)
    (resp : option Response) (s3 : option S3Response) : Metadata :=
  Resolver.stage_s3 E s3
    (Resolver.stage_http E (Props.effective_response hint resp)
       (Resolver.seed (default no_hint hint))).

(** The content of a file cut, or filled with zero bytes, to [n] bytes. *)
Definition truncated (n : nat) (old : bytes) : bytes :=
  firstn n old ++ replicate (n - length old) Byte.x00.

End OpsProps.

(** * Properties *)

(** ** The cascade, stage by stage *)

(** Cases on every test of a stage, innermost first. *)
Ltac stage_cases :=
  repeat match goal with
         | |- context [match ?x with _ => _ end] => destruct x
         | |- context [if ?b then _ else _] => destruct b
         end.

Section CascadeFacts.
Import Py Detection Resolver Props.
Context (E : Env).

Lemma truthy_some (o : option string) :
  truthy o = true -> exists c s, o = Some (String c s).
Proof. destruct o as [[|c s]|]; simpl; intros H; try discriminate; eauto. Qed.

Lemma truthy_default (o : option string) :
  truthy o = true -> o = Some (default EmptyString o).
Proof. intros H. destruct (truthy_some o H) as (c & s & ->). reflexivity. Qed.

(** What the sniffer returns is never an empty string. *)
Lemma detect_from_bytes_truthy (data : bytes) (m e : option string) :
  detect_from_bytes E data = (m, e) ->
  (m = None \/ truthy m = true) /\ (e = None \/ truthy e = true).
Proof.
  unfold detect_from_bytes.
  destruct data as [|b data]; [intros [= <- <-]; auto|].
  destruct (magic_string E (b :: data)) as [[|best rest]|];
    try (intros [= <- <-]; auto).
  destruct (truthy (pm_mime_type best)) eqn:Hm,
           (truthy (pm_extension best)) eqn:He; auto.
Qed.

Lemma same_admin_refl (m : Metadata) : same_admin m m.
Proof. repeat split. Qed.

Lemma same_admin_trans (m1 m2 m3 : Metadata) :
  same_admin m1 m2 -> same_admin m2 m3 -> same_admin m1 m3.
Proof.
  unfold same_admin. intros (?&?&?&?&?&?&?) (?&?&?&?&?&?&?).
  repeat split; congruence.
Qed.

Lemma set_mime_type_admin (v : option string) (m : Metadata) :
  same_admin m (set_mime_type v m).
Proof. repeat split. Qed.

Lemma set_extension_admin (v : option string) (m : Metadata) :
  same_admin m (set_extension v m).
Proof. repeat split. Qed.

Lemma mime_from_extension_of_admin (x : string) (m : Metadata) :
  same_admin m (mime_from_extension_of E x m).
Proof.
  unfold mime_from_extension_of.
  destruct (truthy (fst (detect_from_extension E x))); repeat split.
Qed.

Lemma mime_from_extension_of_extension (x : string) (m : Metadata) :
  extension (mime_from_extension_of E x m) = extension m.
Proof.
  unfold mime_from_extension_of.
  destruct (truthy (fst (detect_from_extension E x))); reflexivity.
Qed.

Lemma stage_name_mime_admin (m : Metadata) :
  same_admin m (stage_name_mime E m).
Proof.
  unfold stage_name_mime.
  destruct (negb (truthy (mime_type m)) && truthy (name m)).
  - apply mime_from_extension_of_admin.
  - apply same_admin_refl.
Qed.

Lemma stage_magic_admin (data : option bytes) (m : Metadata) :
  same_admin m (stage_magic E data m).
Proof.
  unfold stage_magic.
  destruct (truthy_bytes data); [|apply same_admin_refl].
  destruct (detect_from_bytes E (default [] data)) as [mm me].
  destruct (truthy mm), (truthy me); repeat split.
Qed.

Lemma stage_ext_from_mime_admin (m : Metadata) :
  same_admin m (stage_ext_from_mime E m).
Proof.
  unfold stage_ext_from_mime.
  destruct (negb (truthy (extension m)) && truthy (mime_type m));
    [|apply same_admin_refl].
  destruct (truthy (extension_from_mime E _)); repeat split.
Qed.

Lemma stage_normalise_admin (m : Metadata) :
  same_admin m (stage_normalise m).
Proof.
  unfold stage_normalise.
  destruct (extension m) as [[|c rest]|]; try apply same_admin_refl.
  destruct (startswith "." (String c rest)); repeat split.
Qed.

(** The four stages that follow the stat stage. *)
Lemma late_stages_admin (data : option bytes) (m : Metadata) :
  same_admin m
    (stage_normalise (stage_ext_from_mime E (stage_magic E data
       (stage_name_mime E m)))).
Proof.
  eapply same_admin_trans; [apply stage_name_mime_admin|].
  eapply same_admin_trans; [apply stage_magic_admin|].
  eapply same_admin_trans; [apply stage_ext_from_mime_admin|].
  apply stage_normalise_admin.
Qed.

Lemma stage_stat_other (w : World) (src : FileSource) (m : Metadata) :
  src <> FILE -> stage_stat E w src m = m.
Proof.
  intros H. unfold stage_stat.
  rewrite bool_decide_eq_false_2 by assumption. reflexivity.
Qed.

(** For a source that is not a local file, the administrative fields
    are those the two transport stages leave. *)
Lemma build_admin (w : World) (src : FileSource)
    (hint : option MetadataHint) (resp : option Response)
    (s3 : option S3Response) (data : option bytes) :
  src <> FILE ->
  same_admin
    (stage_s3 E s3
       (stage_http E (effective_response hint resp) (seed (default no_hint hint))))
    (_build_metadata E w src hint resp s3 data).
Proof.
  intros Hsrc. unfold _build_metadata.
  rewrite stage_stat_other by assumption.
  apply late_stages_admin.
Qed.

(** The stages after the sniffer leave the MIME type alone. *)
Lemma stage_normalise_mime (m : Metadata) :
  mime_type (stage_normalise m) = mime_type m.
Proof.
  unfold stage_normalise.
  destruct (extension m) as [[|c rest]|]; try reflexivity.
  destruct (startswith "." (String c rest)); reflexivity.
Qed.

Lemma stage_ext_from_mime_mime (m : Metadata) :
  mime_type (stage_ext_from_mime E m) = mime_type m.
Proof.
  unfold stage_ext_from_mime.
  destruct (negb (truthy (extension m)) && truthy (mime_type m)); try reflexivity.
  destruct (truthy (extension_from_mime E _)); reflexivity.
Qed.

Lemma stage_magic_mime (data : bytes) (mm me : option string) (m : Metadata) :
  data <> [] ->
  detect_from_bytes E data = (mm, me) ->
  mime_type (stage_magic E (Some data) m)
  = if truthy mm then mm else mime_type m.
Proof.
  intros Hd H. unfold stage_magic.
  destruct data as [|b data]; [congruence|].
  change (truthy_bytes (Some (b :: data))) with true.
  change (default [] (Some (b :: data))) with (b :: data).
  cbv iota. rewrite H.
  destruct (truthy mm), (truthy me); reflexivity.
Qed.

(** Each statement of a transport stage writes its own field. *)
Lemma step_disposition_fields (cd : option string) (m : Metadata) :
  size (step_disposition E cd m) = size m
  /\ last_modified (step_disposition E cd m) = last_modified m.
Proof. unfold step_disposition. stage_cases; split; reflexivity. Qed.

Lemma step_name_from_url_fields (m : Metadata) :
  size (step_name_from_url E m) = size m
  /\ last_modified (step_name_from_url E m) = last_modified m.
Proof. unfold step_name_from_url. stage_cases; split; reflexivity. Qed.

Lemma step_content_type_fields (ct : option string) (m : Metadata) :
  size (step_content_type E ct m) = size m
  /\ last_modified (step_content_type E ct m) = last_modified m.
Proof.
  unfold step_content_type, mime_from_extension_of.
  stage_cases; split; reflexivity.
Qed.

Lemma step_http_hash_fields (etag cmd5 : option string) (m : Metadata) :
  size (step_http_hash etag cmd5 m) = size m
  /\ last_modified (step_http_hash etag cmd5 m) = last_modified m.
Proof. unfold step_http_hash. stage_cases; split; reflexivity. Qed.

Lemma step_s3_hash_fields (etag : option string) (m : Metadata) :
  size (step_s3_hash etag m) = size m
  /\ last_modified (step_s3_hash etag m) = last_modified m.
Proof. unfold step_s3_hash. stage_cases; split; reflexivity. Qed.

Lemma step_http_length_date (cl : option string) (m : Metadata) :
  last_modified (step_http_length E cl m) = last_modified m.
Proof. unfold step_http_length. stage_cases; reflexivity. Qed.

Lemma step_s3_length_date (cl : option S3Length) (m : Metadata) :
  last_modified (step_s3_length E cl m) = last_modified m.
Proof. unfold step_s3_length. stage_cases; reflexivity. Qed.

Lemma step_http_date_size (lm : option string) (m : Metadata) :
  size (step_http_date E lm m) = size m.
Proof. unfold step_http_date. stage_cases; reflexivity. Qed.

Lemma step_s3_date_size (lm : option S3Date) (m : Metadata) :
  size (step_s3_date E lm m) = size m.
Proof.
  unfold step_s3_date. destruct lm as [[d|s]|]; try reflexivity.
  apply step_http_date_size.
Qed.

(** What the HTTP stage does to the size and to the date. *)
Lemma stage_http_size (r : Response) (m : Metadata) :
  size (stage_http E (Some r) m)
  = match headers r !! "content-length" with
    | Some cl =>
        match py_int E cl with
        | Some n => Some n
        | None => size m
        end
    | None => size m
    end.
Proof.
  unfold stage_http. cbv zeta.
  rewrite step_http_date_size.
  rewrite (proj1 (step_http_hash_fields _ _ _)).
  rewrite (proj1 (step_content_type_fields _ _)).
  unfold step_http_length.
  destruct (headers r !! "content-length") as [cl|];
    [destruct (py_int E cl)|]; try reflexivity;
    rewrite (proj1 (step_name_from_url_fields _));
    apply step_disposition_fields.
Qed.

Lemma stage_http_last_modified (r : Response) (m : Metadata) :
  last_modified (stage_http E (Some r) m)
  = match headers r !! "last-modified" with
    | Some lm =>
        if truthy (Some lm) then
          match _parse_http_date E lm with
          | Some d => Some d
          | None => last_modified m
          end
        else last_modified m
    | None => last_modified m
    end.
Proof.
  unfold stage_http. cbv zeta.
  assert (Hprev :
    last_modified
      (step_http_hash (headers r !! "etag") (headers r !! "content-md5")
         (step_content_type E (headers r !! "content-type")
            (step_http_length E (headers r !! "content-length")
               (step_name_from_url E
                  (step_disposition E (headers r !! "content-disposition") m)))))
    = last_modified m).
  { rewrite (proj2 (step_http_hash_fields _ _ _)).
    rewrite (proj2 (step_content_type_fields _ _)).
    rewrite step_http_length_date.
    rewrite (proj2 (step_name_from_url_fields _)).
    apply step_disposition_fields. }
  unfold step_http_date at 1.
  destruct (headers r !! "last-modified") as [[|c lm]|]; simpl;
    try exact Hprev.
  destruct (_parse_http_date E (String c lm)); [reflexivity|exact Hprev].
Qed.

(** What the object-storage stage does to the size and to the date. *)
Lemma stage_s3_size (r : S3Response) (m : Metadata) :
  size (stage_s3 E (Some r) m)
  = match ContentLength r with
    | Some cl =>
        match int_of_s3_length E cl with
        | Some n => Some n
        | None => size m
        end
    | None => size m
    end.
Proof.
  unfold stage_s3. cbv zeta.
  rewrite step_s3_date_size.
  rewrite (proj1 (step_s3_hash_fields _ _)).
  rewrite (proj1 (step_content_type_fields _ _)).
  unfold step_s3_length.
  destruct (ContentLength r) as [cl|];
    [destruct (int_of_s3_length E cl)|]; try reflexivity;
    apply step_disposition_fields.
Qed.

Lemma stage_s3_last_modified (r : S3Response) (m : Metadata) :
  last_modified (stage_s3 E (Some r) m)
  = match LastModified r with
    | Some (DateObj d) => Some d
    | Some (DateStr s) =>
        if truthy (Some s) then
          match _parse_http_date E s with
          | Some d => Some d
          | None => last_modified m
          end
        else last_modified m
    | None => last_modified m
    end.
Proof.
  unfold stage_s3. cbv zeta.
  assert (Hprev :
    last_modified
      (step_s3_hash (ETag r)
         (step_content_type E (ContentType r)
            (step_s3_length E (ContentLength r)
               (step_disposition E (ContentDisposition r) m))))
    = last_modified m).
  { rewrite (proj2 (step_s3_hash_fields _ _)).
    rewrite (proj2 (step_content_type_fields _ _)).
    rewrite step_s3_length_date.
    apply step_disposition_fields. }
  unfold step_s3_date at 1, step_http_date at 1.
  destruct (LastModified r) as [[d|[|c s]]|]; simpl; try exact Hprev;
    try reflexivity.
  destruct (_parse_http_date E (String c s)); [reflexivity|exact Hprev].
Qed.

(** No stage before the sniffer writes the extension or the locator. *)
Lemma same_locator_refl (m : Metadata) : same_locator m m.
Proof. split; reflexivity. Qed.

Lemma same_locator_trans (m1 m2 m3 : Metadata) :
  same_locator m1 m2 -> same_locator m2 m3 -> same_locator m1 m3.
Proof. unfold same_locator. intros [? ?] [? ?]. split; congruence. Qed.

Lemma step_disposition_locator (cd : option string) (m : Metadata) :
  same_locator m (step_disposition E cd m).
Proof. unfold step_disposition. stage_cases; split; reflexivity. Qed.

Lemma step_name_from_url_locator (m : Metadata) :
  same_locator m (step_name_from_url E m).
Proof. unfold step_name_from_url. stage_cases; split; reflexivity. Qed.

Lemma step_http_length_locator (cl : option string) (m : Metadata) :
  same_locator m (step_http_length E cl m).
Proof. unfold step_http_length. stage_cases; split; reflexivity. Qed.

Lemma step_s3_length_locator (cl : option S3Length) (m : Metadata) :
  same_locator m (step_s3_length E cl m).
Proof. unfold step_s3_length. stage_cases; split; reflexivity. Qed.

Lemma mime_from_extension_of_locator (x : string) (m : Metadata) :
  same_locator m (mime_from_extension_of E x m).
Proof. unfold mime_from_extension_of. stage_cases; split; reflexivity. Qed.

Lemma step_content_type_locator (ct : option string) (m : Metadata) :
  same_locator m (step_content_type E ct m).
Proof.
  unfold step_content_type, mime_from_extension_of.
  stage_cases; split; reflexivity.
Qed.

Lemma step_http_hash_locator (etag cmd5 : option string) (m : Metadata) :
  same_locator m (step_http_hash etag cmd5 m).
Proof. unfold step_http_hash. stage_cases; split; reflexivity. Qed.

Lemma step_s3_hash_locator (etag : option string) (m : Metadata) :
  same_locator m (step_s3_hash etag m).
Proof. unfold step_s3_hash. stage_cases; split; reflexivity. Qed.

Lemma step_http_date_locator (lm : option string) (m : Metadata) :
  same_locator m (step_http_date E lm m).
Proof. unfold step_http_date. stage_cases; split; reflexivity. Qed.

Lemma step_s3_date_locator (lm : option S3Date) (m : Metadata) :
  same_locator m (step_s3_date E lm m).
Proof.
  unfold step_s3_date. destruct lm as [[d|s]|];
    [split; reflexivity|apply step_http_date_locator|apply same_locator_refl].
Qed.

Lemma stage_http_locator (resp : option Response) (m : Metadata) :
  same_locator m (stage_http E resp m).
Proof.
  destruct resp as [r|]; [|apply same_locator_refl].
  unfold stage_http. cbv zeta.
  eapply same_locator_trans; [apply step_disposition_locator|].
  eapply same_locator_trans; [apply step_name_from_url_locator|].
  eapply same_locator_trans; [apply step_http_length_locator|].
  eapply same_locator_trans; [apply step_content_type_locator|].
  eapply same_locator_trans; [apply step_http_hash_locator|].
  apply step_http_date_locator.
Qed.

Lemma stage_s3_locator (resp : option S3Response) (m : Metadata) :
  same_locator m (stage_s3 E resp m).
Proof.
  destruct resp as [r|]; [|apply same_locator_refl].
  unfold stage_s3. cbv zeta.
  eapply same_locator_trans; [apply step_disposition_locator|].
  eapply same_locator_trans; [apply step_s3_length_locator|].
  eapply same_locator_trans; [apply step_content_type_locator|].
  eapply same_locator_trans; [apply step_s3_hash_locator|].
  apply step_s3_date_locator.
Qed.

Lemma stage_stat_locator (w : World) (src : FileSource) (m : Metadata) :
  same_locator m (stage_stat E w src m).
Proof.
  unfold stage_stat.
  destruct (bool_decide (src = FILE) && truthy (path m));
    [|apply same_locator_refl].
  eapply same_locator_trans; [|apply mime_from_extension_of_locator].
  destruct (os_stat w _); split; reflexivity.
Qed.

Lemma stage_name_mime_locator (m : Metadata) :
  same_locator m (stage_name_mime E m).
Proof.
  unfold stage_name_mime.
  destruct (negb (truthy (mime_type m)) && truthy (name m));
    [apply mime_from_extension_of_locator|apply same_locator_refl].
Qed.

(** The extension and the locator that reach the sniffer are the
    hint's. *)
Lemma early_stages_locator (w : World) (src : FileSource)
    (hint : MetadataHint) (resp : option Response) (s3 : option S3Response) :
  same_locator (seed hint)
    (stage_name_mime E (stage_stat E w src (stage_s3 E s3
       (stage_http E resp (seed hint))))).
Proof.
  eapply same_locator_trans; [apply stage_http_locator|].
  eapply same_locator_trans; [apply stage_s3_locator|].
  eapply same_locator_trans; [apply stage_stat_locator|].
  apply stage_name_mime_locator.
Qed.

End CascadeFacts.

(** The administrative fields of a resolved record that is not built for
    a local file. *)
Ltac use_build_admin :=
  match goal with
  | |- context [Resolver._build_metadata ?E ?w ?src ?h ?r ?s ?d] =>
      destruct (build_admin E w src h r s d ltac:(discriminate))
        as (Hname & Hsize & Hurl & Hpath & Hhash & Hdate' & Hcreated)
  end.

(** ** The sniffer has the last word on the MIME type *)

Section MagicPriority.
Import Py Detection Resolver.
Context (E : Env).

(** C1.  Whenever the raw data is not empty and the byte-signature
    sniffer returns a MIME type for it, the resolved [mime_type] is that
    type, whatever the hint, the transport headers, the object-storage
    attributes, the filesystem or the name said before. *)
Theorem magic_mime_overrides
    (w : World) (src : FileSource) (hint : option MetadataHint)
    (resp : option Response) (s3 : option S3Response)
    (data : bytes) (sniffed : string) (e : option string) :
  data <> [] ->
  detect_from_bytes E data = (Some sniffed, e) ->
  mime_type (_build_metadata E w src hint resp s3 (Some data)) = Some sniffed.
Proof.
  intros Hdata Hsniff. unfold _build_metadata.
  rewrite stage_normalise_mime, stage_ext_from_mime_mime.
  rewrite (stage_magic_mime E data (Some sniffed) e) by assumption.
  destruct (detect_from_bytes_truthy E data _ _ Hsniff) as [[Hm|Hm] _].
  - discriminate.
  - rewrite Hm. reflexivity.
Qed.

End MagicPriority.

(** Bytes with the PNG signature under a header that claims
    application/octet-stream resolve to image/png. *)
Lemma magic_mime_overrides_witness :
  Sample.png_data <> []
  /\ Detection.detect_from_bytes Sample.env Sample.png_data
     = (Some "image/png", Some ".png")
  /\ mime_type
       (Resolver._build_metadata Sample.env Sample.world URL None
          (Some Sample.octet_response) None (Some Sample.png_data))
     = Some "image/png".
Proof.
  split; [discriminate|]. split; [reflexivity|].
  apply (magic_mime_overrides Sample.env Sample.world URL None
           (Some Sample.octet_response) None Sample.png_data
           "image/png" (Some ".png")).
  - discriminate.
  - reflexivity.
Defined.

(** ** Sizes and dates of the transport stages *)

Section Transport.
Import Py Detection Resolver FileEntity Props.
Context (E : Env).

(** C5.  Constructing from object storage, a content-length attribute
    that parses as the integer [n] (999 in the scenario) is the resolved
    size, whatever the length of the body: no later stage writes the
    size of an entity that is not a local file. *)
Theorem s3_declared_length_stands
    (w : World) (bucket key : string) (hint : option MetadataHint)
    (r : S3Response) (body : bytes) (cl : S3Length) (n : Z) :
  s3_objects w !! (bucket, key) = Some r ->
  Body r = Some body ->
  ContentLength r = Some cl ->
  int_of_s3_length E cl = Some n ->
  exists f,
    from_s3 E w bucket key hint = inr f
    /\ _bytes f = Some body
    /\ size (_metadata f) = Some n.
Proof.
  intros Hobj Hbody Hcl Hn. unfold from_s3. rewrite Hobj, Hbody.
  eexists; split; [reflexivity|]. split; [reflexivity|].
  cbn [_metadata].
  use_build_admin. rewrite Hsize.
  rewrite stage_s3_size, Hcl, Hn. reflexivity.
Qed.

(** C9.  A content-length that [int] rejects leaves the size as it was
    before the stage, and a date that does not parse leaves the date as
    it was, in the HTTP stage and in the object-storage stage alike; the
    resolver is a total function, and a download whose two headers are
    garbled still yields an entity, with the size and the date of the
    hint. *)
Theorem parse_failures_absorbed (w : World) :
  (forall r m cl,
      headers r !! "content-length" = Some cl -> py_int E cl = None ->
      size (stage_http E (Some r) m) = size m)
  /\ (forall r m lm,
      headers r !! "last-modified" = Some lm ->
      parsedate_to_datetime E lm = None ->
      last_modified (stage_http E (Some r) m) = last_modified m)
  /\ (forall r m cl,
      ContentLength r = Some cl -> int_of_s3_length E cl = None ->
      size (stage_s3 E (Some r) m) = size m)
  /\ (forall r m lm,
      LastModified r = Some (DateStr lm) ->
      parsedate_to_datetime E lm = None ->
      last_modified (stage_s3 E (Some r) m) = last_modified m)
  /\ (forall u hint r cl lm,
      http w !! u = Some r ->
      (200 <=? status_code r)%Z && (status_code r <? 300)%Z = true ->
      headers r !! "content-length" = Some cl -> py_int E cl = None ->
      headers r !! "last-modified" = Some lm ->
      parsedate_to_datetime E lm = None ->
      exists f,
        from_url E w u hint = inr f
        /\ size (_metadata f) = hint_size (default no_hint hint)
        /\ last_modified (_metadata f)
           = hint_last_modified (default no_hint hint)).
Proof.
  repeat split.
  - intros r m cl Hcl Hint. rewrite stage_http_size, Hcl, Hint. reflexivity.
  - intros r m lm Hlm Hdate. rewrite stage_http_last_modified, Hlm.
    unfold _parse_http_date. rewrite Hdate. destruct (truthy (Some lm)); reflexivity.
  - intros r m cl Hcl Hint. rewrite stage_s3_size, Hcl, Hint. reflexivity.
  - intros r m lm Hlm Hdate. rewrite stage_s3_last_modified, Hlm.
    unfold _parse_http_date. rewrite Hdate. destruct (truthy (Some lm)); reflexivity.
  - intros u hint r cl lm Hu Hok Hcl Hint Hlm Hdate.
    unfold from_url. rewrite Hu, Hok.
    eexists; split; [reflexivity|]. cbn [_metadata].
    use_build_admin. rewrite Hsize, Hdate'.
    cbn [stage_s3 effective_response].
    rewrite stage_http_size, Hcl, Hint.
    rewrite stage_http_last_modified, Hlm.
    unfold _parse_http_date. rewrite Hdate.
    split; [reflexivity|]. destruct (truthy (Some lm)); reflexivity.
Qed.

End Transport.

(** The attribute says 999, the body has 13 bytes, the size is 999. *)
Lemma s3_declared_length_stands_witness :
  FileEntity.len Sample.hello = 13%Z
  /\ exists f,
       FileEntity.from_s3 Sample.env Sample.world "bucket" "docs/key.txt" None
       = inr f
       /\ FileEntity._bytes f = Some Sample.hello
       /\ size (FileEntity._metadata f) = Some 999%Z.
Proof.
  split; [reflexivity|].
  apply (s3_declared_length_stands Sample.env Sample.world "bucket"
           "docs/key.txt" None Sample.s3_999 Sample.hello (LenStr "999") 999%Z);
    reflexivity.
Defined.

(** A download with a garbled length and a garbled date keeps the size and
    the date of its hint. *)
Lemma parse_failures_absorbed_witness :
  exists f,
    FileEntity.from_url Sample.env Sample.world "https://example.com/garbled"
      (Some Sample.hint_42) = inr f
    /\ size (FileEntity._metadata f) = Some 42%Z
    /\ last_modified (FileEntity._metadata f) = Some 7%Z.
Proof.
  destruct (parse_failures_absorbed Sample.env Sample.world) as (_ & _ & _ & _ & H).
  apply (H "https://example.com/garbled" (Some Sample.hint_42)
           Sample.garbled_response "12abc" "yesterday"); reflexivity.
Defined.

(** ** Draining a stream *)

Section Streams.
Import Py FileEntity Props.

Lemma read_size_pos : (0 < read_size)%nat.
Proof. unfold read_size. lia. Qed.

(** The synchronous loop ends within its fuel and its chunks are the
    content that was left to read. *)
Lemma read_loop_total (fuel : nat) (remaining : bytes) :
  (length remaining < fuel)%nat ->
  exists chunks,
    read_loop fuel remaining = Some chunks /\ concat chunks = remaining.
Proof.
  revert remaining. induction fuel as [|fuel IH]; intros remaining Hlen; [lia|].
  cbn [read_loop].
  destruct (firstn read_size remaining) as [|b chunk] eqn:Hchunk.
  - exists []. split; [reflexivity|].
    destruct remaining as [|x rest]; [reflexivity|].
    pose proof read_size_pos as Hpos.
    destruct read_size; [lia|discriminate].
  - assert (Hshort : (length (skipn read_size remaining) < fuel)%nat).
    { rewrite length_skipn. pose proof read_size_pos.
      destruct remaining; [discriminate|]. cbn [length] in *. lia. }
    destruct (IH _ Hshort) as (chunks & -> & Hcat).
    exists ((b :: chunk) :: chunks). split; [reflexivity|].
    cbn [concat]. rewrite Hcat, <- Hchunk. apply firstn_skipn.
Qed.

Context (E : Env).

(** What [from_stream] buffers: the stream's data, under the resolved
    metadata of a buffered source. *)
Lemma from_stream_data (w : World) (s : StreamArg)
    (hint : option MetadataHint) (data : bytes) :
  stream_data s = Some data ->
  from_stream E w s hint
  = inr (mkFile STREAM
           (Resolver._build_metadata E w STREAM
              (Some (hint_with_size (default no_hint hint) (len data)))
              None None (Some data))
           (Some data) None).
Proof.
  destruct s as [chunks|remaining|]; intros [= <-]; unfold from_stream.
  - reflexivity.
  - destruct (read_loop_total (S (length remaining)) remaining)
      as (chunks & -> & Hcat); [lia|].
    unfold join. rewrite Hcat. reflexivity.
Qed.

End Streams.

(** ** Buffered sources *)

Section Buffered.
Import Py Detection Resolver FileEntity Props.
Context (E : Env).

(** The size a buffered source resolves to, when the hint brings no
    length of its own through a transport response. *)
Lemma buffered_size (w : World) (src : FileSource)
    (hint : option MetadataHint) (data : bytes) :
  src <> FILE ->
  no_length_in_hint E hint ->
  size (_build_metadata E w src
          (Some (hint_with_size (default no_hint hint) (len data)))
          None None (Some data))
  = Some (len data).
Proof.
  intros Hsrc Hhint.
  destruct (build_admin E w src
              (Some (hint_with_size (default no_hint hint) (len data)))
              None None (Some data) Hsrc) as (_ & -> & _).
  cbn [stage_s3 effective_response].
  change (default no_hint (Some ?h)) with h.
  cbn [hint_with_size hint_response].
  destruct (hint_response (default no_hint hint)) as [r|] eqn:Hr;
    [|reflexivity].
  rewrite stage_http_size.
  destruct (headers r !! "content-length") as [cl|] eqn:Hcl; [|reflexivity].
  destruct hint as [h|]; [|discriminate].
  rewrite (Hhint h r cl eq_refl Hr Hcl). reflexivity.
Qed.

(** The size a buffered source resolves to, when the hint brings a
    transport response whose content-length parses. *)
Lemma buffered_size_declared (w : World) (src : FileSource)
    (h : MetadataHint) (r : Response) (cl : string) (n : Z) (data : bytes) :
  src <> FILE ->
  hint_response h = Some r ->
  headers r !! "content-length" = Some cl ->
  py_int E cl = Some n ->
  size (_build_metadata E w src
          (Some (hint_with_size (default no_hint (Some h)) (len data)))
          None None (Some data))
  = Some n.
Proof.
  intros Hsrc Hr Hcl Hn.
  destruct (build_admin E w src
              (Some (hint_with_size (default no_hint (Some h)) (len data)))
              None None (Some data) Hsrc) as (_ & -> & _).
  cbn [stage_s3 effective_response].
  repeat change (default no_hint (Some ?x)) with x.
  cbn [hint_with_size hint_response]. rewrite Hr.
  rewrite stage_http_size, Hcl, Hn. reflexivity.
Qed.

(** C10, as amended.  Constructing from bytes or from a stream with a
    hint that carries no transport response with a parseable
    content-length, the resolved size is the length of the buffered
    data, whatever size the hint names.  With a hint that carries a
    transport response whose content-length parses as an integer, the
    resolved size is that integer, whatever the length of the buffered
    data is. *)
Theorem buffered_size_is_length (w : World) (hint : option MetadataHint) :
  (no_length_in_hint E hint ->
   (forall data,
       exists f,
         from_bytes E w data hint = inr f
         /\ _bytes f = Some data
         /\ size (_metadata f) = Some (len data))
   /\ (forall s data,
       stream_data s = Some data ->
       exists f,
         from_stream E w s hint = inr f
         /\ _bytes f = Some data
         /\ size (_metadata f) = Some (len data)))
  /\ (forall h r cl n,
      hint = Some h ->
      hint_response h = Some r ->
      headers r !! "content-length" = Some cl ->
      py_int E cl = Some n ->
      (forall data,
          exists f,
            from_bytes E w data hint = inr f
            /\ _bytes f = Some data
            /\ size (_metadata f) = Some n)
      /\ (forall s data,
          stream_data s = Some data ->
          exists f,
            from_stream E w s hint = inr f
            /\ _bytes f = Some data
            /\ size (_metadata f) = Some n)).
Proof.
  split.
  - intros Hhint. split.
    + intros data. unfold from_bytes.
      eexists; split; [reflexivity|]. split; [reflexivity|].
      apply buffered_size; [discriminate|assumption].
    + intros s data Hs. rewrite (from_stream_data E w s hint data Hs).
      eexists; split; [reflexivity|]. split; [reflexivity|].
      apply buffered_size; [discriminate|assumption].
  - intros h r cl n -> Hr Hcl Hn. split.
    + intros data. unfold from_bytes.
      eexists; split; [reflexivity|]. split; [reflexivity|].
      cbn [_metadata].
      apply (buffered_size_declared w BYTES h r cl n data);
        [discriminate|assumption..].
    + intros s data Hs. rewrite (from_stream_data E w s (Some h) data Hs).
      eexists; split; [reflexivity|]. split; [reflexivity|].
      cbn [_metadata].
      apply (buffered_size_declared w STREAM h r cl n data);
        [discriminate|assumption..].
Qed.

(** C8.  The bytes of Hello, world! with the hint name hello.txt, the
    sniffer finding nothing, the tables knowing text/plain for the name
    and .txt for text/plain: size 13, MIME type text/plain, extension
    txt. *)
Theorem hello_txt_scenario (w : World) :
  detect_from_bytes E Sample.hello = (None, None) ->
  guess_type E "hello.txt" = Some "text/plain" ->
  guess_extension E "text/plain" = Some ".txt" ->
  exists f,
    from_bytes E w Sample.hello (Some Sample.hint_hello) = inr f
    /\ size (_metadata f) = Some 13%Z
    /\ mime_type (_metadata f) = Some "text/plain"
    /\ extension (_metadata f) = Some "txt".
Proof.
  intros Hsniff Htype Hext. unfold from_bytes.
  eexists; split; [reflexivity|]. cbn [_metadata].
  unfold _build_metadata.
  match goal with
  | |- context [stage_stat E w BYTES ?m] =>
      change (stage_stat E w BYTES m)
        with (mkMetadata (Some "hello.txt") None (Some 13%Z) None None None
                None None None)
  end.
  unfold stage_name_mime, mime_from_extension_of, detect_from_extension.
  cbn [mime_type name truthy negb andb fst].
  change (default EmptyString (Some "hello.txt")) with "hello.txt".
  cbv iota. cbn [fst]. rewrite Htype. cbn [truthy].
  unfold stage_magic.
  change (truthy_bytes (Some Sample.hello)) with true.
  change (default [] (Some Sample.hello)) with Sample.hello.
  cbv iota. rewrite Hsniff. cbn [truthy].
  unfold stage_ext_from_mime, extension_from_mime.
  cbn [extension mime_type set_mime_type truthy negb andb].
  change (default EmptyString (Some "text/plain")) with "text/plain".
  cbv iota. rewrite Hext. cbn [truthy].
  repeat split.
Qed.

End Buffered.

(** The stand-in tables know the name and the type, and the stand-in
    sniffer finds no signature in the text. *)
Lemma hello_txt_scenario_witness :
  exists f,
    FileEntity.from_bytes Sample.env Sample.world Sample.hello
      (Some Sample.hint_hello) = inr f
    /\ size (FileEntity._metadata f) = Some 13%Z
    /\ mime_type (FileEntity._metadata f) = Some "text/plain"
    /\ extension (FileEntity._metadata f) = Some "txt".
Proof.
  apply (hello_txt_scenario Sample.env Sample.world); reflexivity.
Defined.

(** A hint with a size of 42 and no response: the size is the length. *)
Lemma buffered_size_is_length_witness :
  (exists f,
     FileEntity.from_bytes Sample.env Sample.world Sample.hello
       (Some Sample.hint_42) = inr f
     /\ FileEntity._bytes f = Some Sample.hello
     /\ size (FileEntity._metadata f) = Some 13%Z)
  /\ (exists f,
       FileEntity.from_bytes Sample.env Sample.world Sample.hello
         (Some Sample.hint_with_response) = inr f
       /\ FileEntity._bytes f = Some Sample.hello
       /\ size (FileEntity._metadata f) = Some 999%Z)
  /\ (exists f,
       FileEntity.from_stream Sample.env Sample.world
         (FileEntity.FileLike Sample.hello)
         (Some Sample.hint_with_response) = inr f
       /\ FileEntity._bytes f = Some Sample.hello
       /\ size (FileEntity._metadata f) = Some 999%Z).
Proof.
  split; [|split].
  - refine (proj1 (proj1 (buffered_size_is_length Sample.env Sample.world
                            (Some Sample.hint_42)) _) Sample.hello).
    intros h r cl [= <-] Hr. discriminate Hr.
  - exact (proj1 (proj2 (buffered_size_is_length Sample.env Sample.world
                           (Some Sample.hint_with_response))
                    Sample.hint_with_response Sample.long_response
                    "999" 999%Z eq_refl eq_refl eq_refl eq_refl)
             Sample.hello).
  - exact (proj2 (proj2 (buffered_size_is_length Sample.env Sample.world
                           (Some Sample.hint_with_response))
                    Sample.hint_with_response Sample.long_response
                    "999" 999%Z eq_refl eq_refl eq_refl eq_refl)
             (FileEntity.FileLike Sample.hello) Sample.hello eq_refl).
Defined.

(** C10 as stated fails: a hint may carry a transport response, and the
    HTTP stage then writes the content-length of that response over the
    observed length. *)
Lemma hint_response_overrides_length :
  ~ (forall (E : Env) (w : World) (data : Py.bytes) (hint : option MetadataHint),
        exists f,
          FileEntity.from_bytes E w data hint = inr f
          /\ size (FileEntity._metadata f) = Some (FileEntity.len data)).
Proof.
  intros H.
  destruct (H Sample.env Sample.world Sample.hello
              (Some Sample.hint_with_response)) as (f & Hf & Hsize).
  injection Hf as <-. vm_compute in Hsize. discriminate Hsize.
Qed.

(** ** The stored extension *)

Section Extension.
Import Py Detection Resolver Props.
Context (E : Env).






End Extension.




(** ** Reading back *)

Section RoundTrip.
Import Py Resolver FileEntity Props.
Context (E : Env).

Lemma reads_back_buffered (src : FileSource) (m : Metadata) (data : bytes) :
  reads_back (inr (mkFile src m (Some data) None)) data.
Proof. eexists; repeat split. Qed.

(** C2.  For each of the five sources, the factory succeeds whenever its
    backend supplies bytes, and [read] on the new entity returns exactly
    those bytes, the first time and every time after. *)
Theorem read_round_trip (w : World) (hint : option MetadataHint) :
  (forall data, reads_back (from_bytes E w data hint) data)
  /\ (forall p node,
        fs w !! abspath E p = Some node ->
        reads_back (from_file E w p hint) (node_content node))
  /\ (forall u r,
        http w !! u = Some r ->
        (200 <=? status_code r)%Z && (status_code r <? 300)%Z = true ->
        reads_back (from_url E w u hint) (content r))
  /\ (forall s data,
        stream_data s = Some data ->
        reads_back (from_stream E w s hint) data)
  /\ (forall bucket key r body,
        s3_objects w !! (bucket, key) = Some r ->
        Body r = Some body ->
        reads_back (from_s3 E w bucket key hint) body).
Proof.
  repeat split.
  - intros data. apply reads_back_buffered.
  - intros p node Hp. unfold from_file. rewrite Hp. apply reads_back_buffered.
  - intros u r Hu Hok. unfold from_url. rewrite Hu, Hok.
    apply reads_back_buffered.
  - intros s data Hs. rewrite (from_stream_data E w s hint data Hs).
    apply reads_back_buffered.
  - intros bucket key r body Hobj Hbody. unfold from_s3.
    rewrite Hobj, Hbody. apply reads_back_buffered.
Qed.

End RoundTrip.

(** The five sources of the sample world read back. *)
Lemma read_round_trip_witness :
  Props.reads_back
    (FileEntity.from_bytes Sample.env Sample.world Sample.hello None) Sample.hello
  /\ Props.reads_back
       (FileEntity.from_file Sample.env Sample.world "/tmp/example.txt" None)
       Sample.hello
  /\ Props.reads_back
       (FileEntity.from_url Sample.env Sample.world "https://example.com/img" None)
       Sample.png_data
  /\ Props.reads_back
       (FileEntity.from_stream Sample.env Sample.world
          (FileEntity.AsyncIterator [Sample.png_signature; Sample.hello]) None)
       Sample.png_data
  /\ Props.reads_back
       (FileEntity.from_stream Sample.env Sample.world
          (FileEntity.FileLike Sample.hello) None)
       Sample.hello
  /\ Props.reads_back
       (FileEntity.from_s3 Sample.env Sample.world "bucket" "docs/key.txt" None)
       Sample.hello.
Proof.
  destruct (read_round_trip Sample.env Sample.world None)
    as (Hbytes & Hfile & Hurl & Hstream & Hs3).
  split; [apply Hbytes|].
  split; [apply (Hfile "/tmp/example.txt" Sample.example_node); reflexivity|].
  split; [apply (Hurl "https://example.com/img" Sample.octet_response); reflexivity|].
  split; [apply Hstream; reflexivity|].
  split; [apply Hstream; reflexivity|].
  apply (Hs3 "bucket" "docs/key.txt" Sample.s3_999); reflexivity.
Defined.

(** ** Mutators and the source tag *)

Section Mutators.
Import Py Resolver FileEntity Props.
Context (E : Env).

Lemma not_a_local_file_other (self : File) :
  _source self <> FILE -> not_a_local_file self = true.
Proof.
  intros H. unfold not_a_local_file.
  rewrite bool_decide_eq_false_2 by assumption. reflexivity.
Qed.

(** C4.  On an entity whose source tag is not FILE, [append], [prepend]
    and [truncate] raise the error of an invalid source operation, and
    the entity (source tag, metadata, buffered content, pending stream)
    and the world are after the call what they were before it. *)
Theorem mutators_reject_other_sources (self : File) (w : World) :
  _source self <> FILE ->
  (forall c,
      (exists e, result (append E self w c) = inl e /\ InvalidSourceOperation e)
      /\ self_after (append E self w c) = self
      /\ world_after (append E self w c) = w)
  /\ (forall c,
      (exists e, result (prepend E self w c) = inl e /\ InvalidSourceOperation e)
      /\ self_after (prepend E self w c) = self
      /\ world_after (prepend E self w c) = w)
  /\ (forall n,
      (exists e, result (truncate E self w n) = inl e /\ InvalidSourceOperation e)
      /\ self_after (truncate E self w n) = self
      /\ world_after (truncate E self w n) = w).
Proof.
  intros Hsrc. pose proof (not_a_local_file_other self Hsrc) as Hguard.
  unfold append, prepend, truncate, InvalidSourceOperation. rewrite Hguard.
  repeat split; eexists; split; eauto.
Qed.

End Mutators.

(** An entity made from bytes refuses the three mutators and stays as it
    is. *)
Lemma mutators_reject_other_sources_witness :
  FileEntity.result
    (FileEntity.append Sample.env Sample.bytes_entity Sample.world
       (FileEntity.Text "more"))
  = inl (RuntimeError "Cannot append to non-file source")
  /\ FileEntity.self_after
       (FileEntity.append Sample.env Sample.bytes_entity Sample.world
          (FileEntity.Text "more"))
     = Sample.bytes_entity
  /\ FileEntity.self_after
       (FileEntity.truncate Sample.env Sample.bytes_entity Sample.world 1)
     = Sample.bytes_entity.
Proof.
  destruct (mutators_reject_other_sources Sample.env Sample.bytes_entity
              Sample.world ltac:(discriminate)) as (Ha & _ & Ht).
  split; [reflexivity|].
  split; [apply (Ha (FileEntity.Text "more"))|apply (Ht 1%Z)].
Defined.

(** ** Object-storage locators *)

Section Locators.
Import Py Resolver FileEntity Props.
Context (E : Env).

Lemma replace_first_scheme (rest : string) :
  replace_first "s3://" EmptyString ("s3://" +:+ rest) = rest.
Proof. reflexivity. Qed.

Lemma split_once_first_separator (b k : string) :
  has_char "/" b = false ->
  split_once "/" (b +:+ "/" +:+ k) = [b; k].
Proof.
  induction b as [|c b IH]; intros Hb.
  - reflexivity.
  - cbn [has_char] in Hb. apply orb_false_elim in Hb as [Hc Hb].
    change (String c b +:+ "/" +:+ k) with (String c (b +:+ "/" +:+ k)).
    cbn [split_once]. rewrite Hc, (IH Hb). reflexivity.
Qed.

(** The canonical locator parses back into its bucket and key. *)
Lemma parse_s3_url_of_locator (b k : string) :
  has_char "/" b = false ->
  _parse_s3_url ("s3://" +:+ b +:+ "/" +:+ k) = inr (b, k).
Proof.
  intros Hb. unfold _parse_s3_url.
  rewrite replace_first_scheme, (split_once_first_separator b k Hb).
  reflexivity.
Qed.

(** C7.  An entity constructed from bucket [b] and key [k] stores the
    locator s3://b/k as its [url], and when [b] holds no path separator
    [_parse_s3_url] recovers exactly [(b, k)] from the stored locator (for
    every key, the empty one included). *)
Theorem s3_locator_round_trip
    (w : World) (b k : string) (hint : option MetadataHint)
    (r : S3Response) (body : bytes) :
  has_char "/" b = false ->
  s3_objects w !! (b, k) = Some r ->
  Body r = Some body ->
  exists f u,
    from_s3 E w b k hint = inr f
    /\ url (_metadata f) = Some u
    /\ u = "s3://" +:+ b +:+ "/" +:+ k
    /\ _parse_s3_url u = inr (b, k).
Proof.
  intros Hb Hobj Hbody. unfold from_s3. rewrite Hobj, Hbody.
  eexists; exists ("s3://" +:+ b +:+ "/" +:+ k).
  split; [reflexivity|]. split; [|split; [reflexivity|]].
  - cbn [_metadata]. use_build_admin. rewrite Hurl.
    change (default no_hint (Some ?h)) with h.
    eapply eq_trans;
      [apply (same_locator_trans _ _ _
                (stage_http_locator E _ _) (stage_s3_locator E _ _))|].
    reflexivity.
  - apply parse_s3_url_of_locator. exact Hb.
Qed.

End Locators.

(** The stored object of the sample world. *)
Lemma s3_locator_round_trip_witness :
  exists f u,
    FileEntity.from_s3 Sample.env Sample.world "bucket" "docs/key.txt" None
    = inr f
    /\ url (FileEntity._metadata f) = Some u
    /\ u = "s3://bucket/docs/key.txt"
    /\ FileEntity._parse_s3_url u = inr ("bucket", "docs/key.txt").
Proof.
  apply (s3_locator_round_trip Sample.env Sample.world "bucket" "docs/key.txt"
           None Sample.s3_999 Sample.hello); reflexivity.
Defined.

(** ** Strings *)

Section StringFacts.
Import Py Props.

Lemma app_cons (c : ascii) (a b : string) :
  String c a +:+ b = String c (a +:+ b).
Proof. reflexivity. Qed.

Lemma app_nil_l (b : string) : EmptyString +:+ b = b.
Proof. reflexivity. Qed.

Lemma length_app (a b : string) :
  String.length (a +:+ b) = (String.length a + String.length b)%nat.
Proof.
  induction a as [|x a IH]; [reflexivity|].
  rewrite app_cons. cbn [String.length]. rewrite IH. reflexivity.
Qed.

Lemma take_app_exact (v rest : string) :
  take (String.length (v +:+ rest) - String.length rest) (v +:+ rest) = v.
Proof.
  rewrite length_app.
  replace (String.length v + String.length rest - String.length rest)%nat
    with (String.length v) by lia.
  induction v as [|c v IH].
  - rewrite app_nil_l. destruct rest; reflexivity.
  - rewrite app_cons. cbn [String.length take]. rewrite IH. reflexivity.
Qed.

Lemma startswith_app (w s : string) : startswith w (w +:+ s) = true.
Proof.
  induction w as [|c w IH]; [reflexivity|].
  rewrite app_cons. cbn [startswith]. rewrite Ascii.eqb_refl. exact IH.
Qed.

(** A word that is absent from a string starts none of its suffixes. *)
Lemma occurs_false_suffix (w a b : string) :
  occurs w (a +:+ b) = false -> startswith w b = false.
Proof.
  induction a as [|c a IH].
  - rewrite app_nil_l.
    destruct b; cbn [occurs]; intros H; apply orb_false_elim in H as [H _];
      exact H.
  - rewrite app_cons. cbn [occurs].
    intros H. apply orb_false_elim in H as [_ H]. exact (IH H).
Qed.

Lemma occurs_false_here (w s : string) :
  occurs w s = false -> startswith w s = false.
Proof. apply (occurs_false_suffix w EmptyString s). Qed.

Lemma occurs_false_tail (w : string) (c : ascii) (s : string) :
  occurs w (String c s) = false -> occurs w s = false.
Proof. cbn [occurs]. intros H. apply orb_false_elim in H as [_ H]. exact H. Qed.

Lemma lower_str_app (a b : string) :
  lower_str (a +:+ b) = lower_str a +:+ lower_str b.
Proof.
  induction a as [|c a IH]; [reflexivity|].
  rewrite app_cons. cbn [lower_str]. rewrite IH. reflexivity.
Qed.


Lemma keyword_plain_no_border (c : ascii) (x y : string) :
  startswith "filename" (String c x +:+ "filename" +:+ y)
  = startswith "filename" (String c x).
Proof.
  do 7 (destruct x as [|? x];
        [rewrite ?app_cons, ?app_nil_l; cbn [startswith];
         repeat (destruct (Ascii.eqb _ _); cbn; try reflexivity)|]).
  rewrite ?app_cons. cbn [startswith].
  repeat (destruct (Ascii.eqb _ _); cbn; try reflexivity).
Qed.

(** Stripping a class of characters from a string that has none of them
    changes nothing. *)
Lemma lstrip_none (p : ascii -> bool) (s : string) :
  all_chars (fun c => negb (p c)) s = true -> lstrip p s = s.
Proof.
  destruct s as [|c s]; cbn; [reflexivity|].
  intros H. apply andb_prop in H as [H _].
  apply negb_true_iff in H. rewrite H. reflexivity.
Qed.

Lemma rstrip_none (p : ascii -> bool) (s : string) :
  all_chars (fun c => negb (p c)) s = true -> rstrip p s = s.
Proof.
  induction s as [|c s IH]; cbn; [reflexivity|].
  intros H. apply andb_prop in H as [Hc Hs].
  rewrite (IH Hs). apply negb_true_iff in Hc. rewrite Hc.
  destruct s; reflexivity.
Qed.

Lemma lstrip_all_chars (q p : ascii -> bool) (s : string) :
  all_chars q s = true -> all_chars q (lstrip p s) = true.
Proof.
  induction s as [|c s IH]; cbn; [reflexivity|].
  intros H. destruct (p c).
  - apply IH. apply andb_prop in H as [_ H]. exact H.
  - exact H.
Qed.

Lemma rstrip_all_chars (q p : ascii -> bool) (s : string) :
  all_chars q s = true -> all_chars q (rstrip p s) = true.
Proof.
  induction s as [|c s IH]; cbn; [reflexivity|].
  intros H. apply andb_prop in H as [Hc Hs]. specialize (IH Hs).
  destruct (rstrip p s) as [|d r].
  - destruct (p c); cbn; [reflexivity|]. rewrite Hc. reflexivity.
  - cbn [all_chars]. rewrite Hc. exact IH.
Qed.

(** Stripping quotes after stripping spaces does nothing to a value
    that holds no quote. *)
Lemma strip_quotes_of_plain_value (v : string) :
  all_chars Re.not_quote_semi v = true ->
  strip_by is_quote (strip v) = strip v.
Proof.
  intros Hv.
  assert (Hq : all_chars (fun c => negb (is_quote c)) v = true).
  { clear -Hv. induction v as [|c v IH]; cbn in *; [reflexivity|].
    apply andb_prop in Hv as [Hc Hv]. rewrite (IH Hv), andb_true_r.
    unfold Re.not_quote_semi in Hc. apply andb_prop in Hc as [Hc _].
    exact Hc. }
  assert (Hs : all_chars (fun c => negb (is_quote c)) (strip v) = true).
  { unfold strip, strip_by. apply rstrip_all_chars, lstrip_all_chars, Hq. }
  unfold strip_by at 1. rewrite (lstrip_none _ _ Hs). apply rstrip_none, Hs.
Qed.

End StringFacts.

(** ** The matcher *)

Section MatcherFacts.
Import Py Re Props.
Context {R : Type}.
Implicit Types (k : string -> option string -> option R).


(** A word of literals fails where the input does not start with it. *)
Lemma exec_lits_fail (w : string) (tail : regex) (s : string)
    (g : option string) k :
  startswith w s = false -> exec (lits w tail) s g k = None.
Proof.
  revert s. induction w as [|c w IH]; intros s; [discriminate|].
  destruct s as [|a s]; [reflexivity|].
  cbn [lits exec startswith]. rewrite (Ascii.eqb_sym a c).
  destruct (Ascii.eqb c a); [apply IH|reflexivity].
Qed.

(** Under IGNORECASE a word consumes any spelling of itself. *)
Lemma exec_litsI (w kw : string) (tail : regex) (s : string)
    (g : option string) k :
  lower_str kw = lower_str w ->
  exec (litsI w tail) (kw +:+ s) g k = exec tail s g k.
Proof.
  revert kw. induction w as [|c w IH]; intros [|a kw]; try discriminate.
  - reflexivity.
  - cbn [lower_str]. intros [= Hc Hw].
    rewrite app_cons. cbn [litsI exec]. rewrite Hc, Ascii.eqb_refl.
    apply IH, Hw.
Qed.

Lemma exec_litsI_fail (w : string) (tail : regex) (s : string)
    (g : option string) k :
  startswith (lower_str w) (lower_str s) = false ->
  exec (litsI w tail) s g k = None.
Proof.
  revert s. induction w as [|c w IH]; intros s; [discriminate|].
  destruct s as [|a s]; [reflexivity|].
  cbn [litsI exec lower_str startswith].
  rewrite (Ascii.eqb_sym (lower a) (lower c)).
  destruct (Ascii.eqb (lower c) (lower a)); [apply IH|reflexivity].
Qed.

(** A greedy repetition takes the whole run when what follows the run
    matches. *)
Lemma star_takes_run (p : ascii -> bool) (run s : string)
    (g : option string) k (r : R) :
  all_chars p run = true ->
  head_is p s = false ->
  k s g = Some r ->
  star p (run +:+ s) g k = Some r.
Proof.
  intros Hrun Hhead Hk. induction run as [|c run IH].
  - rewrite app_nil_l. destruct s as [|a s]; [exact Hk|].
    cbn [star]. cbn [head_is] in Hhead. rewrite Hhead. exact Hk.
  - cbn [all_chars] in Hrun. apply andb_prop in Hrun as [Hc Hrun].
    rewrite app_cons. cbn [star]. rewrite Hc, (IH Hrun). reflexivity.
Qed.



End MatcherFacts.

Section SearchFacts.
Import Py Re Props.

(** A search goes over the positions where the pattern does not match. *)
Lemma search_skips (r : regex) (pre s : string) :
  (forall c t u, pre = u +:+ String c t -> match_at r (String c t +:+ s) = None) ->
  search r (pre +:+ s) = search r s.
Proof.
  induction pre as [|c pre IH]; intros Hnone; [reflexivity|].
  pose proof (Hnone c pre EmptyString eq_refl) as Hhere.
  rewrite app_cons in *. cbn [search]. rewrite Hhere.
  apply IH. intros d t u ->. apply (Hnone d t (String c u)). reflexivity.
Qed.

Lemma search_here (r : regex) (s : string) (g : option string) :
  match_at r s = Some g -> search r s = Some g.
Proof. intros H. destruct s; cbn [search]; rewrite H; reflexivity. Qed.

Lemma search_nowhere (r : regex) (s : string) :
  (forall t u, s = u +:+ t -> match_at r t = None) ->
  search r s = None.
Proof.
  induction s as [|c s IH]; intros Hnone.
  - cbn [search]. rewrite (Hnone EmptyString EmptyString eq_refl). reflexivity.
  - cbn [search]. rewrite (Hnone (String c s) EmptyString eq_refl).
    apply IH. intros t u ->. apply (Hnone t (String c u)). reflexivity.
Qed.

End SearchFacts.

(** ** The two patterns of the Content-Disposition parser *)

Section PatternFacts.
Import Py Re Props ContentDisposition.


Lemma plus_takes_run {R : Type} (p : ascii -> bool) (c : ascii)
    (run s : string) (g : option string)
    (k : string -> option string -> option R) (r : R) :
  p c = true ->
  all_chars p run = true ->
  head_is p s = false ->
  k s g = Some r ->
  exec (Plus p) (String c run +:+ s) g k = Some r.
Proof.
  intros Hc Hrun Hhead Hk. rewrite app_cons. cbn [exec]. rewrite Hc.
  apply star_takes_run; assumption.
Qed.







(** The extended pattern matches nowhere but at its keyword. *)
Lemma star_pattern_needs_keyword (s : string) :
  startswith "filename*" s = false -> match_at star_pattern s = None.
Proof. intros H. unfold match_at, star_pattern. apply exec_lits_fail, H. Qed.


Lemma search_star_none (h : string) :
  occurs "filename*" h = false -> search star_pattern h = None.
Proof.
  intros Hh. apply search_nowhere. intros t u ->.
  apply star_pattern_needs_keyword. exact (occurs_false_suffix _ _ _ Hh).
Qed.

(** The plain pattern at its keyword, in any case of letters. *)
Lemma plain_pattern_matches (kw ws1 ws2 q v rest : string) :
  lower_str kw = "filename" ->
  all_chars isspace ws1 = true ->
  all_chars isspace ws2 = true ->
  (q = EmptyString /\ head_is isspace v = false) \/ q = String dquote EmptyString ->
  v <> EmptyString ->
  all_chars not_quote_semi v = true ->
  plain_ends rest = true ->
  match_at plain_pattern
    (kw +:+ ws1 +:+ "=" +:+ ws2 +:+ q +:+ v +:+ rest)
  = Some (Some v).
Proof.
  intros Hkw Hws1 Hws2 Hq Hne Hv Hend.
  assert (Htail :
    exec (Seq (Group (Plus not_quote_semi)) (Opt (LitI dquote)))
      (v +:+ rest) None (fun _ g => Some g) = Some (Some v)).
  { cbn [exec]. destruct v as [|c v]; [exfalso; apply Hne; reflexivity|].
    cbn [all_chars] in Hv. apply andb_prop in Hv as [Hc Hv].
    apply plus_takes_run; try assumption.
    - destruct rest as [|x r]; [reflexivity|]. cbn [plain_ends] in Hend.
      apply negb_true_iff in Hend. exact Hend.
    - rewrite take_app_exact. destruct rest as [|x r]; [reflexivity|].
      cbn [exec]. destruct (Ascii.eqb (lower x) (lower dquote)); reflexivity. }
  unfold match_at, plain_pattern.
  rewrite (exec_litsI "filename" kw) by exact Hkw. cbn [exec].
  apply star_takes_run; [exact Hws1|reflexivity|].
  rewrite app_cons, app_nil_l. cbn [exec].
  change (Ascii.eqb (lower "=") (lower "=")) with true. cbv iota.
  apply star_takes_run; [exact Hws2| |].
  - destruct Hq as [[-> Hhead]| ->].
    + rewrite app_nil_l. destruct v as [|c v]; [exfalso; apply Hne; reflexivity|].
      rewrite app_cons. exact Hhead.
    + reflexivity.
  - destruct Hq as [[-> Hhead]| ->].
    + rewrite app_nil_l. cbn [exec] in *.
      destruct v as [|c v]; [exfalso; apply Hne; reflexivity|]. rewrite app_cons in *.
      cbn [all_chars] in Hv. apply andb_prop in Hv as [Hc _].
      assert (Hnq : Ascii.eqb (lower c) (lower dquote) = false).
      { unfold not_quote_semi in Hc. apply andb_prop in Hc as [Hc _].
        apply negb_true_iff in Hc. apply Ascii.eqb_neq in Hc.
        apply Ascii.eqb_neq. intros Heq. apply Hc.
        clear -Heq. destruct c as [[] [] [] [] [] [] [] []];
          vm_compute in Heq; try discriminate Heq; reflexivity. }
      rewrite Hnq. exact Htail.
    + rewrite app_cons, app_nil_l. cbn [exec] in *.
      change (Ascii.eqb (lower dquote) (lower dquote)) with true. cbv iota.
      rewrite Htail. reflexivity.
Qed.

Lemma plain_pattern_needs_keyword (s : string) :
  startswith "filename" (lower_str s) = false ->
  match_at plain_pattern s = None.
Proof.
  intros H. unfold match_at, plain_pattern. apply exec_litsI_fail, H.
Qed.

Lemma search_plain_found (pre kw tail : string) (g : option string) :
  occurs "filename" (lower_str pre) = false ->
  lower_str kw = "filename" ->
  match_at plain_pattern (kw +:+ tail) = Some g ->
  search plain_pattern (pre +:+ kw +:+ tail) = Some g.
Proof.
  intros Hpre Hkw Hm. rewrite search_skips; [apply search_here, Hm|].
  intros c t u ->. apply plain_pattern_needs_keyword.
  rewrite !lower_str_app, Hkw. cbn [lower_str].
  rewrite keyword_plain_no_border.
  rewrite lower_str_app in Hpre.
  exact (occurs_false_suffix _ _ _ Hpre).
Qed.

End PatternFacts.

(** ** The Content-Disposition parser *)

Section Parser.
Import Py Re Props ContentDisposition.
Variable unquote : string -> string.


(** Without a match of the extended pattern, a match of the plain one
    decides it. *)
Lemma parse_plain (h : string) (g : option string) :
  search star_pattern h = None ->
  search plain_pattern h = Some g ->
  fst (parse_content_disposition unquote h)
  = Some (strip_by is_quote (strip (default EmptyString g))).
Proof.
  intros Hs Hp. destruct h as [|c h]; [discriminate Hp|].
  unfold parse_content_disposition. rewrite Hs, Hp. reflexivity.
Qed.


End Parser.

(** The two examples of the parser's docstring. *)
Example docstring_plain_form :
  ContentDisposition.parse_content_disposition Sample.sample_unquote
    Sample.header_docstring
  = (Some "report.pdf", Some ".pdf").
Proof. reflexivity. Qed.

Example docstring_extended_form :
  ContentDisposition.parse_content_disposition Sample.sample_unquote
    "attachment; filename*=UTF-8''my%20file.txt"
  = (Some "my file.txt", Some ".txt").
Proof. reflexivity. Qed.



(** * Further properties of the resolver *)

(** ** What each statement of the cascade writes *)

Section Frames.
Import Py Detection Resolver Props.
Context (E : Env).

Lemma set_name_same (m : Metadata) : set_name (name m) m = m.
Proof. destruct m; reflexivity. Qed.

Lemma set_size_same (m : Metadata) : set_size (size m) m = m.
Proof. destruct m; reflexivity. Qed.

Lemma set_mime_type_same (m : Metadata) : set_mime_type (mime_type m) m = m.
Proof. destruct m; reflexivity. Qed.

Lemma set_hash_same (m : Metadata) : set_hash (hash m) m = m.
Proof. destruct m; reflexivity. Qed.

Lemma set_last_modified_same (m : Metadata) :
  set_last_modified (last_modified m) m = m.
Proof. destruct m; reflexivity. Qed.

(** A statement of a transport stage is an assignment to one local. *)
Lemma step_disposition_writes (cd : option string) (m : Metadata) :
  step_disposition E cd m = set_name (name (step_disposition E cd m)) m.
Proof.
  unfold step_disposition. stage_cases; cbn [name set_name];
    try reflexivity; symmetry; apply set_name_same.
Qed.

Lemma step_name_from_url_writes (m : Metadata) :
  step_name_from_url E m = set_name (name (step_name_from_url E m)) m.
Proof.
  unfold step_name_from_url. destruct (name m) eqn:Hn.
  - symmetry. apply set_name_same.
  - reflexivity.
Qed.

Lemma step_http_length_writes (cl : option string) (m : Metadata) :
  step_http_length E cl m = set_size (size (step_http_length E cl m)) m.
Proof.
  unfold step_http_length. stage_cases; cbn [size set_size];
    try reflexivity; symmetry; apply set_size_same.
Qed.

Lemma step_s3_length_writes (cl : option S3Length) (m : Metadata) :
  step_s3_length E cl m = set_size (size (step_s3_length E cl m)) m.
Proof.
  unfold step_s3_length. stage_cases; cbn [size set_size];
    try reflexivity; symmetry; apply set_size_same.
Qed.

Lemma mime_from_extension_of_writes (x : string) (m : Metadata) :
  mime_from_extension_of E x m
  = set_mime_type (mime_type (mime_from_extension_of E x m)) m.
Proof.
  unfold mime_from_extension_of. stage_cases; cbn [mime_type set_mime_type];
    try reflexivity; symmetry; apply set_mime_type_same.
Qed.

Lemma step_content_type_writes (ct : option string) (m : Metadata) :
  step_content_type E ct m
  = set_mime_type (mime_type (step_content_type E ct m)) m.
Proof.
  unfold step_content_type.
  destruct (truthy ct); [reflexivity|].
  destruct (truthy (name m)).
  - apply mime_from_extension_of_writes.
  - symmetry. apply set_mime_type_same.
Qed.

Lemma step_http_hash_writes (etag cmd5 : option string) (m : Metadata) :
  step_http_hash etag cmd5 m = set_hash (hash (step_http_hash etag cmd5 m)) m.
Proof.
  unfold step_http_hash. stage_cases; cbn [hash set_hash];
    try reflexivity; symmetry; apply set_hash_same.
Qed.

Lemma step_s3_hash_writes (etag : option string) (m : Metadata) :
  step_s3_hash etag m = set_hash (hash (step_s3_hash etag m)) m.
Proof.
  unfold step_s3_hash. stage_cases; cbn [hash set_hash];
    try reflexivity; symmetry; apply set_hash_same.
Qed.

Lemma step_http_date_writes (lm : option string) (m : Metadata) :
  step_http_date E lm m
  = set_last_modified (last_modified (step_http_date E lm m)) m.
Proof.
  unfold step_http_date. stage_cases; cbn [last_modified set_last_modified];
    try reflexivity; symmetry; apply set_last_modified_same.
Qed.

Lemma step_s3_date_writes (lm : option S3Date) (m : Metadata) :
  step_s3_date E lm m
  = set_last_modified (last_modified (step_s3_date E lm m)) m.
Proof.
  unfold step_s3_date. destruct lm as [[d|s]|].
  - reflexivity.
  - apply step_http_date_writes.
  - symmetry. apply set_last_modified_same.
Qed.

End Frames.

(** Rewrites the outermost statement of a stage into the assignment it
    is, and reads the field asked for. *)
Ltac peel_step :=
  first
    [ rewrite step_http_date_writes
    | rewrite step_s3_date_writes
    | rewrite step_http_hash_writes
    | rewrite step_s3_hash_writes
    | rewrite step_content_type_writes
    | rewrite step_http_length_writes
    | rewrite step_s3_length_writes
    | rewrite step_name_from_url_writes
    | rewrite step_disposition_writes ];
  cbn [name mime_type size extension url path hash last_modified created_at
       Resolver.set_name Resolver.set_size Resolver.set_mime_type
       Resolver.set_hash Resolver.set_last_modified].

(** ** What each stage writes *)

Section StageFrames.
Import Py Detection Resolver Props OpsProps.
Context (E : Env).

(** The transport stages write neither the locators, nor the creation
    time, nor the extension. *)
Lemma stage_http_keeps (resp : option Response) (m : Metadata) :
  url (stage_http E resp m) = url m
  /\ path (stage_http E resp m) = path m
  /\ created_at (stage_http E resp m) = created_at m
  /\ extension (stage_http E resp m) = extension m.
Proof.
  destruct resp as [r|]; [|repeat split].
  unfold stage_http. cbv zeta. repeat split; do 6 peel_step; reflexivity.
Qed.

Lemma stage_s3_keeps (resp : option S3Response) (m : Metadata) :
  url (stage_s3 E resp m) = url m
  /\ path (stage_s3 E resp m) = path m
  /\ created_at (stage_s3 E resp m) = created_at m
  /\ extension (stage_s3 E resp m) = extension m.
Proof.
  destruct resp as [r|]; [|repeat split].
  unfold stage_s3. cbv zeta. repeat split; do 5 peel_step; reflexivity.
Qed.

(** The stat stage writes neither the locators, nor the name, nor the
    hash, nor the extension. *)
Lemma stage_stat_keeps (w : World) (src : FileSource) (m : Metadata) :
  url (stage_stat E w src m) = url m
  /\ path (stage_stat E w src m) = path m
  /\ name (stage_stat E w src m) = name m
  /\ hash (stage_stat E w src m) = hash m
  /\ extension (stage_stat E w src m) = extension m.
Proof.
  unfold stage_stat.
  destruct (bool_decide (src = FILE) && truthy (path m)); [|repeat split].
  rewrite mime_from_extension_of_writes.
  destruct (os_stat w _); repeat split.
Qed.

(** The name a transport stage leaves. *)
Lemma stage_http_name (r : Response) (m : Metadata) :
  name (stage_http E (Some r) m)
  = name (step_name_from_url E
            (step_disposition E (headers r !! "content-disposition") m)).
Proof. unfold stage_http. cbv zeta. do 4 peel_step. reflexivity. Qed.

Lemma stage_s3_name (r : S3Response) (m : Metadata) :
  name (stage_s3 E (Some r) m)
  = name (step_disposition E (ContentDisposition r) m).
Proof. unfold stage_s3. cbv zeta. do 4 peel_step. reflexivity. Qed.

(** The hash a transport stage leaves. *)
Lemma stage_http_hash (r : Response) (m : Metadata) :
  hash (stage_http E (Some r) m)
  = if truthy (headers r !! "etag")
    then Some (strip_by is_quote (default EmptyString (headers r !! "etag")))
    else if truthy (headers r !! "content-md5")
         then headers r !! "content-md5"
         else hash m.
Proof.
  unfold stage_http. cbv zeta. peel_step. unfold step_http_hash.
  destruct (truthy (headers r !! "etag")); [reflexivity|].
  destruct (truthy (headers r !! "content-md5")); [reflexivity|].
  do 4 peel_step. reflexivity.
Qed.

Lemma stage_s3_hash (r : S3Response) (m : Metadata) :
  hash (stage_s3 E (Some r) m)
  = if truthy (ETag r)
    then Some (strip_by is_quote (default EmptyString (ETag r)))
    else hash m.
Proof.
  unfold stage_s3. cbv zeta. peel_step. unfold step_s3_hash.
  destruct (truthy (ETag r)); [reflexivity|].
  do 3 peel_step. reflexivity.
Qed.

(** A content type that is given is the MIME type the stage leaves. *)
Lemma stage_http_mime_declared (r : Response) (m : Metadata) :
  truthy (headers r !! "content-type") = true ->
  mime_type (stage_http E (Some r) m) = headers r !! "content-type".
Proof.
  intros Hct. unfold stage_http. cbv zeta. do 2 peel_step.
  unfold step_content_type. rewrite Hct. reflexivity.
Qed.

Lemma stage_s3_mime_declared (r : S3Response) (m : Metadata) :
  truthy (ContentType r) = true ->
  mime_type (stage_s3 E (Some r) m) = ContentType r.
Proof.
  intros Hct. unfold stage_s3. cbv zeta. do 2 peel_step.
  unfold step_content_type. rewrite Hct. reflexivity.
Qed.

(** What the sniffer's stage leaves in its two fields. *)
Lemma stage_magic_fields (data : option bytes) (m : Metadata) :
  let sniffed := detect_from_bytes E (default [] data) in
  mime_type (stage_magic E data m)
  = (if truthy_bytes data && truthy (fst sniffed)
     then fst sniffed else mime_type m)
  /\ extension (stage_magic E data m)
     = (if truthy_bytes data && truthy (snd sniffed)
        then Some (if startswith "." (default EmptyString (snd sniffed))
                   then default EmptyString (snd sniffed)
                   else "." +:+ default EmptyString (snd sniffed))
        else extension m).
Proof.
  unfold stage_magic. destruct (truthy_bytes data); [|split; reflexivity].
  destruct (detect_from_bytes E (default [] data)) as [mm me]. cbn [fst snd andb].
  destruct (truthy mm), (truthy me); split; reflexivity.
Qed.

(** Normalising an extension that begins with the separator, or does
    not. *)
Lemma without_dot_of_dotted (e : string) :
  e <> EmptyString ->
  without_dot (if startswith "." e then e else "." +:+ e) = without_dot e.
Proof.
  intros He. destruct e as [|c e]; [exfalso; apply He; reflexivity|].
  destruct (startswith "." (String c e)) eqn:Hdot; [reflexivity|].
  change ("." +:+ String c e) with (String "."%char (String c e)).
  cbn [without_dot]. rewrite Hdot.
  change (startswith "." (String "." (String c e))) with true. reflexivity.
Qed.

Lemma stage_normalise_extension (m : Metadata) :
  extension (stage_normalise m) = without_dot <$> extension m.
Proof.
  unfold stage_normalise.
  destruct (extension m) as [[|c rest]|] eqn:Hext; cbn [fmap option_fmap option_map].
  - rewrite Hext. reflexivity.
  - cbn [without_dot]. destruct (startswith "." (String c rest)).
    + reflexivity.
    + rewrite Hext. reflexivity.
  - rewrite Hext. reflexivity.
Qed.

End StageFrames.

(** ** Precedence in the cascade *)

Section Precedence.
Import Py Detection Resolver FileEntity Props OpsProps.
Context (E : Env).

Lemma build_unfold (w : World) (src : FileSource) (hint : option MetadataHint)
    (resp : option Response) (s3 : option S3Response) (data : option bytes) :
  _build_metadata E w src hint resp s3 data
  = stage_normalise (stage_ext_from_mime E (stage_magic E data
      (stage_name_mime E (stage_stat E w src (transported E hint resp s3))))).
Proof. reflexivity. Qed.

Lemma transported_keeps (hint : option MetadataHint)
    (resp : option Response) (s3 : option S3Response) :
  url (transported E hint resp s3) = hint_url (default no_hint hint)
  /\ path (transported E hint resp s3) = hint_path (default no_hint hint)
  /\ created_at (transported E hint resp s3)
     = hint_created_at (default no_hint hint).
Proof.
  unfold transported.
  destruct (stage_s3_keeps E s3
              (stage_http E (effective_response hint resp)
                 (seed (default no_hint hint)))) as (-> & -> & -> & _).
  destruct (stage_http_keeps E (effective_response hint resp)
              (seed (default no_hint hint))) as (-> & -> & -> & _).
  repeat split.
Qed.

Lemma build_url (w : World) (src : FileSource) (hint : option MetadataHint)
    (resp : option Response) (s3 : option S3Response) (data : option bytes) :
  url (_build_metadata E w src hint resp s3 data)
  = hint_url (default no_hint hint).
Proof.
  rewrite build_unfold.
  destruct (late_stages_admin E data
              (stage_stat E w src (transported E hint resp s3)))
    as (_ & _ & -> & _).
  destruct (stage_stat_keeps E w src (transported E hint resp s3))
    as (-> & _).
  apply transported_keeps.
Qed.

Lemma build_path (w : World) (src : FileSource) (hint : option MetadataHint)
    (resp : option Response) (s3 : option S3Response) (data : option bytes) :
  path (_build_metadata E w src hint resp s3 data)
  = hint_path (default no_hint hint).
Proof.
  rewrite build_unfold.
  destruct (late_stages_admin E data
              (stage_stat E w src (transported E hint resp s3)))
    as (_ & _ & _ & -> & _).
  destruct (stage_stat_keeps E w src (transported E hint resp s3))
    as (_ & -> & _).
  apply transported_keeps.
Qed.

(** The name and the hash are those the transport stages leave. *)
Lemma build_name (w : World) (src : FileSource) (hint : option MetadataHint)
    (resp : option Response) (s3 : option S3Response) (data : option bytes) :
  name (_build_metadata E w src hint resp s3 data)
  = name (transported E hint resp s3).
Proof.
  rewrite build_unfold.
  destruct (late_stages_admin E data
              (stage_stat E w src (transported E hint resp s3)))
    as (-> & _).
  apply (stage_stat_keeps E w src (transported E hint resp s3)).
Qed.

(** What the stat stage decides for a local file. *)
Lemma build_stat_fields (w : World) (hint : option MetadataHint)
    (resp : option Response) (s3 : option S3Response) (data : option bytes)
    (p : string) (st : StatResult) :
  hint_path (default no_hint hint) = Some p ->
  p <> EmptyString ->
  os_stat w p = Some st ->
  size (_build_metadata E w FILE hint resp s3 data) = Some (st_size st).
Proof.
  intros Hp Hne Hst. rewrite build_unfold.
  destruct (late_stages_admin E data
              (stage_stat E w FILE (transported E hint resp s3)))
    as (_ & -> & _).
  unfold stage_stat.
  rewrite (proj1 (proj2 (transported_keeps hint resp s3))), Hp.
  destruct p as [|c p]; [exfalso; apply Hne; reflexivity|].
  change (bool_decide (FILE = FILE) && truthy (Some (String c p))) with true.
  change (default EmptyString (Some (String c p))) with (String c p).
  cbv iota. rewrite Hst. rewrite mime_from_extension_of_writes.
  reflexivity.
Qed.

(** What is left of the transport stages when the stat stage does not
    run, or when the stat fails. *)
Lemma build_without_stat (w : World) (src : FileSource)
    (hint : option MetadataHint) (resp : option Response)
    (s3 : option S3Response) (data : option bytes) :
  src <> FILE
  \/ truthy (hint_path (default no_hint hint)) = false
  \/ os_stat w (default EmptyString (hint_path (default no_hint hint))) = None ->
  size (_build_metadata E w src hint resp s3 data)
  = size (transported E hint resp s3)
  /\ last_modified (_build_metadata E w src hint resp s3 data)
     = last_modified (transported E hint resp s3)
  /\ created_at (_build_metadata E w src hint resp s3 data)
     = hint_created_at (default no_hint hint).
Proof.
  intros Hskip. rewrite build_unfold.
  destruct (late_stages_admin E data
              (stage_stat E w src (transported E hint resp s3)))
    as (_ & -> & _ & _ & _ & -> & ->).
  rewrite <- (proj2 (proj2 (transported_keeps hint resp s3))).
  unfold stage_stat.
  rewrite (proj1 (proj2 (transported_keeps hint resp s3))).
  destruct Hskip as [Hsrc|[Hp|Hst]].
  - rewrite bool_decide_eq_false_2 by assumption. repeat split.
  - rewrite Hp, andb_false_r. repeat split.
  - destruct (bool_decide (src = FILE) && _); [|repeat split].
    rewrite Hst, mime_from_extension_of_writes. repeat split.
Qed.

(** X1.  No stage writes the locators: the resolved [url] and [path] are
    those of the hint, for every source and every input. *)
Theorem locators_come_from_hint
    (w : World) (src : FileSource) (hint : option MetadataHint)
    (resp : option Response) (s3 : option S3Response) (data : option bytes) :
  url (_build_metadata E w src hint resp s3 data)
  = hint_url (default no_hint hint)
  /\ path (_build_metadata E w src hint resp s3 data)
     = hint_path (default no_hint hint).
Proof.
  split.
  - apply build_url.
  - apply build_path.
Qed.

(** X2.  Whenever the resolver returns a record for a local file whose
    path is not empty and for which [os.stat] succeeds, the size of the
    record is the size of the stat result, whatever the hint and the
    transport stages said.  When the stat stage does not run (another
    source, no path) or the stat fails, the size and the modification
    time are those the transport stages left and the creation time is
    the hint's: no other stage writes the three. *)
Theorem stat_decides_size
    (w : World) (src : FileSource) (hint : option MetadataHint)
    (resp : option Response) (s3 : option S3Response) (data : option bytes) :
  (forall p st,
      src = FILE ->
      hint_path (default no_hint hint) = Some p ->
      p <> EmptyString ->
      os_stat w p = Some st ->
      size (_build_metadata E w src hint resp s3 data) = Some (st_size st))
  /\ (src <> FILE
      \/ truthy (hint_path (default no_hint hint)) = false
      \/ os_stat w (default EmptyString (hint_path (default no_hint hint))) = None ->
      let m := _build_metadata E w src hint resp s3 data in
      size m = size (transported E hint resp s3)
      /\ last_modified m = last_modified (transported E hint resp s3)
      /\ created_at m = hint_created_at (default no_hint hint)).
Proof.
  split.
  - intros p st -> Hp Hne Hst.
    apply (build_stat_fields w hint resp s3 data p st); assumption.
  - apply build_without_stat.
Qed.

(** X3.  The hash has one order of precedence for every source: the entity
    tag of the object-storage response, then the entity tag of the
    transport response, both stripped of their double quotes, then the
    content checksum of the transport response, then the hint. *)
Theorem hash_precedence
    (w : World) (src : FileSource) (hint : option MetadataHint)
    (resp : option Response) (s3 : option S3Response) (data : option bytes) :
  let r := effective_response hint resp in
  let s3_etag := s3 ≫= ETag in
  let etag := r ≫= (fun r => headers r !! "etag") in
  let cmd5 := r ≫= (fun r => headers r !! "content-md5") in
  hash (_build_metadata E w src hint resp s3 data)
  = if truthy s3_etag
    then Some (strip_by is_quote (default EmptyString s3_etag))
    else if truthy etag
         then Some (strip_by is_quote (default EmptyString etag))
         else if truthy cmd5 then cmd5
              else hint_hash (default no_hint hint).
Proof.
  cbv zeta. rewrite build_unfold.
  destruct (late_stages_admin E data
              (stage_stat E w src (transported E hint resp s3)))
    as (_ & _ & _ & _ & -> & _).
  destruct (stage_stat_keeps E w src (transported E hint resp s3))
    as (_ & _ & _ & -> & _).
  unfold transported.
  assert (Hhttp :
    hash (stage_http E (effective_response hint resp)
            (seed (default no_hint hint)))
    = if truthy (effective_response hint resp
                   ≫= (fun r => headers r !! "etag"))
      then Some (strip_by is_quote
                   (default EmptyString
                      (effective_response hint resp
                         ≫= (fun r => headers r !! "etag"))))
      else if truthy (effective_response hint resp
                        ≫= (fun r => headers r !! "content-md5"))
           then effective_response hint resp
                  ≫= (fun r => headers r !! "content-md5")
           else hint_hash (default no_hint hint)).
  { destruct (effective_response hint resp) as [r|]; [|reflexivity].
    rewrite stage_http_hash. reflexivity. }
  destruct s3 as [r3|]; cbn [mbind option_bind].
  - rewrite stage_s3_hash. destruct (truthy (ETag r3)); [reflexivity|].
    exact Hhttp.
  - exact Hhttp.
Qed.

End Precedence.

Section PrecedenceOfDetectors.
Import Py Detection Resolver FileEntity ContentDisposition Props OpsProps.
Context (E : Env).

Lemma extension_before_sniffer (w : World) (src : FileSource)
    (hint : option MetadataHint) (resp : option Response)
    (s3 : option S3Response) :
  extension (stage_name_mime E (stage_stat E w src (transported E hint resp s3)))
  = hint_extension (default no_hint hint).
Proof.
  destruct (early_stages_locator E w src (default no_hint hint)
              (effective_response hint resp) s3) as [Hext _].
  exact Hext.
Qed.

(** X4.  The extension has one order of precedence: the extension the
    sniffer returns for non-empty data, then a non-empty extension of the
    hint, then the entry of the MIME-to-extension table for the resolved
    MIME type; each is stored without its leading separator, and the
    sniffer's extension replaces the hint's even when the two disagree. *)
Theorem extension_precedence
    (w : World) (src : FileSource) (hint : option MetadataHint)
    (resp : option Response) (s3 : option S3Response) (data : option bytes) :
  let sniffed :=
    if truthy_bytes data
    then snd (detect_from_bytes E (default [] data)) else None in
  let m := _build_metadata E w src hint resp s3 data in
  (forall e, sniffed = Some e -> extension m = Some (without_dot e))
  /\ (forall x,
        sniffed = None ->
        hint_extension (default no_hint hint) = Some x -> x <> EmptyString ->
        extension m = Some (without_dot x))
  /\ (forall t x,
        sniffed = None ->
        truthy (hint_extension (default no_hint hint)) = false ->
        mime_type m = Some t -> t <> EmptyString ->
        guess_extension E t = Some x -> x <> EmptyString ->
        extension m = Some (without_dot x)).
Proof.
  cbv zeta. rewrite build_unfold.
  set (m0 := stage_name_mime E (stage_stat E w src (transported E hint resp s3))).
  pose proof (extension_before_sniffer w src hint resp s3) as Hm0.
  fold m0 in Hm0.
  destruct (stage_magic_fields E data m0) as [_ Hmagic]. cbv zeta in Hmagic.
  rewrite Hm0 in Hmagic.
  split; [|split].
  - intros e He.
    destruct (truthy_bytes data) eqn:Hdata; [|discriminate He].
    destruct (detect_from_bytes_truthy E (default [] data) _ _
                (surjective_pairing _)) as [_ [Hnone|Htruthy]];
      [rewrite He in Hnone; discriminate Hnone|].
    rewrite Htruthy, He in Hmagic. cbn [andb] in Hmagic.
    change (default EmptyString (Some e)) with e in Hmagic.
    assert (Hne : e <> EmptyString).
    { intros ->. rewrite He in Htruthy. discriminate Htruthy. }
    rewrite stage_normalise_extension. unfold stage_ext_from_mime.
    rewrite Hmagic.
    assert (Hdotted :
      truthy (Some (if startswith "." e then e else "." +:+ e)) = true).
    { destruct (startswith "." e); [|reflexivity].
      destruct e; [exfalso; apply Hne; reflexivity|reflexivity]. }
    rewrite Hdotted. cbn [negb andb]. rewrite Hmagic.
    cbn [fmap option_fmap option_map]. rewrite without_dot_of_dotted by exact Hne.
    reflexivity.
  - intros x Hsniff Hx Hne.
    assert (Hcond :
      truthy_bytes data
      && truthy (snd (detect_from_bytes E (default [] data))) = false).
    { destruct (truthy_bytes data); [|reflexivity]. rewrite Hsniff. reflexivity. }
    rewrite Hcond, Hx in Hmagic.
    rewrite stage_normalise_extension. unfold stage_ext_from_mime.
    rewrite Hmagic.
    destruct x as [|c x]; [exfalso; apply Hne; reflexivity|].
    cbn [truthy negb andb]. rewrite Hmagic. reflexivity.
  - intros t x Hsniff Hhint Ht Hne Hx Hxne.
    assert (Hcond :
      truthy_bytes data
      && truthy (snd (detect_from_bytes E (default [] data))) = false).
    { destruct (truthy_bytes data); [|reflexivity]. rewrite Hsniff. reflexivity. }
    rewrite Hcond in Hmagic.
    rewrite stage_normalise_mime, stage_ext_from_mime_mime in Ht.
    rewrite stage_normalise_extension. unfold stage_ext_from_mime.
    rewrite Hmagic, Hhint, Ht.
    destruct t as [|c t]; [exfalso; apply Hne; reflexivity|].
    cbn [truthy negb andb].
    change (default EmptyString (Some (String c t))) with (String c t).
    unfold extension_from_mime. rewrite Hx.
    destruct x as [|d x]; [exfalso; apply Hxne; reflexivity|].
    reflexivity.
Qed.

(** X5.  For a source that is not a local file, a content type that the
    transport declares is the resolved MIME type whenever the sniffer
    finds none: the object-storage attribute first, and the header of the
    transport response when there is no object-storage response. *)
Theorem declared_type_stands
    (w : World) (src : FileSource) (hint : option MetadataHint)
    (resp : option Response) (s3 : option S3Response) (data : option bytes) :
  src <> FILE ->
  truthy_bytes data = false
  \/ fst (detect_from_bytes E (default [] data)) = None ->
  let m := _build_metadata E w src hint resp s3 data in
  (forall r3,
      s3 = Some r3 -> truthy (ContentType r3) = true ->
      mime_type m = ContentType r3)
  /\ (forall r,
      s3 = None -> effective_response hint resp = Some r ->
      truthy (headers r !! "content-type") = true ->
      mime_type m = headers r !! "content-type").
Proof.
  intros Hsrc Hsniff. cbv zeta. rewrite build_unfold.
  rewrite stage_normalise_mime, stage_ext_from_mime_mime.
  rewrite stage_stat_other by exact Hsrc.
  destruct (stage_magic_fields E data
              (stage_name_mime E (transported E hint resp s3))) as [-> _].
  assert (Hcond :
    truthy_bytes data
    && truthy (fst (detect_from_bytes E (default [] data))) = false).
  { destruct Hsniff as [-> | ->]; [reflexivity|apply andb_false_r]. }
  rewrite Hcond.
  assert (Hkeep : forall ct,
    truthy ct = true -> mime_type (transported E hint resp s3) = ct ->
    mime_type (stage_name_mime E (transported E hint resp s3)) = ct).
  { intros ct Hct Hm. unfold stage_name_mime. rewrite Hm, Hct. exact Hm. }
  split.
  - intros r3 -> Hct. apply Hkeep; [exact Hct|].
    unfold transported. apply stage_s3_mime_declared, Hct.
  - intros r -> Hr Hct. apply Hkeep; [exact Hct|].
    unfold transported. rewrite Hr. cbn [stage_s3].
    apply stage_http_mime_declared, Hct.
Qed.

(** X6.  The name of a download has one order of precedence: a non-empty
    filename parsed from the content-disposition header, then the name of
    the hint, then the last segment of the path of the URL. *)
Theorem download_name_precedence
    (w : World) (u : string) (hint : option MetadataHint) (r : Response) :
  http w !! u = Some r ->
  (200 <=? status_code r)%Z && (status_code r <? 300)%Z = true ->
  let cd := headers r !! "content-disposition" in
  let cd_name :=
    if truthy cd
    then fst (parse_content_disposition (unquote E) (default EmptyString cd))
    else None in
  exists f,
    from_url E w u hint = inr f
    /\ (truthy cd_name = true -> name (_metadata f) = cd_name)
    /\ (truthy cd_name = false ->
        forall x, hint_name (default no_hint hint) = Some x ->
        name (_metadata f) = Some x)
    /\ (truthy cd_name = false ->
        hint_name (default no_hint hint) = None ->
        name (_metadata f) = _filename_from_url E (Some u)).
Proof.
  intros Hu Hok. cbv zeta. unfold from_url. rewrite Hu, Hok.
  eexists; split; [reflexivity|]. cbn [_metadata].
  use_build_admin. rewrite Hname.
  cbn [stage_s3 effective_response].
  change (default no_hint (Some ?h)) with h.
  rewrite stage_http_name. unfold step_disposition.
  set (m0 := seed (hint_with_url (default no_hint hint) u)).
  destruct (truthy (headers r !! "content-disposition")).
  - set (n := fst (parse_content_disposition (unquote E) _)).
    destruct (truthy n) eqn:Hn.
    + split; [|split]; try discriminate. intros _.
      unfold step_name_from_url. cbn [name set_name].
      destruct (truthy_some n Hn) as (c & s & ->). reflexivity.
    + split; [discriminate|]. unfold step_name_from_url.
      split; intros _.
      * intros x Hx. change (name m0) with (hint_name (default no_hint hint)).
        rewrite Hx. exact Hx.
      * intros Hx. change (name m0) with (hint_name (default no_hint hint)).
        rewrite Hx. reflexivity.
  - split; [discriminate|]. unfold step_name_from_url.
    split; intros _.
    + intros x Hx. change (name m0) with (hint_name (default no_hint hint)).
      rewrite Hx. exact Hx.
    + intros Hx. change (name m0) with (hint_name (default no_hint hint)).
      rewrite Hx. reflexivity.
Qed.

End PrecedenceOfDetectors.

(** * Properties of the operations of the entity *)

(** ** The filesystem of the world *)

Section WorldFacts.
Import Py Resolver FileEntity Operations Props OpsProps.
Context (E : Env).

Lemma fs_store_same (w : World) (p : string) (d : bytes) :
  fs (store_file w p d) !! p = Some (mkFsNode d (len d) (now w) (now w)).
Proof. unfold store_file, set_fs. cbn [fs]. apply lookup_insert_eq. Qed.

Lemma fs_store_other (w : World) (p q : string) (d : bytes) :
  q <> p -> fs (store_file w p d) !! q = fs w !! q.
Proof.
  intros H. unfold store_file, set_fs. cbn [fs].
  apply lookup_insert_ne. congruence.
Qed.


Lemma write_file_refused (w : World) (p : string) (d : bytes) (e : Exn) :
  opening w WriteMode p = Refused e -> write_file w p d = w.
Proof. intros H. unfold write_file. rewrite H. reflexivity. Qed.


Lemma open_error_regular (w : World) (mode : OpenMode) (p : string) :
  opening w mode p = Regular -> open_error w mode p = None.
Proof. intros H. unfold open_error. rewrite H. reflexivity. Qed.

Lemma open_error_refused (w : World) (mode : OpenMode) (p : string)
    (e : Exn) :
  opening w mode p = Refused e -> open_error w mode p = Some e.
Proof. intros H. unfold open_error. rewrite H. reflexivity. Qed.

Lemma is_local_file_true (self : File) (p : string) :
  _source self = FILE -> path (_metadata self) = Some p -> p <> EmptyString ->
  is_local_file self = true /\ not_a_local_file self = false.
Proof.
  intros Hs Hp Hne. unfold is_local_file, not_a_local_file. rewrite Hs, Hp.
  destruct p; [exfalso; apply Hne; reflexivity|]. split; reflexivity.
Qed.

Lemma is_local_file_other (self : File) :
  _source self <> FILE -> is_local_file self = false.
Proof.
  intros H. unfold is_local_file.
  rewrite bool_decide_eq_false_2 by assumption. reflexivity.
Qed.

(** What [from_file] resolves for a file the filesystem has. *)
Lemma from_file_resolved (w : World) (x : string)
    (hint : option MetadataHint) (node : FsNode) :
  fs w !! abspath E x = Some node ->
  abspath E x <> EmptyString ->
  exists f,
    from_file E w x hint = inr f
    /\ _source f = FILE
    /\ _bytes f = Some (node_content node)
    /\ _stream f = None
    /\ path (_metadata f) = Some (abspath E x)
    /\ size (_metadata f) = Some (node_size node).
Proof.
  intros Hnode Hne. unfold from_file. rewrite Hnode.
  eexists. split; [reflexivity|]. cbn [_source _bytes _stream _metadata].
  repeat (split; [reflexivity|]).
  split; [apply build_path|].
  apply (build_stat_fields E w _ None None _ (abspath E x)
           (mkStat (node_size node) (node_mtime node) (node_ctime node)));
    [reflexivity|exact Hne|].
  unfold os_stat. rewrite Hnode. reflexivity.
Qed.

(** The name [from_file] resolves when the hint brings no response. *)
Lemma from_file_name (w : World) (x : string) (hint : option MetadataHint)
    (f : File) :
  from_file E w x hint = inr f ->
  hint_response (default no_hint hint) = None ->
  name (_metadata f) = Some (basename (abspath E x)).
Proof.
  unfold from_file. destruct (fs w !! abspath E x); [|discriminate].
  intros [= <-] Hresp. cbn [_metadata]. rewrite build_name.
  unfold transported, effective_response.
  change (default no_hint (Some ?h)) with h.
  cbn [hint_response hint_with_name hint_with_path]. rewrite Hresp.
  reflexivity.
Qed.

(** A refresh of a local file is [from_file] on its path. *)
Lemma refresh_local (self : File) (w : World) (p : string) :
  _source self = FILE -> path (_metadata self) = Some p -> p <> EmptyString ->
  refresh_into E self w
  = match from_file E w p None with
    | inr new => mkOutcome (inr tt) new w
    | inl e => mkOutcome (inl e) self w
    end.
Proof.
  intros Hs Hp Hne. unfold refresh_into, _refresh. rewrite Hs, Hp.
  destruct p; [exfalso; apply Hne; reflexivity|]. reflexivity.
Qed.

(** The shape the three mutators share: the file stored anew, then the
    entity rebuilt from it. *)
Lemma store_then_refresh (self : File) (w : World) (p : string)
    (new : bytes) :
  _source self = FILE -> path (_metadata self) = Some p -> p <> EmptyString ->
  abspath E p = p ->
  let o := refresh_into E self (store_file w p new) in
  result o = inr tt
  /\ world_after o = store_file w p new
  /\ _source (self_after o) = FILE
  /\ _bytes (self_after o) = Some new
  /\ path (_metadata (self_after o)) = Some p
  /\ size (_metadata (self_after o)) = Some (len new).
Proof.
  intros Hs Hp Hne Habs. cbv zeta.
  rewrite (refresh_local self _ p Hs Hp Hne).
  destruct (from_file_resolved (store_file w p new) p None
              (mkFsNode new (len new) (now w) (now w)))
    as (f & -> & Hsrc & Hbytes & _ & Hpath & Hsize).
  - rewrite Habs. apply fs_store_same.
  - rewrite Habs. exact Hne.
  - cbn [result world_after self_after]. rewrite Habs in Hpath.
    repeat split; assumption.
Qed.

(** [read] leaves the source and the metadata, and on a local file the
    test of the mutators. *)
Lemma read_keeps (self : File) :
  _source (snd (read self)) = _source self
  /\ _metadata (snd (read self)) = _metadata self
  /\ fst (read (snd (read self))) = fst (read self).
Proof.
  unfold read. destruct (_bytes self) eqn:Hb.
  - cbn [fst snd]. rewrite Hb. repeat split.
  - destruct (_stream self) eqn:Hst; cbn [fst snd _bytes]; [repeat split|].
    rewrite Hb, Hst. repeat split.
Qed.

End WorldFacts.

(** ** Mutators of a local file *)

Section LocalMutators.
Import Py Resolver FileEntity Operations Props OpsProps.
Context (E : Env).

(** X7.  Whenever [from_file] returns an entity, the entity is tagged
    FILE, its path is the absolute path whatever path the hint names,
    it holds the content read from a file the filesystem has at that
    path, and its size is the size the stat result reports for that
    file, which for a file that is not regular need not be the number
    of bytes read; its name is the last segment of the absolute path
    when the hint carries no transport response. *)
Theorem local_file_facts (w : World) (x : string)
    (hint : option MetadataHint) (f : File) :
  from_file E w x hint = inr f ->
  _source f = FILE
  /\ path (_metadata f) = Some (abspath E x)
  /\ (exists node,
        fs w !! abspath E x = Some node
        /\ _bytes f = Some (node_content node)
        /\ (abspath E x <> EmptyString ->
            size (_metadata f) = Some (node_size node)))
  /\ (hint_response (default no_hint hint) = None ->
      name (_metadata f) = Some (basename (abspath E x))).
Proof.
  intros Hf.
  destruct (fs w !! abspath E x) as [node|] eqn:Hnode;
    [|unfold from_file in Hf; rewrite Hnode in Hf; discriminate Hf].
  assert (Hshape :
    _source f = FILE /\ _bytes f = Some (node_content node)
    /\ path (_metadata f) = Some (abspath E x)).
  { unfold from_file in Hf. rewrite Hnode in Hf. injection Hf as <-.
    cbn [_source _bytes _metadata]. repeat split. apply build_path. }
  destruct Hshape as (Hsrc & Hb & Hp).
  split; [exact Hsrc|]. split; [exact Hp|]. split.
  - exists node. split; [reflexivity|]. split; [exact Hb|].
    intros Hne.
    destruct (from_file_resolved E w x hint node Hnode Hne)
      as (f' & Hf' & _ & _ & _ & _ & Hsize).
    rewrite Hf in Hf'. injection Hf' as <-. exact Hsize.
  - intros Hresp. exact (from_file_name E w x hint f Hf Hresp).
Qed.



Lemma length_truncated (n : nat) (old : bytes) :
  length (truncated n old) = n.
Proof.
  unfold truncated.
  rewrite List.length_app, List.length_firstn, length_replicate. lia.
Qed.

Lemma fits_offset_spec (n : Z) :
  fits_offset n = true <-> (- 2 ^ 63 <= n < 2 ^ 63)%Z.
Proof.
  unfold fits_offset. rewrite andb_true_iff, Z.leb_le, Z.ltb_lt. tauto.
Qed.

(** What [truncate] does on a local file that exists and that [open]
    does not refuse. *)
Lemma truncate_local (self : File) (w : World) (n : Z) (p : string)
    (node : FsNode) :
  _source self = FILE -> path (_metadata self) = Some p -> p <> EmptyString ->
  open_error w UpdateMode p = None ->
  fs w !! p = Some node ->
  truncate E self w n
  = match truncate_file w p node n with
    | inl e => mkOutcome (inl e) self w
    | inr w' => refresh_into E self w'
    end.
Proof.
  intros Hs Hp Hne Hopen Hnode. unfold truncate.
  rewrite (proj2 (is_local_file_true self p Hs Hp Hne)), Hp.
  change (default EmptyString (Some p)) with p. cbv iota.
  rewrite Hopen, Hnode. reflexivity.
Qed.

(** X10.  [truncate] on a local file that exists, under an absolute path
    that opens as a regular file in the mode r+b, to a size that is
    neither negative, nor beyond the offsets of 64 bits, nor above the
    limit of the filesystem, succeeds: the file and the buffer of the
    rebuilt entity hold exactly that many bytes, the resolved size is
    that size, and the bytes are the first bytes of the old content when
    the old content was at least as long. *)
Theorem truncate_cuts_or_pads (self : File) (w : World) (n : Z)
    (p : string) (node : FsNode) :
  _source self = FILE -> path (_metadata self) = Some p -> p <> EmptyString ->
  abspath E p = p ->
  opening w UpdateMode p = Regular ->
  fs w !! p = Some node ->
  (0 <= n)%Z -> (n < 2 ^ 63)%Z -> (n <= file_size_limit w)%Z ->
  let new := truncated (Z.to_nat n) (node_content node) in
  let o := truncate E self w n in
  result o = inr tt
  /\ node_content <$> fs (world_after o) !! p = Some new
  /\ (forall q, q <> p -> fs (world_after o) !! q = fs w !! q)
  /\ _bytes (self_after o) = Some new
  /\ len new = n
  /\ size (_metadata (self_after o)) = Some n
  /\ (Z.to_nat n <= length (node_content node) ->
      new = firstn (Z.to_nat n) (node_content node)).
Proof.
  intros Hs Hp Hne Habs Hopen Hnode Hn Hoff Hlim. cbv zeta.
  rewrite (truncate_local self w n p node Hs Hp Hne
             (open_error_regular w _ p Hopen) Hnode).
  unfold truncate_file.
  assert (Hfits : fits_offset n = true) by (apply fits_offset_spec; lia).
  rewrite Hfits. cbn [negb].
  destruct (Z.ltb_spec n 0) as [Hneg|_]; [lia|].
  rewrite Hopen.
  destruct (Z.ltb_spec (file_size_limit w) n) as [Hbig|_]; [lia|].
  fold (truncated (Z.to_nat n) (node_content node)).
  destruct (store_then_refresh E self w p
              (truncated (Z.to_nat n) (node_content node))
              Hs Hp Hne Habs) as (Hr & Hw & Hsrc & Hb & Hpath & Hsize).
  assert (Hlen : len (truncated (Z.to_nat n) (node_content node)) = n).
  { unfold len. rewrite length_truncated. lia. }
  split; [exact Hr|]. rewrite Hw.
  split; [rewrite fs_store_same; reflexivity|].
  split; [intros q Hq; apply fs_store_other, Hq|].
  split; [exact Hb|]. split; [exact Hlen|].
  split; [rewrite Hsize, Hlen; reflexivity|].
  intros Hshort. unfold truncated.
  replace (Z.to_nat n - length (node_content node))%nat with 0%nat by lia.
  apply app_nil_r.
Qed.

(** X11.  [truncate] on a local file raises, and changes neither the
    entity nor the world: the exception of [open] when [open] refuses
    the path; FileNotFoundError when the file is missing, which is then
    not created; OverflowError when the file exists and the size does
    not fit a signed offset of 64 bits; OSError when the file exists and
    the size is negative, or above the limit of the filesystem. *)
Theorem truncate_failures (self : File) (w : World) (n : Z) (p : string) :
  _source self = FILE -> path (_metadata self) = Some p -> p <> EmptyString ->
  (forall e,
      opening w UpdateMode p = Refused e ->
      truncate E self w n = mkOutcome (inl e) self w)
  /\ (open_error w UpdateMode p = None ->
      fs w !! p = None ->
      truncate E self w n = mkOutcome (inl (FileNotFoundError p)) self w)
  /\ (open_error w UpdateMode p = None ->
      is_Some (fs w !! p) ->
      ((n < - 2 ^ 63 \/ 2 ^ 63 <= n)%Z ->
       exists msg,
         truncate E self w n = mkOutcome (inl (OverflowError msg)) self w)
      /\ ((- 2 ^ 63 <= n < 0)%Z ->
          truncate E self w n = mkOutcome (inl (OSError p)) self w)
      /\ ((0 <= n < 2 ^ 63)%Z -> (file_size_limit w < n)%Z ->
          truncate E self w n = mkOutcome (inl (OSError p)) self w)).
Proof.
  intros Hs Hp Hne. split; [|split].
  - intros e Hopen. unfold truncate.
    rewrite (proj2 (is_local_file_true self p Hs Hp Hne)), Hp.
    change (default EmptyString (Some p)) with p. cbv iota.
    rewrite (open_error_refused w _ p e Hopen). reflexivity.
  - intros Hopen Hnone. unfold truncate.
    rewrite (proj2 (is_local_file_true self p Hs Hp Hne)), Hp.
    change (default EmptyString (Some p)) with p. cbv iota.
    rewrite Hopen, Hnone. reflexivity.
  - intros Hopen [node Hnode].
    rewrite (truncate_local self w n p node Hs Hp Hne Hopen Hnode).
    unfold truncate_file. split; [|split].
    + intros Hout.
      assert (Hfits : fits_offset n = false).
      { destruct (fits_offset n) eqn:Hf; [|reflexivity].
        apply fits_offset_spec in Hf. lia. }
      rewrite Hfits. cbn [negb]. eexists. reflexivity.
    + intros Hin.
      assert (Hfits : fits_offset n = true) by (apply fits_offset_spec; lia).
      rewrite Hfits. cbn [negb].
      destruct (Z.ltb_spec n 0) as [_|Hpos]; [reflexivity|lia].
    + intros Hin Hbig.
      assert (Hfits : fits_offset n = true) by (apply fits_offset_spec; lia).
      rewrite Hfits. cbn [negb].
      destruct (Z.ltb_spec n 0) as [Hneg|_]; [lia|].
      destruct (opening w UpdateMode p); try reflexivity.
      destruct (Z.ltb_spec (file_size_limit w) n) as [_|Hsmall];
        [reflexivity|lia].
Qed.

End LocalMutators.

(** ** Saving, moving, deleting *)

Section SaveMoveDelete.
Import Py Resolver FileEntity Operations Props OpsProps.
Context (E : Env) (Sv : Services).





(** X14.  On an entity that is not a local file, [delete] does nothing and
    raises nothing, and [move] removes nothing: it leaves the world as
    [save] leaves it. *)
Theorem nothing_removed_for_other_sources (self : File) (w : World) :
  _source self <> FILE ->
  delete_file self w = mkOutcome (inr tt) self w
  /\ (forall dest,
        abspath E dest <> EmptyString ->
        move E self w dest = save E self w dest
        /\ world_after (move E self w dest)
           = write_file w (abspath E dest) (fst (read self))).
Proof.
  intros Hsrc. split.
  - unfold delete_file, remove_if_local.
    rewrite (is_local_file_other self Hsrc). reflexivity.
  - intros dest Hdest.
    assert (Hmove : move E self w dest = save E self w dest).
    { unfold move. destruct (save E self w dest) as [[e|new] s1 w1] eqn:Hsave;
        cbn [result self_after world_after]; [reflexivity|].
      assert (Hs1 : s1 = snd (read self)).
      { unfold save in Hsave. destruct (read self) as [data self1].
        cbv zeta in Hsave.
        destruct (open_error w WriteMode (abspath E dest));
          injection Hsave as _ <- _; reflexivity. }
      unfold remove_if_local.
      rewrite is_local_file_other
        by (rewrite Hs1, (proj1 (read_keeps self)); exact Hsrc).
      reflexivity. }
    split; [exact Hmove|]. rewrite Hmove. unfold save, write_file, open_error.
    destruct (read self) as [data self1]. cbn [fst]. cbv zeta.
    destruct (opening w WriteMode (abspath E dest)); reflexivity.
Qed.


(** X16.  An entity that is not a local file always exists and is readable,
    is never writable and has no stat result, whatever the filesystem
    holds and whatever the operating system would answer. *)
Theorem in_memory_queries (self : File) (w : World) :
  _source self <> FILE ->
  exists_ self w = true
  /\ is_readable Sv self w = true
  /\ is_writable Sv self w = false
  /\ get_stats self w = inr None.
Proof.
  intros Hsrc. unfold exists_, is_readable, is_writable, get_stats.
  rewrite (is_local_file_other self Hsrc). repeat split.
Qed.

End SaveMoveDelete.

(** ** Object storage *)

Section ObjectStorage.
Import Py Re Resolver FileEntity ContentDisposition Operations Props OpsProps.
Context (E : Env) (Sv : Services).

(** What [from_s3] builds for an object that has a body. *)
Lemma from_s3_resolved (w : World) (b k : string)
    (hint : option MetadataHint) (r : S3Response) (body : bytes) :
  s3_objects w !! (b, k) = Some r ->
  Body r = Some body ->
  exists f,
    from_s3 E w b k hint = inr f
    /\ _source f = S3
    /\ _bytes f = Some body
    /\ url (_metadata f) = Some ("s3://" +:+ b +:+ "/" +:+ k)
    /\ name (_metadata f)
       = name (transported E
                 (Some (hint_with_name
                          (hint_with_url (default no_hint hint)
                             ("s3://" +:+ b +:+ "/" +:+ k))
                          (basename k)))
                 None (Some r)).
Proof.
  intros Hobj Hbody. unfold from_s3. rewrite Hobj, Hbody.
  eexists. split; [reflexivity|]. cbn [_source _bytes _metadata].
  split; [reflexivity|]. split; [reflexivity|].
  split; [apply build_url|apply build_name].
Qed.

(** X17.  [get_signed_url] refuses every entity that is not tagged S3; for
    an entity constructed from a bucket without path separator and a key,
    it asks the client to sign exactly that bucket and that key. *)
Theorem signed_url_of_stored_object (w : World) (b k : string)
    (hint : option MetadataHint) (r : S3Response) (body : bytes)
    (expires_in : Z) :
  (forall self,
      _source self <> S3 ->
      get_signed_url Sv self expires_in
      = inl (RuntimeError "Cannot generate signed URL for non-S3 file"))
  /\ (has_char "/" b = false ->
      s3_objects w !! (b, k) = Some r ->
      Body r = Some body ->
      exists f,
        from_s3 E w b k hint = inr f
        /\ get_signed_url Sv f expires_in
           = inr (generate_presigned_url Sv b k expires_in)).
Proof.
  split.
  - intros self Hsrc. unfold get_signed_url.
    rewrite bool_decide_eq_false_2 by exact Hsrc. reflexivity.
  - intros Hb Hobj Hbody.
    destruct (from_s3_resolved w b k hint r body Hobj Hbody)
      as (f & Hf & Hsrc & _ & Hurl & _).
    exists f. split; [exact Hf|].
    unfold get_signed_url. rewrite Hsrc, Hurl.
    change (default EmptyString (Some ?u)) with u.
    rewrite (parse_s3_url_of_locator b k Hb). reflexivity.
Qed.

(** X18.  A refresh runs the factory of the source again on what the entity
    stores, without the hint the entity was made with: the bucket and the
    key read back from the locator, the URL, the buffered bytes, the
    absolute path.  An entity made from a stream cannot be refreshed,
    because the factory keeps no stream: the refresh raises RuntimeError,
    with a message that ends in the source tag as the interpreter formats
    a member of the enumeration. *)
Theorem refresh_reruns_factory (w w' : World) (hint : option MetadataHint) :
  (forall b k f,
      has_char "/" b = false ->
      from_s3 E w b k hint = inr f ->
      _refresh E f w' = from_s3 E w' b k None)
  /\ (forall u f,
      u <> EmptyString ->
      from_url E w u hint = inr f ->
      _refresh E f w' = from_url E w' u None)
  /\ (forall data f,
      from_bytes E w data hint = inr f ->
      _refresh E f w' = from_bytes E w' data None)
  /\ (forall x f,
      abspath E x <> EmptyString ->
      from_file E w x hint = inr f ->
      _refresh E f w' = from_file E w' (abspath E x) None)
  /\ (forall s f,
      from_stream E w s hint = inr f ->
      _refresh E f w'
      = inl (RuntimeError
               ("Cannot refresh file from source: "
                +:+ format_source E STREAM))).
Proof.
  repeat split.
  - intros b k f Hb Hf. unfold from_s3 in Hf.
    destruct (s3_objects w !! (b, k)) as [r|]; [|discriminate].
    destruct (Body r); [|discriminate]. injection Hf as <-.
    unfold _refresh. cbn [_source _metadata]. rewrite build_url.
    change (default no_hint (Some ?h)) with h.
    cbn [hint_url hint_with_name hint_with_url truthy].
    change (default EmptyString (Some ?u)) with u.
    rewrite (parse_s3_url_of_locator b k Hb). reflexivity.
  - intros u f Hne Hf. unfold from_url in Hf.
    destruct (http w !! u) as [r|]; [|discriminate].
    destruct ((200 <=? status_code r)%Z && (status_code r <? 300)%Z);
      [|discriminate].
    injection Hf as <-. unfold _refresh. cbn [_source _metadata].
    rewrite build_url. change (default no_hint (Some ?h)) with h.
    cbn [hint_url hint_with_url].
    destruct u; [exfalso; apply Hne; reflexivity|]. reflexivity.
  - intros data f [= <-]. reflexivity.
  - intros x f Hne Hf. unfold from_file in Hf.
    destruct (fs w !! abspath E x); [|discriminate]. injection Hf as <-.
    unfold _refresh. cbn [_source _metadata]. rewrite build_path.
    change (default no_hint (Some ?h)) with h.
    cbn [hint_path hint_with_name hint_with_path].
    destruct (abspath E x); [exfalso; apply Hne; reflexivity|]. reflexivity.
  - intros s f Hf. unfold from_stream in Hf.
    destruct (match s with
              | AsyncIterator cs => inr cs
              | FileLike remaining =>
                  match read_loop (Datatypes.S (length remaining)) remaining with
                  | Some cs => inr cs
                  | None => inl (RuntimeError "read loop out of fuel")
                  end
              | NotAStream => inl (TypeError _)
              end) as [e|chunks]; [discriminate|].
    injection Hf as <-. reflexivity.
Qed.

End ObjectStorage.

(** ** Paths *)

Section PathFacts.
Import Py Props.

Lemma take_drop (n : nat) (s : string) : take n s +:+ drop n s = s.
Proof.
  revert s. induction n as [|n IH]; intros s; [reflexivity|].
  destruct s as [|c s]; [reflexivity|].
  cbn [take drop]. rewrite app_cons, IH. reflexivity.
Qed.

(** [rfind] finds nothing exactly when the character is absent. *)
Lemma rfind_none (c : ascii) (s : string) :
  rfind c s = None <-> has_char c s = false.
Proof.
  induction s as [|a s IH]; cbn [rfind has_char]; [tauto|].
  destruct (rfind c s) as [i|].
  - split; [discriminate|]. intros H. apply orb_false_elim in H as [_ H].
    apply IH in H. discriminate H.
  - destruct (Ascii.eqb a c); cbn [orb]; [split; discriminate|].
    split; intros _; [apply IH|]; reflexivity.
Qed.

(** At the index [rfind] returns stands the character, and it does not
    occur after that index. *)
Lemma rfind_last (c : ascii) (s : string) (i : nat) :
  rfind c s = Some i ->
  startswith (String c EmptyString) (drop i s) = true
  /\ has_char c (drop (Datatypes.S i) s) = false.
Proof.
  revert i. induction s as [|a s IH]; intros i; cbn [rfind]; [discriminate|].
  destruct (rfind c s) as [j|] eqn:Hj.
  - intros [= <-]. cbn [drop]. apply IH. reflexivity.
  - destruct (Ascii.eqb a c) eqn:Hac; [|discriminate].
    intros [= <-]. cbn [drop startswith].
    rewrite (Ascii.eqb_sym c a), Hac. split; [reflexivity|].
    apply rfind_none, Hj.
Qed.

(** The last component of a path holds no separator. *)
Lemma basename_no_separator (p : string) :
  has_char "/" (basename p) = false.
Proof.
  unfold basename. destruct (rfind "/" p) as [i|] eqn:Hi.
  - apply (rfind_last _ _ _ Hi).
  - apply rfind_none, Hi.
Qed.

(** The two parts of [splitext] make the path again, and the extension is
    empty or begins with the separator. *)
Lemma splitext_parts (p : string) :
  fst (splitext p) +:+ snd (splitext p) = p
  /\ (snd (splitext p) = EmptyString
      \/ startswith "." (snd (splitext p)) = true).
Proof.
  unfold splitext. destruct (rfind "." p) as [i|] eqn:Hi.
  - destruct (_ && _); cbn [fst snd].
    + split; [apply take_drop|]. right. apply (rfind_last _ _ _ Hi).
    + split; [|left; reflexivity].
      clear. induction p as [|c p IH]; [reflexivity|].
      rewrite app_cons, IH. reflexivity.
  - cbn [fst snd]. split; [|left; reflexivity].
    clear. induction p as [|c p IH]; [reflexivity|].
    rewrite app_cons, IH. reflexivity.
Qed.

End PathFacts.

(** ** More on the Content-Disposition parser *)

Section ParserShape.
Import Py Re Props OpsProps ContentDisposition Operations.
Variable unquote : string -> string.

(** X19.  The parser returns an extension only with a filename; a returned
    extension begins with the separator and ends the filename, and a
    filename without extension comes with none. *)
Theorem parsed_extension_ends_filename (h : string) :
  let r := parse_content_disposition unquote h in
  (fst r = None -> snd r = None)
  /\ (forall fn e,
        r = (Some fn, Some e) ->
        startswith "." e = true /\ exists root, fn = root +:+ e)
  /\ (forall fn,
        r = (Some fn, None) -> snd (splitext fn) = EmptyString).
Proof.
  cbv zeta. unfold parse_content_disposition.
  destruct h as [|c h]; [repeat split; intros; discriminate|].
  cbv zeta.
  match goal with
  | |- context [match ?X with Some _ => _ | None => (None, None) end] =>
      generalize X
  end.
  intros [fn0|]; [|repeat split; intros; discriminate].
  destruct (splitext_parts fn0) as [Hcat Hext].
  split; [discriminate|]. split.
  - intros fn e. destruct (snd (splitext fn0)) as [|d ext] eqn:He;
      cbn [truthy]; [discriminate|].
    intros [= <- <-]. destruct Hext as [Hext|Hext]; [discriminate|].
    split; [exact Hext|]. exists (fst (splitext fn0)). symmetry. exact Hcat.
  - intros fn. destruct (snd (splitext fn0)) as [|d ext] eqn:He;
      cbn [truthy]; [|discriminate].
    intros [= <-]. exact He.
Qed.

Lemma startswith_prefix (w1 w2 t : string) :
  startswith (w1 +:+ w2) t = true -> startswith w1 t = true.
Proof.
  revert t. induction w1 as [|a w1 IH]; intros t; [reflexivity|].
  rewrite app_cons. destruct t as [|b t]; cbn [startswith]; [discriminate|].
  intros H. apply andb_prop in H as [Hab H]. rewrite Hab. apply IH, H.
Qed.

Lemma startswith_lower (w t : string) :
  lower_str w = w -> startswith w t = true ->
  startswith w (lower_str t) = true.
Proof.
  revert t. induction w as [|a w IH]; intros t; [reflexivity|].
  cbn [lower_str]. intros [= Ha Hw].
  destruct t as [|b t]; cbn [startswith lower_str]; [discriminate|].
  intros H. apply andb_prop in H as [Hab H].
  apply Ascii.eqb_eq in Hab. subst b. rewrite Ha, Ascii.eqb_refl.
  apply IH; assumption.
Qed.

(** X20.  A header of characters with code points below 256 in which
    the keyword filename does not occur, in any case of its ASCII
    letters, yields no filename and no extension.  (Above 255, the
    case-insensitive pattern also takes the dotless and the dotted
    capital i for the letter i, which this embedding of strings does
    not hold.) *)
Theorem header_without_keyword (h : string) :
  occurs "filename" (lower_str h) = false ->
  parse_content_disposition unquote h = (None, None).
Proof.
  intros Hno.
  assert (Hsuffix : forall t u, h = u +:+ t ->
            startswith "filename" (lower_str t) = false).
  { intros t u ->. rewrite lower_str_app in Hno.
    exact (occurs_false_suffix _ _ _ Hno). }
  assert (Hstar : search star_pattern h = None).
  { apply search_nowhere. intros t u Hh. apply star_pattern_needs_keyword.
    destruct (startswith "filename*" t) eqn:Hst; [|reflexivity].
    pose proof (startswith_prefix "filename" "*" t Hst) as Hp.
    pose proof (startswith_lower "filename" t eq_refl Hp) as Hl.
    rewrite (Hsuffix t u Hh) in Hl. discriminate Hl. }
  assert (Hplain : search plain_pattern h = None).
  { apply search_nowhere. intros t u Hh. apply plain_pattern_needs_keyword.
    exact (Hsuffix t u Hh). }
  unfold parse_content_disposition. destruct h; [reflexivity|].
  rewrite Hstar, Hplain. reflexivity.
Qed.

(** A word without a character stays absent when that character is
    appended. *)
Lemma startswith_app_foreign (w x : string) (c : ascii) :
  has_char c w = false ->
  w <> EmptyString ->
  startswith w (x +:+ String c EmptyString) = startswith w x.
Proof.
  revert x. induction w as [|a w IH]; intros x Hc Hne;
    [exfalso; apply Hne; reflexivity|].
  cbn [has_char] in Hc. apply orb_false_elim in Hc as [Hac Hc].
  destruct x as [|b x].
  - rewrite app_nil_l. cbn [startswith]. rewrite Hac. reflexivity.
  - rewrite app_cons. cbn [startswith].
    destruct w as [|a' w]; [destruct (x +:+ _), x; reflexivity|].
    rewrite IH; [reflexivity|exact Hc|discriminate].
Qed.

Lemma occurs_app_foreign (w x : string) (c : ascii) :
  has_char c w = false ->
  w <> EmptyString ->
  occurs w x = false ->
  occurs w (x +:+ String c EmptyString) = false.
Proof.
  intros Hc Hne. induction x as [|b x IH].
  - intros _. rewrite app_nil_l. cbn [occurs].
    destruct w as [|a w]; [exfalso; apply Hne; reflexivity|].
    cbn [has_char] in Hc. apply orb_false_elim in Hc as [Hac _].
    cbn [startswith]. rewrite Hac. destruct w; reflexivity.
  - intros H. cbn [occurs] in H. apply orb_false_elim in H as [Hst H].
    rewrite app_cons. cbn [occurs]. rewrite <- app_cons.
    rewrite (startswith_app_foreign w (String b x) c Hc Hne), Hst.
    exact (IH H).
Qed.

(** The header [upload_to_s3] builds parses back to the name. *)
Lemma attachment_header_parses (n : string) :
  n <> EmptyString ->
  all_chars not_quote_semi n = true ->
  occurs "filename*" n = false ->
  fst (parse_content_disposition unquote (attachment_header n))
  = Some (strip n).
Proof.
  intros Hne Hchars Hstar.
  assert (Hshape :
    attachment_header n
    = "attachment; " +:+ "filename" +:+ EmptyString +:+ "=" +:+ EmptyString
      +:+ String dquote EmptyString +:+ n +:+ String dquote EmptyString).
  { reflexivity. }
  assert (Hnostar : occurs "filename*" (attachment_header n) = false).
  { unfold attachment_header. rewrite !app_cons, app_nil_l.
    pose proof (occurs_app_foreign "filename*" n dquote eq_refl
                  ltac:(discriminate) Hstar) as Htail.
    cbn [occurs startswith]. rewrite Htail.
    repeat (rewrite ?andb_false_r, ?andb_false_l; cbn [orb andb]).
    vm_compute. reflexivity. }
  rewrite (parse_plain unquote _ (Some n)).
  - cbn [default]. f_equal. apply strip_quotes_of_plain_value, Hchars.
  - apply search_star_none, Hnostar.
  - rewrite Hshape. apply search_plain_found; [reflexivity|reflexivity|].
    apply plain_pattern_matches; try reflexivity; try assumption.
    right. reflexivity.
Qed.

End ParserShape.

(** ** Uploads *)

Section Uploads.
Import Py Re Resolver FileEntity ContentDisposition Operations Props OpsProps.
Context (E : Env) (Sv : Services).

Lemma upload_resolved (self : File) (w w' : World) (b k : string) :
  put_object Sv w b k (upload_request (snd (read self)) (fst (read self)))
  = inr w' ->
  upload_to_s3 Sv self w b k = mkOutcome (inr tt) (snd (read self)) w'.
Proof.
  intros Hput. unfold upload_to_s3.
  destruct (read self) as [data self1]. cbn [fst snd] in Hput.
  rewrite Hput. reflexivity.
Qed.

(** X21.  The name of an entity survives [save_to_s3] through the
    disposition: with a store that gives back the body and the disposition
    it was given, a name that is not empty, holds no double quote, no
    semicolon and no extended keyword, and has no space around it, is the
    name of the new entity, whatever the key is; the new entity is tagged
    S3, holds the bytes of the original and has the locator of the bucket
    and the key. *)
Theorem save_to_s3_keeps_name (self : File) (w w' : World) (b k n : string) :
  store_gives_back Sv ->
  name (_metadata self) = Some n ->
  n <> EmptyString ->
  all_chars not_quote_semi n = true ->
  occurs "filename*" n = false ->
  strip n = n ->
  put_object Sv w b k (upload_request (snd (read self)) (fst (read self)))
  = inr w' ->
  let o := save_to_s3 E Sv self w b k in
  exists new,
    result o = inr new
    /\ world_after o = w'
    /\ _source new = S3
    /\ fst (read new) = fst (read self)
    /\ url (_metadata new) = Some ("s3://" +:+ b +:+ "/" +:+ k)
    /\ name (_metadata new) = Some n.
Proof.
  intros Hstore Hname Hne Hchars Hstar Hstrip Hput. cbv zeta.
  unfold save_to_s3. rewrite (upload_resolved self w w' b k Hput).
  cbn [result self_after world_after].
  destruct (Hstore w b k _ w' Hput) as (r & Hobj & Hbody & Hcd).
  destruct (from_s3_resolved E w' b k None r _ Hobj Hbody)
    as (new & -> & Hsrc & Hb & Hurl & Hnew).
  exists new. split; [reflexivity|]. split; [reflexivity|].
  split; [exact Hsrc|].
  split; [unfold read at 1; rewrite Hb; reflexivity|].
  split; [exact Hurl|].
  rewrite Hnew. unfold transported.
  cbn [effective_response]. change (default no_hint (Some ?h)) with h.
  cbn [hint_response hint_with_name hint_with_url no_hint stage_http].
  rewrite stage_s3_name, Hcd. cbn [upload_request put_content_disposition].
  rewrite (proj1 (proj2 (read_keeps self))), Hname.
  destruct n as [|c n]; [exfalso; apply Hne; reflexivity|].
  cbn [truthy]. change (default EmptyString (Some ?x)) with x.
  unfold step_disposition.
  change (truthy (Some (attachment_header (String c n)))) with true.
  cbv iota. change (default EmptyString (Some ?x)) with x.
  rewrite (attachment_header_parses (unquote E) (String c n))
    by (try discriminate; assumption).
  rewrite Hstrip. reflexivity.
Qed.



End Uploads.

(** ** Locators and detectors *)

Section LocatorsAndDetectors.
Import Py Detection Resolver FileEntity Props OpsProps.
Context (E : Env).

Lemma split_once_shape (sep : ascii) (s : string) :
  (has_char sep s = false /\ split_once sep s = [s])
  \/ (exists b k,
        split_once sep s = [b; k]
        /\ s = b +:+ String sep k
        /\ has_char sep b = false).
Proof.
  induction s as [|a s IH].
  - left. split; reflexivity.
  - cbn [split_once has_char]. destruct (Ascii.eqb a sep) eqn:Ha.
    + right. exists EmptyString, s. apply Ascii.eqb_eq in Ha. subst a.
      repeat split.
    + destruct IH as [[Hno ->]|(b & k & -> & -> & Hb)].
      * left. rewrite Hno. split; reflexivity.
      * right. exists (String a b), k. cbn [has_char]. rewrite Ha, Hb.
        repeat split.
Qed.

(** X24.  [_parse_s3_url] cuts at the first path separator that is left
    once the first occurrence of the scheme is removed: it succeeds exactly
    when there is one, the bucket then holds no separator and bucket,
    separator and key make up the stripped locator again (a key may hold
    separators); without a separator it raises ValueError. *)
Theorem parse_s3_url_cuts_once (u : string) :
  let stripped := replace_first "s3://" EmptyString u in
  (has_char "/" stripped = false ->
   _parse_s3_url u = inl (ValueError ("Invalid S3 URL: " +:+ u)))
  /\ (has_char "/" stripped = true ->
      exists b k,
        _parse_s3_url u = inr (b, k)
        /\ stripped = b +:+ "/" +:+ k
        /\ has_char "/" b = false).
Proof.
  cbv zeta. unfold _parse_s3_url.
  destruct (split_once_shape "/" (replace_first "s3://" EmptyString u))
    as [[Hno ->]|(b & k & -> & Hs & Hb)].
  - split; [reflexivity|]. rewrite Hno. discriminate.
  - split.
    + rewrite Hs. intros Hno. exfalso. clear -Hno.
      induction b as [|a b IH].
      * rewrite app_nil_l in Hno. discriminate Hno.
      * rewrite app_cons in Hno. cbn [has_char] in Hno.
        apply orb_false_elim in Hno as [_ Hno]. exact (IH Hno).
    + intros _. exists b, k. repeat split; assumption.
Qed.

(** X25.  A name derived from a URL is never the empty string and never
    holds a path separator; without a URL there is no name. *)
Theorem url_name_is_a_segment (u : option string) :
  (forall n,
      _filename_from_url E u = Some n ->
      n <> EmptyString /\ has_char "/" n = false)
  /\ (truthy u = false -> _filename_from_url E u = None).
Proof.
  unfold _filename_from_url. split.
  - intros n. destruct (truthy u); [|discriminate].
    destruct (urlparse_path E (default EmptyString u)) as [pth|]; [|discriminate].
    destruct (truthy (Some (basename pth)) && _) eqn:Hb; [|discriminate].
    intros [= <-]. apply andb_prop in Hb as [Hb _].
    split.
    + intros Hempty. rewrite Hempty in Hb. discriminate Hb.
    + apply basename_no_separator.
  - intros ->. reflexivity.
Qed.

(** X26.  [detect_from_bytes] never returns an empty string: each of its
    two components is absent or not empty, and empty data is never shown
    to the sniffer.  [detect_from_extension] filters its extension only:
    the extension is absent or begins with the separator, while the MIME
    type of a filename that is not empty is whatever [guess_type]
    answers, an empty string included. *)
Theorem detectors_filter_empty_strings :
  (forall data m e,
      detect_from_bytes E data = (m, e) ->
      m <> Some EmptyString /\ e <> Some EmptyString)
  /\ (forall filename m e,
      detect_from_extension E filename = (m, e) ->
      (forall x, e = Some x -> startswith "." x = true)
      /\ (filename <> EmptyString -> m = guess_type E filename))
  /\ detect_from_bytes E [] = (None, None)
  /\ detect_from_extension E EmptyString = (None, None).
Proof.
  split; [|split; [|split; reflexivity]].
  - intros data m e H.
    destruct (detect_from_bytes_truthy E data m e H) as [[-> | Hm] [-> | He]];
      split; try discriminate; intros ->; discriminate.
  - intros filename m e. unfold detect_from_extension.
    destruct filename as [|c filename]; [intros [= <- <-]; split|].
    + intros x Hx. discriminate Hx.
    + intros Hne. exfalso. apply Hne. reflexivity.
    + destruct (splitext_parts (String c filename)) as [_ Hext].
      destruct (snd (splitext (String c filename))) as [|d ext];
        cbn [truthy]; intros [= <- <-]; split; try reflexivity.
      * intros x Hx. discriminate Hx.
      * intros x [= <-]. destruct Hext as [Hext|Hext];
          [discriminate Hext|exact Hext].
Qed.

End LocatorsAndDetectors.

(** ** More on names, sizes and reading *)

Section NamesAndSizes.
Import Py Detection Resolver FileEntity ContentDisposition Operations Props OpsProps.
Context (E : Env).

(** X27.  A content-length header that parses is the size of a download,
    whatever the hint says and whatever the length of the body is. *)
Theorem download_declared_length_stands
    (w : World) (u : string) (hint : option MetadataHint) (r : Response)
    (cl : string) (n : Z) :
  http w !! u = Some r ->
  (200 <=? status_code r)%Z && (status_code r <? 300)%Z = true ->
  headers r !! "content-length" = Some cl ->
  py_int E cl = Some n ->
  exists f,
    from_url E w u hint = inr f
    /\ _bytes f = Some (content r)
    /\ size (_metadata f) = Some n.
Proof.
  intros Hu Hok Hcl Hn. unfold from_url. rewrite Hu, Hok.
  eexists. split; [reflexivity|]. split; [reflexivity|].
  cbn [_metadata]. use_build_admin. rewrite Hsize.
  cbn [stage_s3 effective_response]. rewrite stage_http_size, Hcl, Hn.
  reflexivity.
Qed.

(** X28.  The name of an entity made from object storage is a non-empty
    filename parsed from the disposition attribute of the response, and
    otherwise, when the hint carries no transport response, the last
    segment of the key: a name in the hint is never used. *)
Theorem stored_object_name
    (w : World) (b k : string) (hint : option MetadataHint)
    (r : S3Response) (body : bytes) :
  s3_objects w !! (b, k) = Some r ->
  Body r = Some body ->
  let cd := ContentDisposition r in
  let cd_name :=
    if truthy cd
    then fst (parse_content_disposition (unquote E) (default EmptyString cd))
    else None in
  exists f,
    from_s3 E w b k hint = inr f
    /\ (truthy cd_name = true -> name (_metadata f) = cd_name)
    /\ (truthy cd_name = false ->
        hint_response (default no_hint hint) = None ->
        name (_metadata f) = Some (basename k)).
Proof.
  intros Hobj Hbody. cbv zeta.
  destruct (from_s3_resolved E w b k hint r body Hobj Hbody)
    as (f & Hf & _ & _ & _ & Hname).
  exists f. split; [exact Hf|]. rewrite Hname. unfold transported.
  rewrite stage_s3_name. unfold step_disposition.
  destruct (truthy (ContentDisposition r)).
  - destruct (truthy (fst (parse_content_disposition (unquote E) _))) eqn:Hn.
    + split; [reflexivity|discriminate].
    + split; [discriminate|]. intros _ Hresp.
      unfold effective_response. change (default no_hint (Some ?h)) with h.
      cbn [hint_response hint_with_name hint_with_url]. rewrite Hresp.
      reflexivity.
  - split; [discriminate|]. intros _ Hresp.
    unfold effective_response. change (default no_hint (Some ?h)) with h.
    cbn [hint_response hint_with_name hint_with_url]. rewrite Hresp.
    reflexivity.
Qed.

(** X29.  [read] caches: for every state of an entity a second [read]
    returns what the first returned, and the source tag and the metadata
    are untouched.  An entity with no buffer and a pending stream that
    has [__aiter__] reads the concatenation of the chunks and stores it;
    with a pending object that has no [__aiter__], a file-like object
    included, it reads and stores the empty byte string and leaves the
    object as it is; with neither buffer nor stream it reads the empty
    byte string and stores nothing. *)
Theorem read_caches (self : File) :
  fst (read (snd (read self))) = fst (read self)
  /\ _source (snd (read self)) = _source self
  /\ _metadata (snd (read self)) = _metadata self
  /\ (forall chunks,
        _bytes self = None -> _stream self = Some (AsyncIterator chunks) ->
        fst (read self) = concat chunks
        /\ _bytes (snd (read self)) = Some (concat chunks))
  /\ (forall st,
        _bytes self = None -> _stream self = Some st ->
        (forall chunks, st <> AsyncIterator chunks) ->
        fst (read self) = []
        /\ _bytes (snd (read self)) = Some []
        /\ _stream (snd (read self)) = Some st)
  /\ (_bytes self = None -> _stream self = None ->
      fst (read self) = [] /\ snd (read self) = self).
Proof.
  destruct (read_keeps self) as (Hs & Hm & Hr).
  split; [exact Hr|]. split; [exact Hs|]. split; [exact Hm|].
  unfold read. split; [|split].
  - intros chunks -> ->. split; reflexivity.
  - intros st -> -> Hst. destruct st as [chunks| |].
    + exfalso. exact (Hst chunks eq_refl).
    + repeat split.
    + repeat split.
  - intros -> ->. split; reflexivity.
Qed.

End NamesAndSizes.

(** * The further properties on the sample world *)

Lemma sample_store_gives_back : OpsProps.store_gives_back SampleOps.services.
Proof.
  intros w bucket key req w' [= <-].
  exists (mkS3Response (Some (Operations.put_body req))
            (Operations.put_content_disposition req)
            (Operations.put_content_type req)
            (Some (LenInt (FileEntity.len (Operations.put_body req))))
            None None).
  split; [|split; reflexivity].
  cbn [s3_objects]. apply lookup_insert_eq.
Qed.


(** The stat result of the sample file replaces the size of the hint;
    for the file of procfs it is 0, with 13 bytes read; and an entity
    made from bytes keeps the creation time of the hint. *)
Lemma stat_decides_size_witness :
  size (Resolver._build_metadata Sample.env Sample.world FILE
          (Some SampleOps.hint_example_path) None None (Some Sample.hello))
  = Some 13%Z
  /\ size (Resolver._build_metadata Sample.env Sample.world FILE
             (Some SampleOps.hint_proc_path) None None (Some Sample.hello))
     = Some 0%Z
  /\ created_at (Resolver._build_metadata Sample.env Sample.world BYTES
                   (Some SampleOps.hint_example_path) None None
                   (Some Sample.hello))
     = Some 0%Z.
Proof.
  split; [|split].
  - apply (proj1 (stat_decides_size Sample.env Sample.world FILE
                    (Some SampleOps.hint_example_path) None None
                    (Some Sample.hello))
             "/tmp/example.txt" (mkStat 13%Z 5%Z 6%Z) eq_refl eq_refl
             ltac:(discriminate) eq_refl).
  - apply (proj1 (stat_decides_size Sample.env Sample.world FILE
                    (Some SampleOps.hint_proc_path) None None
                    (Some Sample.hello))
             "/proc/version" (mkStat 0%Z 5%Z 6%Z) eq_refl eq_refl
             ltac:(discriminate) eq_refl).
  - pose proof (proj2 (stat_decides_size Sample.env Sample.world BYTES
                         (Some SampleOps.hint_example_path) None None
                         (Some Sample.hello))) as Hskip.
    cbv zeta in Hskip.
    destruct (Hskip (or_introl (fun H : BYTES = FILE => eq_ind BYTES
                 (fun s => match s with BYTES => True | _ => False end)
                 I FILE H)))
      as (_ & _ & Hcreated).
    rewrite Hcreated. reflexivity.
Defined.

(** The sniffer's .png replaces the jpg of the hint. *)
Lemma extension_precedence_witness :
  extension (Resolver._build_metadata Sample.env Sample.world BYTES
               (Some SampleOps.hint_jpg) None None (Some Sample.png_data))
  = Some "png".
Proof.
  destruct (extension_precedence Sample.env Sample.world BYTES
              (Some SampleOps.hint_jpg) None None (Some Sample.png_data))
    as [Hsniffed _].
  apply (Hsniffed ".png"). reflexivity.
Defined.

(** The declared text/csv of a download in which nothing is sniffed. *)
Lemma declared_type_stands_witness :
  mime_type (Resolver._build_metadata Sample.env Sample.world URL None
               (Some SampleOps.tagged_response) None (Some Sample.hello))
  = Some "text/csv".
Proof.
  destruct (declared_type_stands Sample.env Sample.world URL None
              (Some SampleOps.tagged_response) None (Some Sample.hello)
              ltac:(discriminate) (or_intror eq_refl)) as [_ Hhttp].
  apply (Hhttp SampleOps.tagged_response); reflexivity.
Defined.

(** The name of the disposition header, not the data.bin of the URL. *)
Lemma download_name_precedence_witness :
  exists f,
    FileEntity.from_url Sample.env SampleOps.tagged_world
      "https://example.com/docs/data.bin" None = inr f
    /\ name (FileEntity._metadata f) = Some "report.pdf".
Proof.
  destruct (download_name_precedence Sample.env SampleOps.tagged_world
              "https://example.com/docs/data.bin" None
              SampleOps.tagged_response eq_refl eq_refl)
    as (f & Hf & Hcd & _).
  exists f. split; [exact Hf|]. apply Hcd. reflexivity.
Defined.

(** The file of procfs: 13 bytes are read and the size is the 0 of the
    stat result; the path of the hint gives way to the absolute path. *)
Lemma local_file_facts_witness :
  exists f,
    FileEntity.from_file Sample.env Sample.world "/proc/version"
      (Some SampleOps.hint_example_path) = inr f
    /\ path (FileEntity._metadata f) = Some "/proc/version"
    /\ FileEntity._bytes f = Some Sample.hello
    /\ size (FileEntity._metadata f) = Some 0%Z
    /\ name (FileEntity._metadata f) = Some "version".
Proof.
  eexists. split; [reflexivity|].
  destruct (local_file_facts Sample.env Sample.world "/proc/version"
              (Some SampleOps.hint_example_path) _ eq_refl)
    as (_ & Hpath & (node & Hnode & Hb & Hsize) & Hname).
  injection Hnode as <-.
  split; [exact Hpath|]. split; [exact Hb|].
  split; [apply Hsize; discriminate|apply Hname; reflexivity].
Defined.



Lemma truncate_cuts_or_pads_witness :
  size (FileEntity._metadata
          (FileEntity.self_after
             (FileEntity.truncate Sample.env SampleOps.file_entity
                Sample.world 5%Z)))
  = Some 5%Z
  /\ FileEntity._bytes
       (FileEntity.self_after
          (FileEntity.truncate Sample.env SampleOps.file_entity Sample.world 5%Z))
     = Some (firstn 5 Sample.hello).
Proof.
  destruct (truncate_cuts_or_pads Sample.env SampleOps.file_entity Sample.world
              5%Z "/tmp/example.txt" Sample.example_node
              eq_refl eq_refl ltac:(discriminate) eq_refl eq_refl eq_refl
              ltac:(lia) ltac:(reflexivity)
              ltac:(intros H; vm_compute in H; discriminate H))
    as (_ & _ & _ & Hb & _ & Hsize & _).
  split; [exact Hsize|exact Hb].
Defined.

Lemma truncate_failures_witness :
  FileEntity.truncate Sample.env SampleOps.file_entity Sample.world (-1)%Z
  = FileEntity.mkOutcome (inl (OSError "/tmp/example.txt"))
      SampleOps.file_entity Sample.world
  /\ FileEntity.truncate Sample.env SampleOps.file_entity Sample.empty_world 5%Z
     = FileEntity.mkOutcome (inl (FileNotFoundError "/tmp/example.txt"))
         SampleOps.file_entity Sample.empty_world
  /\ (exists msg,
        FileEntity.truncate Sample.env SampleOps.file_entity Sample.world
          (2 ^ 63)%Z
        = FileEntity.mkOutcome (inl (OverflowError msg))
            SampleOps.file_entity Sample.world)
  /\ FileEntity.truncate Sample.env SampleOps.file_entity Sample.world
       (2 ^ 63 - 1)%Z
     = FileEntity.mkOutcome (inl (OSError "/tmp/example.txt"))
         SampleOps.file_entity Sample.world.
Proof.
  assert (Hthere : is_Some (fs Sample.world !! "/tmp/example.txt"))
    by (exists Sample.example_node; reflexivity).
  destruct (truncate_failures Sample.env SampleOps.file_entity Sample.world
              (-1)%Z "/tmp/example.txt" eq_refl eq_refl ltac:(discriminate))
    as (_ & _ & Hneg).
  destruct (Hneg eq_refl Hthere) as (_ & Hneg' & _).
  destruct (truncate_failures Sample.env SampleOps.file_entity
              Sample.empty_world 5%Z "/tmp/example.txt" eq_refl eq_refl
              ltac:(discriminate)) as (_ & Hmissing & _).
  destruct (truncate_failures Sample.env SampleOps.file_entity Sample.world
              (2 ^ 63)%Z "/tmp/example.txt" eq_refl eq_refl
              ltac:(discriminate)) as (_ & _ & Hover).
  destruct (Hover eq_refl Hthere) as (Hover' & _).
  destruct (truncate_failures Sample.env SampleOps.file_entity Sample.world
              (2 ^ 63 - 1)%Z "/tmp/example.txt" eq_refl eq_refl
              ltac:(discriminate)) as (_ & _ & Hbig).
  destruct (Hbig eq_refl Hthere) as (_ & _ & Hbig').
  split; [|split; [|split]].
  - apply Hneg'.
    split; [intros H; vm_compute in H; discriminate H|reflexivity].
  - apply Hmissing; reflexivity.
  - apply Hover'. right. intros H. vm_compute in H. discriminate H.
  - apply Hbig'.
    + split; [intros H; vm_compute in H; discriminate H|reflexivity].
    + reflexivity.
Defined.



Lemma nothing_removed_for_other_sources_witness :
  Operations.delete_file Sample.bytes_entity Sample.world
  = FileEntity.mkOutcome (inr tt) Sample.bytes_entity Sample.world.
Proof.
  apply (nothing_removed_for_other_sources Sample.env Sample.bytes_entity
           Sample.world ltac:(discriminate)).
Defined.


Lemma in_memory_queries_witness :
  Operations.exists_ Sample.bytes_entity Sample.empty_world = true
  /\ Operations.is_writable SampleOps.services Sample.bytes_entity
       Sample.empty_world = false.
Proof.
  destruct (in_memory_queries SampleOps.services Sample.bytes_entity
              Sample.empty_world ltac:(discriminate)) as (He & _ & Hw & _).
  split; [exact He|exact Hw].
Defined.

Lemma signed_url_of_stored_object_witness :
  Operations.get_signed_url SampleOps.services Sample.bytes_entity 300%Z
  = inl (RuntimeError "Cannot generate signed URL for non-S3 file")
  /\ exists f,
       FileEntity.from_s3 Sample.env Sample.world "bucket" "docs/key.txt" None
       = inr f
       /\ Operations.get_signed_url SampleOps.services f 300%Z
          = inr "https://bucket.s3.example/docs/key.txt".
Proof.
  destruct (signed_url_of_stored_object Sample.env SampleOps.services
              Sample.world "bucket" "docs/key.txt" None Sample.s3_999
              Sample.hello 300%Z) as [Hother Hs3].
  split.
  - apply Hother. discriminate.
  - apply Hs3; reflexivity.
Defined.

Lemma refresh_reruns_factory_witness :
  (exists f,
     FileEntity.from_s3 Sample.env Sample.world "bucket" "docs/key.txt"
       (Some Sample.hint_42) = inr f
     /\ FileEntity._refresh Sample.env f Sample.empty_world
        = inl (ClientError "bucket" "docs/key.txt"))
  /\ (exists f,
       FileEntity.from_stream Sample.env Sample.world
         (FileEntity.FileLike Sample.hello) None = inr f
       /\ FileEntity._refresh Sample.env f Sample.world
          = inl (RuntimeError
                   "Cannot refresh file from source: FileSource.STREAM")).
Proof.
  destruct (refresh_reruns_factory Sample.env Sample.world Sample.empty_world
              (Some Sample.hint_42)) as (Hs3 & _).
  destruct (refresh_reruns_factory Sample.env Sample.world Sample.world None)
    as (_ & _ & _ & _ & Hstream).
  split.
  - eexists. split; [reflexivity|].
    rewrite (Hs3 "bucket" "docs/key.txt" _ eq_refl eq_refl). reflexivity.
  - eexists. split; [reflexivity|].
    apply (Hstream (FileEntity.FileLike Sample.hello)). reflexivity.
Defined.

Lemma parsed_extension_ends_filename_witness :
  Py.startswith "." ".pdf" = true
  /\ exists root, "report.pdf" = root +:+ ".pdf".
Proof.
  destruct (parsed_extension_ends_filename Sample.sample_unquote
              Sample.header_docstring) as (_ & Hext & _).
  apply (Hext "report.pdf" ".pdf"). reflexivity.
Defined.

Lemma header_without_keyword_witness :
  ContentDisposition.parse_content_disposition Sample.sample_unquote
    "inline; size=3"
  = (None, None).
Proof.
  apply (header_without_keyword Sample.sample_unquote "inline; size=3").
  reflexivity.
Defined.

Lemma save_to_s3_keeps_name_witness :
  exists new,
    FileEntity.result
      (Operations.save_to_s3 Sample.env SampleOps.services Sample.bytes_entity
         Sample.world "bucket" "up/x.bin")
    = inr new
    /\ name (FileEntity._metadata new) = Some "hello.txt".
Proof.
  destruct (save_to_s3_keeps_name Sample.env SampleOps.services
              Sample.bytes_entity Sample.world SampleOps.uploaded_world
              "bucket" "up/x.bin" "hello.txt"
              sample_store_gives_back eq_refl ltac:(discriminate)
              eq_refl eq_refl eq_refl eq_refl)
    as (new & Hr & _ & _ & _ & _ & Hname).
  exists new. split; [exact Hr|exact Hname].
Defined.



Lemma parse_s3_url_cuts_once_witness :
  FileEntity._parse_s3_url "s3://bucket"
  = inl (ValueError "Invalid S3 URL: s3://bucket")
  /\ exists b k,
       FileEntity._parse_s3_url "s3://bucket/docs/key.txt" = inr (b, k)
       /\ "bucket/docs/key.txt" = b +:+ "/" +:+ k.
Proof.
  split.
  - apply (parse_s3_url_cuts_once "s3://bucket"). reflexivity.
  - destruct (parse_s3_url_cuts_once "s3://bucket/docs/key.txt")
      as [_ Hcut].
    destruct (Hcut eq_refl) as (b & k & Hp & Hs & _).
    exists b, k. split; [exact Hp|exact Hs].
Defined.

Lemma url_name_is_a_segment_witness :
  Resolver._filename_from_url Sample.env
    (Some "https://example.com/docs/report.pdf")
  = Some "report.pdf"
  /\ "report.pdf" <> EmptyString
  /\ Py.has_char "/" "report.pdf" = false.
Proof.
  split; [reflexivity|].
  apply (url_name_is_a_segment Sample.env
           (Some "https://example.com/docs/report.pdf")).
  reflexivity.
Defined.

Lemma detectors_filter_empty_strings_witness :
  Some "image/png" <> Some EmptyString /\ Some ".png" <> Some EmptyString.
Proof.
  destruct (detectors_filter_empty_strings Sample.env) as [Hbytes _].
  apply (Hbytes Sample.png_data). reflexivity.
Defined.

Lemma download_declared_length_stands_witness :
  exists f,
    FileEntity.from_url Sample.env SampleOps.long_world
      "https://example.com/long" (Some Sample.hint_42) = inr f
    /\ FileEntity._bytes f = Some Sample.hello
    /\ size (FileEntity._metadata f) = Some 999%Z.
Proof.
  apply (download_declared_length_stands Sample.env SampleOps.long_world
           "https://example.com/long" (Some Sample.hint_42)
           Sample.long_response "999" 999%Z); reflexivity.
Defined.

Lemma stored_object_name_witness :
  exists f,
    FileEntity.from_s3 Sample.env Sample.world "bucket" "docs/key.txt"
      (Some Sample.hint_hello) = inr f
    /\ name (FileEntity._metadata f) = Some "key.txt".
Proof.
  destruct (stored_object_name Sample.env Sample.world "bucket" "docs/key.txt"
              (Some Sample.hint_hello) Sample.s3_999 Sample.hello
              eq_refl eq_refl) as (f & Hf & _ & Hkey).
  exists f. split; [exact Hf|]. apply Hkey; reflexivity.
Defined.

Lemma read_caches_witness :
  fst (FileEntity.read SampleOps.pending_entity) = Sample.png_data
  /\ FileEntity._bytes (snd (FileEntity.read SampleOps.pending_entity))
     = Some Sample.png_data
  /\ fst (FileEntity.read SampleOps.pending_file_like) = []
  /\ FileEntity._bytes (snd (FileEntity.read SampleOps.pending_file_like))
     = Some [].
Proof.
  destruct (read_caches SampleOps.pending_entity) as (_ & _ & _ & Hdrain & _).
  destruct (read_caches SampleOps.pending_file_like)
    as (_ & _ & _ & _ & Hother & _).
  destruct (Hdrain [Sample.png_signature; Sample.hello] eq_refl eq_refl)
    as [Hread Hcache].
  destruct (Hother (FileEntity.FileLike Sample.hello) eq_refl eq_refl
              ltac:(discriminate)) as (Hread' & Hcache' & _).
  repeat split; assumption.
Defined.
